(** * DXIL resource-binding remapping (DXCompiler.cpp)

    A shallow embedding of the DXIL text patcher of
    [Graphics/ShaderTools/src/DXCompiler.cpp]: the [std::string] operations
    the patcher relies on, the record replacement helper, the two declaration
    patchers, the createHandle patcher, the pass driver, the remap pipeline
    and the DXIL container probe.

    Conventions.
    - The IR buffer [String& DXIL] is a list of characters; offsets
      ([size_t]) are natural numbers and [String::npos] is [None].
    - [Uint32] values are integers reduced modulo 2^32 wherever the source
      computes with them.
    - A pass runs on the buffer and ends in one of four ways: it returns, it
      throws (the buffer keeps the edits made so far), it performs an
      operation the C++ standard leaves undefined, or the iteration budget of
      the model is used up.
    - [VERIFY_EXPR], [DEV_CHECK_ERR] and [UNEXPECTED] only report; they do
      not change the control flow and are left out. *)

From Stdlib Require Import String Ascii List ZArith Lia Bool Arith PeanoNat.
Import ListNotations.

(* ================================================================== *)
(** * Text: the part of [std::string] and of the C library that is used *)
(* ================================================================== *)

Module Text.

Abbreviation Str := (list ascii).

Definition dquote : ascii := ascii_of_nat 34.
Definition newline : ascii := ascii_of_nat 10.

(** A string literal of the source. *)
Definition lit (s : string) : Str := list_ascii_of_string s.

(** A literal in which an apostrophe stands for a double quote and a
    vertical bar for a line feed, to write IR fragments. *)
Definition ir_char (c : ascii) : ascii :=
  if Ascii.eqb c "'" then dquote
  else if Ascii.eqb c "|" then newline
  else c.

Definition ir (s : string) : Str := map ir_char (list_ascii_of_string s).

Arguments lit s%_string.
Arguments ir s%_string.

(** [DXIL[i]]: the character at [i]; [operator[]] yields the terminating
    zero at [i = size()]. *)
Definition at_ (s : Str) (i : nat) : ascii := nth i s zero.

Fixpoint mem (c : ascii) (set : Str) : bool :=
  match set with
  | [] => false
  | d :: set' => Ascii.eqb c d || mem c set'
  end.

(** [strncmp(s, pat, strlen(pat)) == 0] for a [pat] without zero
    characters: [pat] is a prefix of [s]. *)
Fixpoint starts_with (pat s : Str) : bool :=
  match pat, s with
  | [], _ => true
  | p :: pat', c :: s' => Ascii.eqb p c && starts_with pat' s'
  | _ :: _, [] => false
  end.

(** First occurrence of [pat] in [s]. *)
Fixpoint find_in (pat s : Str) : option nat :=
  if starts_with pat s then Some 0
  else match s with
       | [] => None
       | _ :: s' => option_map S (find_in pat s')
       end.

(** [s.find(pat, pos)]. *)
Definition find (pat s : Str) (pos : nat) : option nat :=
  if pos <=? length s
  then option_map (Nat.add pos) (find_in pat (skipn pos s))
  else None.

(** Last occurrence of [pat] that starts at or before [n]. *)
Fixpoint rfind_from (pat s : Str) (n : nat) : option nat :=
  if starts_with pat (skipn n s) then Some n
  else match n with
       | 0 => None
       | S m => rfind_from pat s m
       end.

(** [s.rfind(pat, pos)]. *)
Definition rfind (pat s : Str) (pos : nat) : option nat :=
  rfind_from pat s (Nat.min pos (length s)).

Fixpoint first_not_of (set s : Str) : option nat :=
  match s with
  | [] => None
  | c :: s' => if mem c set then option_map S (first_not_of set s') else Some 0
  end.

(** [s.find_first_not_of(set, pos)]. *)
Definition find_first_not_of (set s : Str) (pos : nat) : option nat :=
  option_map (Nat.add pos) (first_not_of set (skipn pos s)).

(** The count [e - pos] of a [substr] or [replace] whose end [e] is the
    result of a search: with [e = npos] the count exceeds what is left of
    the string, and both operations stop at its end. *)
Definition count_to (s : Str) (pos : nat) (e : option nat) : nat :=
  match e with
  | Some e => e - pos
  | None => length s - pos
  end.

(** [s.substr(pos, n)]; [None] is [std::out_of_range]. *)
Definition substr (s : Str) (pos n : nat) : option Str :=
  if pos <=? length s then Some (firstn n (skipn pos s)) else None.

(** [s.replace(pos, n, r)]; [None] is [std::out_of_range]. *)
Definition replace (s : Str) (pos n : nat) (r : Str) : option Str :=
  if pos <=? length s
  then Some (firstn pos s ++ r ++ skipn (pos + n) s)
  else None.

(** [s.insert(pos, r)]; [None] is [std::out_of_range]. *)
Definition insert (s : Str) (pos : nat) (r : Str) : option Str :=
  replace s pos 0 r.

(** ** Characters *)

Definition in_range (lo hi : nat) (c : ascii) : bool :=
  (lo <=? nat_of_ascii c) && (nat_of_ascii c <=? hi).

Definition IsNumberSymbol (c : ascii) : bool := in_range 48 57 c.

Definition IsWordSymbol (c : ascii) : bool :=
  in_range 48 57 c || in_range 97 122 c || in_range 65 90 c
  || Ascii.eqb c "_".

(** [isspace] in the C locale. *)
Definition isspace (c : ascii) : bool :=
  in_range 9 13 c || Ascii.eqb c " ".

(** ** Numbers *)

Definition two32 : Z := 4294967296.

(** [static_cast<Uint32>(z)]. *)
Definition u32 (z : Z) : Z := (z mod two32)%Z.

Definition digit_val (c : ascii) : Z := Z.of_nat (nat_of_ascii c - 48).

Fixpoint skip_spaces (s : Str) : Str :=
  match s with
  | c :: s' => if isspace c then skip_spaces s' else s
  | [] => []
  end.

(** Value of the longest prefix of decimal digits. *)
Fixpoint digits_value (s : Str) (acc : Z) : Z :=
  match s with
  | c :: s' =>
      if IsNumberSymbol c then digits_value s' (acc * 10 + digit_val c)%Z
      else acc
  | [] => acc
  end.

(** What [strtol(s, &end, 10)] reads: blanks, an optional sign, digits.
    [None] when there is no digit (no conversion). *)
Definition read_integer (s : Str) : option Z :=
  let s1 := skip_spaces s in
  let '(neg, s2) :=
    match s1 with
    | c :: r =>
        if Ascii.eqb c "-" then (true, r)
        else if Ascii.eqb c "+" then (false, r)
        else (false, s1)
    | [] => (false, s1)
    end in
  match s2 with
  | c :: _ =>
      if IsNumberSymbol c
      then Some (if neg then (- digits_value s2 0)%Z else digits_value s2 0)
      else None
  | [] => None
  end.

Definition in_int_range (z : Z) : bool :=
  ((-2147483648 <=? z) && (z <=? 2147483647))%Z.

Inductive stoi_result : Type :=
| StoiValue (z : Z)
| StoiInvalidArgument
| StoiOutOfRange.

(** [std::stoi(s)]. *)
Definition stoi (s : Str) : stoi_result :=
  match read_integer s with
  | None => StoiInvalidArgument
  | Some z => if in_int_range z then StoiValue z else StoiOutOfRange
  end.

(** [atoi(s)]: 0 when nothing converts; [None] when the value is not
    representable in [int], which the C standard leaves undefined. *)
Definition atoi (s : Str) : option Z :=
  match read_integer s with
  | None => Some 0%Z
  | Some z => if in_int_range z then Some z else None
  end.

Definition digit_char (d : Z) : ascii := ascii_of_nat (48 + Z.to_nat d).

Fixpoint dec_digits (fuel : nat) (n : Z) (acc : Str) : Str :=
  match fuel with
  | 0 => acc
  | S fuel' =>
      let acc' := digit_char (n mod 10) :: acc in
      if (n / 10 =? 0)%Z then acc' else dec_digits fuel' (n / 10)%Z acc'
  end.

(** [std::to_string(Uint32)]: at most ten decimal digits. *)
Definition to_string (n : Z) : Str := dec_digits 10 (u32 n) [].

End Text.

Import Text.

(* ================================================================== *)
(** * Data model *)
(* ================================================================== *)

(** [enum RES_TYPE]; [RES_TYPE_COUNT] only serves a development check. *)
Inductive RES_TYPE : Type :=
| RES_TYPE_CBV
| RES_TYPE_SRV
| RES_TYPE_SAMPLER
| RES_TYPE_UAV
| RES_TYPE_INVALID.

Definition RES_TYPE_eqb (a b : RES_TYPE) : bool :=
  match a, b with
  | RES_TYPE_CBV, RES_TYPE_CBV
  | RES_TYPE_SRV, RES_TYPE_SRV
  | RES_TYPE_SAMPLER, RES_TYPE_SAMPLER
  | RES_TYPE_UAV, RES_TYPE_UAV
  | RES_TYPE_INVALID, RES_TYPE_INVALID => true
  | _, _ => false
  end.

(** [SHADER_RESOURCE_TYPE], with the values the switch of
    [RemapResourceBindings] names. *)
Inductive SHADER_RESOURCE_TYPE : Type :=
| SHADER_RESOURCE_TYPE_UNKNOWN
| SHADER_RESOURCE_TYPE_CONSTANT_BUFFER
| SHADER_RESOURCE_TYPE_TEXTURE_SRV
| SHADER_RESOURCE_TYPE_BUFFER_SRV
| SHADER_RESOURCE_TYPE_TEXTURE_UAV
| SHADER_RESOURCE_TYPE_BUFFER_UAV
| SHADER_RESOURCE_TYPE_SAMPLER
| SHADER_RESOURCE_TYPE_INPUT_ATTACHMENT
| SHADER_RESOURCE_TYPE_ACCEL_STRUCT.

(** The binding a client asks for ([ResourceBinding::BindInfo], as the
    patcher reads it). All numbers are [Uint32]. *)
Record BindInfo : Type := {
  BindPoint : Z;
  Space : Z;
  ArraySize : Z;
  ResType : SHADER_RESOURCE_TYPE
}.

(** [TResourceBindingMap::value_type]: a resource name and its binding.
    [TResourceBindingMap] is an unordered map, given here in the order in
    which it is iterated. *)
Definition ResPair : Type := (Str * BindInfo)%type.
Definition TResourceBindingMap : Type := list ResPair.

Definition UINT_MAX : Z := 4294967295.

Record ResourceExtendedInfo : Type := {
  SrcBindPoint : Z;
  SrcSpace : Z;
  RecordId : Z;
  Type_ : RES_TYPE
}.

(** The default member initialisers of [ResourceExtendedInfo]. *)
Definition ResourceExtendedInfo_default : ResourceExtendedInfo :=
  {| SrcBindPoint := UINT_MAX; SrcSpace := UINT_MAX;
     RecordId := UINT_MAX; Type_ := RES_TYPE_INVALID |}.

(** [TExtendedResourceMap]: keyed by the address of an element of the
    resource map, given in iteration order. The names of a resource map
    are distinct, so an element is identified by its name. *)
Definition TExtendedResourceMap : Type :=
  list (ResPair * ResourceExtendedInfo).

Definition Str_eqb (a b : Str) : bool :=
  if list_eq_dec ascii_dec a b then true else false.

Definition same_key (a b : ResPair) : bool := Str_eqb (fst a) (fst b).

Fixpoint ext_lookup (m : TExtendedResourceMap) (k : ResPair)
  : option ResourceExtendedInfo :=
  match m with
  | [] => None
  | (k', e) :: m' => if same_key k k' then Some e else ext_lookup m' k
  end.

(** [ExtResMap[&ResPair]]: the entry of [k], created with the default
    values when there is none. *)
Definition ext_entry (m : TExtendedResourceMap) (k : ResPair)
  : ResourceExtendedInfo * TExtendedResourceMap :=
  match ext_lookup m k with
  | Some e => (e, m)
  | None => (ResourceExtendedInfo_default,
             m ++ [(k, ResourceExtendedInfo_default)])
  end.

Definition set_RecordId (e : ResourceExtendedInfo) (id : Z)
  : ResourceExtendedInfo :=
  {| SrcBindPoint := SrcBindPoint e; SrcSpace := SrcSpace e;
     RecordId := id; Type_ := Type_ e |}.

(** [Ext.RecordId = id] through the reference to the entry of [k]. *)
Fixpoint ext_set_RecordId (m : TExtendedResourceMap) (k : ResPair) (id : Z)
  : TExtendedResourceMap :=
  match m with
  | [] => []
  | (k', e) :: m' =>
      if same_key k k' then (k', set_RecordId e id) :: m'
      else (k', e) :: ext_set_RecordId m' k id
  end.

(* ================================================================== *)
(** * Runs of a pass on the IR buffer *)
(* ================================================================== *)

Inductive outcome (A : Type) : Type :=
| Ret (a : A) (DXIL : Str)          (* normal return, with the buffer *)
| Throw (msg : Str) (DXIL : Str)    (* exception, with the buffer so far *)
| Undefined                         (* undefined behaviour *)
| OutOfFuel.                        (* the model's iteration budget ended *)

Arguments Ret {A} a DXIL.
Arguments Throw {A} msg DXIL.
Arguments Undefined {A}.
Arguments OutOfFuel {A}.

Definition M (A : Type) : Type := Str -> outcome A.

Definition ret {A} (a : A) : M A := fun s => Ret a s.

Definition bind {A B} (m : M A) (k : A -> M B) : M B :=
  fun s =>
    match m s with
    | Ret a s' => k a s'
    | Throw msg s' => Throw msg s'
    | Undefined => Undefined
    | OutOfFuel => OutOfFuel
    end.

Definition throw {A} (msg : Str) : M A := fun s => Throw msg s.

Definition undefined {A} : M A := fun _ => Undefined.

(** The buffer as it is now. *)
Definition get : M Str := fun s => Ret s s.

Definition put (s : Str) : M unit := fun _ => Ret tt s.

Declare Scope pass_scope.
Delimit Scope pass_scope with pass.
Notation "x <- m ;; k" := (bind m (fun x => k))
  (at level 61, m at next level, right associativity) : pass_scope.
Notation "' pat <- m ;; k" :=
  (bind m (fun x => match x with pat => k end))
  (at level 61, pat pattern, m at next level, right associativity)
  : pass_scope.
Notation "m ;;; k" := (bind m (fun _ => k))
  (at level 61, right associativity) : pass_scope.
Local Open Scope pass_scope.

(** [if (!cond) LOG_ERROR_AND_THROW(msg)]. *)
Definition check (cond : bool) (msg : Str) : M unit :=
  if cond then ret tt else throw msg.

(** A standard-library call that may throw [std::out_of_range]. *)
Definition or_out_of_range {A} (o : option A) : M A :=
  match o with
  | Some a => ret a
  | None => throw (lit "std::out_of_range")
  end.

(** [static_cast<Uint32>(std::stoi(s))]. *)
Definition stoi_u32 (s : Str) : M Z :=
  match stoi s with
  | StoiValue z => ret (u32 z)
  | StoiInvalidArgument => throw (lit "std::invalid_argument")
  | StoiOutOfRange => throw (lit "std::out_of_range")
  end.

(** [static_cast<Uint32>(std::atoi(DXIL.c_str() + pos))]. *)
Definition atoi_u32 (DXIL : Str) (pos : nat) : M Z :=
  match atoi (skipn pos DXIL) with
  | Some z => ret (u32 z)
  | None => undefined
  end.

(** How an iteration of a scanning loop ends. *)
Inductive loop_ctl : Type :=
| Continue (pos : nat)
| Break.

(** [pos + 1 < DXIL.length() && DXIL[pos] == ',' && DXIL[pos + 1] == ' '] *)
Definition comma_space_at (DXIL : Str) (pos : nat) : bool :=
  (pos + 1 <? length DXIL)
  && Ascii.eqb (at_ DXIL pos) ","
  && Ascii.eqb (at_ DXIL (pos + 1)) " ".

Definition i32 : Str := lit "i32 ".
Definition i8 : Str := lit "i8 ".
Definition NumberSymbols : Str := lit "+-0123456789".
Definition ResourceRecStart : Str := lit "= !{".

(* ================================================================== *)
(** * ReplaceRecord *)
(* ================================================================== *)

(** The message of [CHECK_PATCHING_ERROR] in [ReplaceRecord] and in
    [PatchResourceDeclarationRT]. *)
Definition resource_error (Name msg : Str) : Str :=
  lit "Unable to patch DXIL for resource '" ++ Name ++ lit "': " ++ msg.

(** [ReplaceRecord(DXIL, pos, NewValue, Name, RecordName,
    ExpectedPrevValue)]; the result is the new value of [pos]. The third
    check of the source tests [pos], not [RecordEndPos], against [npos]
    and never fails. *)
Definition ReplaceRecord (pos : nat) (NewValue Name RecordName : Str)
    (ExpectedPrevValue : Z) : M nat :=
  DXIL <- get ;;
  check (comma_space_at DXIL pos)
        (resource_error Name (RecordName ++ lit " record is not found")) ;;;
  let pos := pos + 2 in
  check (starts_with i32 (skipn pos DXIL))
        (resource_error Name
           (lit "unexpected " ++ RecordName ++ lit " record type")) ;;;
  let pos := pos + length i32 in
  let RecordEndPos := find_first_not_of NumberSymbols DXIL pos in
  field <- or_out_of_range (substr DXIL pos (count_to DXIL pos RecordEndPos)) ;;
  PrevValue <- stoi_u32 field ;;
  check (PrevValue =? ExpectedPrevValue)%Z
        (resource_error Name
           (lit "previous value does not match the expected")) ;;;
  DXIL' <- or_out_of_range
             (replace DXIL pos (count_to DXIL pos RecordEndPos) NewValue) ;;
  put DXIL' ;;;
  ret (pos + length NewValue).

(* ================================================================== *)
(** * PatchResourceDeclarationRT *)
(* ================================================================== *)

(** One iteration of the loop over the resource map, for [ResPair]. *)
Definition PatchResourceDeclarationRT_step (ExtResMap : TExtendedResourceMap)
    (ResPair : ResPair) : M TExtendedResourceMap :=
  DXIL <- get ;;
  let Name := fst ResPair in
  let Space := Space (snd ResPair) in
  let BindPoint := BindPoint (snd ResPair) in
  let DxilName := lit "!" ++ [dquote] ++ Name ++ [dquote] in
  let '(Ext, ExtResMap) := ext_entry ExtResMap ResPair in
  match find DxilName DXIL 0 with
  | None => ret ExtResMap
  | Some EndOfResTypeRecord =>
      match rfind ResourceRecStart DXIL EndOfResTypeRecord with
      | None => throw (resource_error Name [])
      | Some pos =>
          let pos := pos + length ResourceRecStart in
          check (starts_with i32 (skipn pos DXIL)) (resource_error Name []) ;;;
          let pos := pos + length i32 in
          let RecordIdStartPos := pos in
          check (match find_first_not_of NumberSymbols DXIL pos with
                 | Some _ => true
                 | None => false
                 end) (resource_error Name []) ;;;
          RecordId <- atoi_u32 DXIL RecordIdStartPos ;;
          let ExtResMap := ext_set_RecordId ExtResMap ResPair RecordId in
          let pos := EndOfResTypeRecord + length DxilName in
          pos <- ReplaceRecord pos (to_string Space) Name (lit "space")
                   (SrcSpace Ext) ;;
          pos <- ReplaceRecord pos (to_string BindPoint) Name (lit "binding")
                   (SrcBindPoint Ext) ;;
          ret ExtResMap
      end
  end.

Fixpoint PatchResourceDeclarationRT_loop (ResourceMap : TResourceBindingMap)
    (ExtResMap : TExtendedResourceMap) : M TExtendedResourceMap :=
  match ResourceMap with
  | [] => ret ExtResMap
  | ResPair :: rest =>
      ExtResMap <- PatchResourceDeclarationRT_step ExtResMap ResPair ;;
      PatchResourceDeclarationRT_loop rest ExtResMap
  end.

Definition PatchResourceDeclarationRT (ResourceMap : TResourceBindingMap)
    (ExtResMap : TExtendedResourceMap) : M TExtendedResourceMap :=
  PatchResourceDeclarationRT_loop ResourceMap ExtResMap.

(* ================================================================== *)
(** * PatchResourceDeclaration *)
(* ================================================================== *)

Definition ResNameDecl : Str := lit ", !" ++ [dquote].
Definition SamplerPart : Str := lit "SamplerState".
Definition TexturePart : Str := lit "Texture".
Definition RWTexturePart : Str := lit "RWTexture".
Definition AccelStructPart : Str := lit "RaytracingAccelerationStructure".
Definition StructBufferPart : Str := lit "StructuredBuffer<".
Definition RWStructBufferPart : Str := lit "RWStructuredBuffer<".
Definition ByteAddrBufPart : Str := lit "ByteAddressBuffer".
Definition RWByteAddrBufPart : Str := lit "RWByteAddressBuffer".
Definition TexBufferPart : Str := lit "Buffer<".
Definition RWFmtBufferPart : Str := lit "RWBuffer<".
Definition DxAlignmentLegacyPart : Str := lit "dx.alignment.legacy.".
Definition StructPart : Str := lit "struct.".
Definition ClassPart : Str := lit "class.".

Definition ALIGNMENT_LEGACY_PART : Z := 1.
Definition STRUCT_PART : Z := 2.
Definition CLASS_PART : Z := 4.
Definition STRING_PART : Z := 8.

Definition IsTextureSuffix (Str_ : Str) : bool :=
  starts_with (lit "1D<") Str_
  || starts_with (lit "1DArray<") Str_
  || starts_with (lit "2D<") Str_
  || starts_with (lit "2DArray<") Str_
  || starts_with (lit "3D<") Str_
  || starts_with (lit "2DMS<") Str_
  || starts_with (lit "2DMSArray<") Str_
  || starts_with (lit "Cube<") Str_
  || starts_with (lit "CubeArray<") Str_.

(** The result of [ReadRecord]: [true] with the new [pos] (which is
    [npos] when the digits run to the end of the buffer) and the value,
    or [false] with the new [pos]. *)
Inductive read_record : Type :=
| RecordRead (pos : option nat) (CurValue : Z)
| RecordNotRead (pos : nat).

Definition ReadRecord (pos : nat) : M read_record :=
  DXIL <- get ;;
  if negb (comma_space_at DXIL pos) then ret (RecordNotRead pos)
  else
    let pos := pos + 2 in
    if negb (starts_with i32 (skipn pos DXIL)) then ret (RecordNotRead pos)
    else
      let pos := pos + length i32 in
      let RecordEndPos := find_first_not_of NumberSymbols DXIL pos in
      field <- or_out_of_range
                 (substr DXIL pos (count_to DXIL pos RecordEndPos)) ;;
      CurValue <- stoi_u32 field ;;
      ret (RecordRead RecordEndPos CurValue).

(** The loop of [ReadResName] on the rest of the buffer: the position at
    which it stops and whether it stopped on a closing quote. *)
Fixpoint ReadResName_scan (rest : Str) (pos : nat) : bool * nat :=
  match rest with
  | [] => (false, pos)
  | c :: rest' =>
      if IsWordSymbol c then ReadResName_scan rest' (S pos)
      else if Ascii.eqb c dquote then (true, pos)
      else (false, pos)
  end.

(** [ReadResName(pos, name)]: success, the new [pos] and the name. *)
Definition ReadResName (DXIL : Str) (pos : nat) : bool * nat * Str :=
  let startPos := pos in
  let '(ok, pos) := ReadResName_scan (skipn pos DXIL) pos in
  (ok, pos, if ok then firstn (pos - startPos) (skipn startPos DXIL) else []).

(** The loop that skips an array declaration [[4 x ]. *)
Fixpoint skip_array_decl (rest : Str) (pos EndOfResTypeRecord : nat) : nat :=
  if EndOfResTypeRecord <=? pos then pos
  else match rest with
       | [] => pos
       | c :: rest' =>
           if IsNumberSymbol c || Ascii.eqb c " " || Ascii.eqb c "x"
           then skip_array_decl rest' (S pos) EndOfResTypeRecord
           else pos
       end.

(** The search for a constant buffer whose name opens the type name. *)
Fixpoint find_constant_buffer (DXIL : Str) (pos : nat)
    (ExtResMap : TExtendedResourceMap) : RES_TYPE :=
  match ExtResMap with
  | [] => RES_TYPE_INVALID
  | (ResInfo_first, ResInfo_second) :: rest =>
      if negb (RES_TYPE_eqb (Type_ ResInfo_second) RES_TYPE_CBV)
      then find_constant_buffer DXIL pos rest
      else
        let Name := fst ResInfo_first in
        let NameLen := length Name in
        if starts_with Name (skipn pos DXIL)
        then if IsWordSymbol (at_ DXIL (pos + NameLen))
             then find_constant_buffer DXIL pos rest
             else RES_TYPE_CBV
        else find_constant_buffer DXIL pos rest
  end.

(** The chain of comparisons that gives the resource type of a record
    from its type name at [pos]. *)
Definition classify (DXIL : Str) (pos : nat) (NameParts : Z)
    (ExtResMap : TExtendedResourceMap) : RES_TYPE :=
  let here := skipn pos DXIL in
  if starts_with SamplerPart here then RES_TYPE_SAMPLER
  else if starts_with TexturePart here
          && IsTextureSuffix (skipn (pos + length TexturePart) DXIL)
  then RES_TYPE_SRV
  else if starts_with StructBufferPart here then RES_TYPE_SRV
  else if starts_with ByteAddrBufPart here then RES_TYPE_SRV
  else if starts_with TexBufferPart here then RES_TYPE_SRV
  else if starts_with AccelStructPart here then RES_TYPE_SRV
  else if starts_with RWTexturePart here
          && IsTextureSuffix (skipn (pos + length RWTexturePart) DXIL)
  then RES_TYPE_UAV
  else if starts_with RWStructBufferPart here then RES_TYPE_UAV
  else if starts_with RWByteAddrBufPart here then RES_TYPE_UAV
  else if starts_with RWFmtBufferPart here then RES_TYPE_UAV
  else if (Z.land NameParts (Z.lxor UINT_MAX ALIGNMENT_LEGACY_PART) =? 0)%Z
  then find_constant_buffer DXIL pos ExtResMap
  else RES_TYPE_INVALID.

(** The search of the extended map by source binding, space and type. *)
Fixpoint find_declared (ExtResMap : TExtendedResourceMap)
    (BindPoint Space : Z) (ResType : RES_TYPE)
  : option (ResPair * ResourceExtendedInfo) :=
  match ExtResMap with
  | [] => None
  | (k, e) :: rest =>
      if (SrcBindPoint e =? BindPoint)%Z && (SrcSpace e =? Space)%Z
         && RES_TYPE_eqb (Type_ e) ResType
      then Some (k, e)
      else find_declared rest BindPoint Space ResType
  end.

(** [pExt->RecordId = RecordId] for the entry that the search found. *)
Fixpoint set_declared_RecordId (ExtResMap : TExtendedResourceMap)
    (BindPoint Space : Z) (ResType : RES_TYPE) (RecordId : Z)
  : TExtendedResourceMap :=
  match ExtResMap with
  | [] => []
  | (k, e) :: rest =>
      if (SrcBindPoint e =? BindPoint)%Z && (SrcSpace e =? Space)%Z
         && RES_TYPE_eqb (Type_ e) ResType
      then (k, set_RecordId e RecordId) :: rest
      else (k, e) :: set_declared_RecordId rest BindPoint Space ResType
                       RecordId
  end.

Definition declaration_error (msg : Str) : Str :=
  lit "Unable to patch DXIL: " ++ msg.

(** The prefixes of a type name: the new [pos] and [NameParts]. *)
Definition skip_name_parts (DXIL : Str) (pos : nat) : nat * Z :=
  let '(pos, NameParts) :=
    if Ascii.eqb (at_ DXIL pos) dquote
    then (pos + 1, Z.lor 0 STRING_PART) else (pos, 0%Z) in
  let '(pos, NameParts) :=
    if starts_with DxAlignmentLegacyPart (skipn pos DXIL)
    then (pos + length DxAlignmentLegacyPart,
          Z.lor NameParts ALIGNMENT_LEGACY_PART)
    else (pos, NameParts) in
  let '(pos, NameParts) :=
    if starts_with StructPart (skipn pos DXIL)
    then (pos + length StructPart, Z.lor NameParts STRUCT_PART)
    else (pos, NameParts) in
  if starts_with ClassPart (skipn pos DXIL)
  then (pos + length ClassPart, Z.lor NameParts CLASS_PART)
  else (pos, NameParts).

(** The end of an iteration once the record is known to be a resource
    declaration of type [ResType]: read the binding, look the resource up,
    rewrite space and register, and add the name when it is missing. *)
Definition patch_declaration (ExtResMap : TExtendedResourceMap)
    (BeginOfResName BindingRecordStart : nat) (ResName : Str)
    (RecordId : Z) (ResType : RES_TYPE)
  : M (TExtendedResourceMap * loop_ctl) :=
  r1 <- ReadRecord BindingRecordStart ;;
  match r1 with
  | RecordNotRead pos => ret (ExtResMap, Continue pos)
  | RecordRead None _ =>
      (* [pos] is [npos]: [pos + 1] wraps to 0 and [DXIL[pos]] is read *)
      undefined
  | RecordRead (Some pos) Space' =>
      r2 <- ReadRecord pos ;;
      match r2 with
      | RecordNotRead pos => ret (ExtResMap, Continue pos)
      | RecordRead _ BindPoint' =>
          match find_declared ExtResMap BindPoint' Space' ResType with
          | None =>
              throw (declaration_error
                       (lit "failed to find resource in ResourceMap"))
          | Some (pResPair, pExt) =>
              let ExtResMap :=
                set_declared_RecordId ExtResMap BindPoint' Space' ResType
                  RecordId in
              let Name := fst pResPair in
              pos <- ReplaceRecord BindingRecordStart
                       (to_string (Space (snd pResPair))) Name
                       (lit "space") (SrcSpace pExt) ;;
              pos <- ReplaceRecord pos
                       (to_string (BindPoint (snd pResPair))) Name
                       (lit "register") (SrcBindPoint pExt) ;;
              (match ResName with
               | [] =>
                   DXIL <- get ;;
                   DXIL' <- or_out_of_range (insert DXIL BeginOfResName Name) ;;
                   put DXIL'
               | _ :: _ => ret tt
               end) ;;;
              ret (ExtResMap, Continue pos)
          end
      end
  end.

(** One iteration of the scanning loop of [PatchResourceDeclaration],
    entered with [pos < DXIL.size()]. *)
Definition PatchResourceDeclaration_step (ExtResMap : TExtendedResourceMap)
    (pos : nat) : M (TExtendedResourceMap * loop_ctl) :=
  DXIL <- get ;;
  match find ResNameDecl DXIL pos with
  | None => ret (ExtResMap, Break)
  | Some EndOfResTypeRecord =>
      let pos := EndOfResTypeRecord + length ResNameDecl in
      let BeginOfResName := pos in
      let '(ok, pos, ResName) := ReadResName DXIL pos in
      if negb ok then ret (ExtResMap, Continue pos)
      else
        let BindingRecordStart := pos + 1 in
        match rfind ResourceRecStart DXIL EndOfResTypeRecord with
        | None =>
            throw (declaration_error
                     (lit "failed to find resource record start block"))
        | Some pos =>
            let pos := pos + length ResourceRecStart in
            if negb (starts_with i32 (skipn pos DXIL))
            then ret (ExtResMap, Continue BindingRecordStart)
            else
              let pos := pos + length i32 in
              let RecordIdStartPos := pos in
              match find_first_not_of NumberSymbols DXIL pos with
              | None =>
                  throw (declaration_error
                           (lit "failed to parse Record ID record data"))
              | Some pos =>
                  RecordId <- atoi_u32 DXIL RecordIdStartPos ;;
                  check (comma_space_at DXIL pos)
                    (declaration_error
                       (lit "failed to find the end of the Record ID record data")) ;;;
                  let pos := pos + 2 in
                  let pos :=
                    if Ascii.eqb (at_ DXIL pos) "["
                    then skip_array_decl (skipn (pos + 1) DXIL) (pos + 1)
                           EndOfResTypeRecord
                    else pos in
                  if negb (Ascii.eqb (at_ DXIL pos) "%")
                  then ret (ExtResMap, Continue BindingRecordStart)
                  else
                    let pos := pos + 1 in
                    let '(pos, NameParts) := skip_name_parts DXIL pos in
                    let ResType := classify DXIL pos NameParts ExtResMap in
                    if RES_TYPE_eqb ResType RES_TYPE_INVALID
                    then ret (ExtResMap, Continue BindingRecordStart)
                    else patch_declaration ExtResMap BeginOfResName
                           BindingRecordStart ResName RecordId ResType
              end
        end
  end.

(** [for (size_t pos = 0; pos < DXIL.size();)] with an iteration budget. *)
Fixpoint PatchResourceDeclaration_loop (fuel : nat)
    (ExtResMap : TExtendedResourceMap) (pos : nat)
  : M TExtendedResourceMap :=
  match fuel with
  | 0 => fun _ => OutOfFuel
  | S fuel' =>
      DXIL <- get ;;
      if negb (pos <? length DXIL) then ret ExtResMap
      else
        r <- PatchResourceDeclaration_step ExtResMap pos ;;
        match r with
        | (ExtResMap, Break) => ret ExtResMap
        | (ExtResMap, Continue pos) =>
            PatchResourceDeclaration_loop fuel' ExtResMap pos
        end
  end.

Definition PatchResourceDeclaration (fuel : nat)
    (ExtResMap : TExtendedResourceMap) : M TExtendedResourceMap :=
  PatchResourceDeclaration_loop fuel ExtResMap 0.

(* ================================================================== *)
(** * PatchResourceHandle *)
(* ================================================================== *)

Definition CallHandlePattern : Str :=
  lit " = call %dx.types.Handle @dx.op.createHandle(".

(** [ResClassToType[ResClass]]; [None] outside the four elements. *)
Definition ResClassToType (ResClass : Z) : option RES_TYPE :=
  if (ResClass =? 0)%Z then Some RES_TYPE_SRV
  else if (ResClass =? 1)%Z then Some RES_TYPE_UAV
  else if (ResClass =? 2)%Z then Some RES_TYPE_CBV
  else if (ResClass =? 3)%Z then Some RES_TYPE_SAMPLER
  else None.

(** The loop of [NextArg] on the rest of the buffer. *)
Fixpoint NextArg_scan (rest : Str) (pos : nat) : bool * nat :=
  match rest with
  | [] => (false, pos)
  | c :: rest' =>
      if Ascii.eqb c "," then (true, pos)
      else if Ascii.eqb c ")" || Ascii.eqb c newline then (false, pos)
      else NextArg_scan rest' (S pos)
  end.

(** [NextArg(pos)]: the result and the new [pos]. *)
Definition NextArg (DXIL : Str) (pos : nat) : bool * nat :=
  NextArg_scan (skipn pos DXIL) pos.

(** [for (; pos < DXIL.size(); ++pos) if (!IsNumberSymbol(DXIL[pos])) break;] *)
Fixpoint skip_digits (rest : Str) (pos : nat) : nat :=
  match rest with
  | [] => pos
  | c :: rest' => if IsNumberSymbol c then skip_digits rest' (S pos) else pos
  end.

(** The condition under which the loop of [ReplaceBindPoint] stops at an
    entry. *)
Definition in_bind_range (RangeId : Z) (ResType : RES_TYPE) (SrcIndex : Z)
    (ResInfo : ResPair * ResourceExtendedInfo) : bool :=
  ((RecordId (snd ResInfo) =? RangeId)%Z
   && RES_TYPE_eqb (Type_ (snd ResInfo)) ResType
   && (SrcBindPoint (snd ResInfo) <=? SrcIndex)%Z
   && (SrcIndex <?
       u32 (SrcBindPoint (snd ResInfo) + ArraySize (snd (fst ResInfo))))%Z).

Fixpoint find_bind_range (ExtResMap : TExtendedResourceMap) (RangeId : Z)
    (ResType : RES_TYPE) (SrcIndex : Z)
  : option (ResPair * ResourceExtendedInfo) :=
  match ExtResMap with
  | [] => None
  | ResInfo :: rest =>
      if in_bind_range RangeId ResType SrcIndex ResInfo then Some ResInfo
      else find_bind_range rest RangeId ResType SrcIndex
  end.

(** The lambda [ReplaceBindPoint]. *)
Definition ReplaceBindPoint (ExtResMap : TExtendedResourceMap)
    (ResClass RangeId : Z) (IndexStartPos IndexEndPos : nat) : M unit :=
  DXIL <- get ;;
  SrcIndexStr <- or_out_of_range
                   (substr DXIL IndexStartPos (IndexEndPos - IndexStartPos)) ;;
  SrcIndex <- stoi_u32 SrcIndexStr ;;
  match ResClassToType ResClass with
  | None => undefined
  | Some ResType =>
      match find_bind_range ExtResMap RangeId ResType SrcIndex with
      | None => throw (lit "Failed to find resource in ResourceMap")
      | Some (pBind, pExt) =>
          let IndexOffset := u32 (SrcIndex - SrcBindPoint pExt) in
          let NewIndexStr :=
            to_string (u32 (BindPoint (snd pBind) + IndexOffset)) in
          put (firstn IndexStartPos DXIL ++ NewIndexStr
               ++ skipn IndexEndPos DXIL)
      end
  end.

Definition handle_error (msg : Str) : Str :=
  lit "Unable to patch DXIL createHandle(): " ++ msg.

(** [DXIL[pos] == ',' || DXIL[pos] == '\n'] *)
Definition arg_end_at (DXIL : Str) (pos : nat) : bool :=
  Ascii.eqb (at_ DXIL pos) "," || Ascii.eqb (at_ DXIL pos) newline.

(** The branch for a dynamic bind point: the index is the variable
    [SrcIndexStr], defined by an [add] whose constant operand is patched. *)
Definition patch_dynamic_index (ExtResMap : TExtendedResourceMap)
    (ResClass RangeId : Z) (SrcIndexStr : Str) (IndexEndPos : nat)
  : M unit :=
  DXIL <- get ;;
  let IndexDecl := SrcIndexStr ++ lit " = add i32 " in
  match rfind IndexDecl DXIL IndexEndPos with
  | None =>
      throw (handle_error (lit "failed to find dynamic index declaration"))
  | Some IndexDeclPos =>
      let pos := IndexDeclPos + length IndexDecl in
      if Ascii.eqb (at_ DXIL pos) "%"
      then
        let '(ok, pos) := NextArg DXIL pos in
        check ok (handle_error []) ;;;
        let pos := pos + 2 in
        if length DXIL <? pos then undefined
        else
          check (IsNumberSymbol (at_ DXIL pos))
            (handle_error
               (lit "second argument expected to be an integer constant")) ;;;
          let ArgStart := pos in
          let pos := skip_digits (skipn pos DXIL) pos in
          check (arg_end_at DXIL pos)
            (handle_error (lit "failed to parse second argument")) ;;;
          let ArgEnd := pos in
          ReplaceBindPoint ExtResMap ResClass RangeId ArgStart ArgEnd
      else
        let ArgStart := pos in
        let pos := skip_digits (skipn pos DXIL) pos in
        check (arg_end_at DXIL pos)
          (handle_error (lit "failed to parse second argument")) ;;;
        let ArgEnd := pos in
        ReplaceBindPoint ExtResMap ResClass RangeId ArgStart ArgEnd
  end.

(** [", T "] then an argument: the checks and moves shared by the
    arguments of createHandle; the result is the start of the argument's
    value and the position of the comma that ends it. *)
Definition read_arg (DXIL : Str) (pos : nat) (type : Str)
    (not_found data_not_found no_end : Str) : M (nat * nat) :=
  check (comma_space_at DXIL pos) (handle_error not_found) ;;;
  let pos := pos + 2 in
  check (starts_with type (skipn pos DXIL)) (handle_error data_not_found) ;;;
  let pos := pos + length type in
  let StartPos := pos in
  let '(ok, pos) := NextArg DXIL pos in
  check ok (handle_error no_end) ;;;
  ret (StartPos, pos).

(** One iteration of the scanning loop of [PatchResourceHandle]. *)
Definition PatchResourceHandle_step (ExtResMap : TExtendedResourceMap)
    (pos : nat) : M loop_ctl :=
  DXIL <- get ;;
  match find CallHandlePattern DXIL pos with
  | None => ret Break
  | Some callHandlePos =>
      let pos := callHandlePos + length CallHandlePattern in
      check (starts_with i32 (skipn pos DXIL))
        (handle_error (lit "Opcode record is not found")) ;;;
      let pos := pos + length i32 in
      let '(ok, pos) := NextArg DXIL pos in
      check ok
        (handle_error (lit "failed to find end of the Opcode record data")) ;;;
      '(ResClassStartPos, pos) <-
         read_arg DXIL pos i8
           (lit "Resource Class record is not found")
           (lit "Resource Class record data is not found")
           (lit "failed to find end of the Resource class record data") ;;
      ResClass <- atoi_u32 DXIL ResClassStartPos ;;
      '(RangeIdStartPos, pos) <-
         read_arg DXIL pos i32
           (lit "Range ID record is not found")
           (lit "Range ID record data is not found")
           (lit "failed to find end of the Range ID record data") ;;
      RangeId <- atoi_u32 DXIL RangeIdStartPos ;;
      '(IndexStartPos, pos) <-
         read_arg DXIL pos i32
           (lit "Index record is not found")
           (lit "Index record data is not found")
           (lit "failed to find the end of the Index record data") ;;
      let IndexEndPos := pos in
      SrcIndexStr <- or_out_of_range
                       (substr DXIL IndexStartPos (pos - IndexStartPos)) ;;
      check (negb (length SrcIndexStr =? 0))
        (handle_error (lit "Bind point index must not be empty")) ;;;
      (if Ascii.eqb (hd zero SrcIndexStr) "%"
       then patch_dynamic_index ExtResMap ResClass RangeId SrcIndexStr
              IndexEndPos
       else ReplaceBindPoint ExtResMap ResClass RangeId IndexStartPos
              IndexEndPos) ;;;
      ret (Continue IndexEndPos)
  end.

(** [for (size_t pos = 0; pos < DXIL.size();)] with an iteration budget. *)
Fixpoint PatchResourceHandle_loop (fuel : nat)
    (ExtResMap : TExtendedResourceMap) (pos : nat) : M unit :=
  match fuel with
  | 0 => fun _ => OutOfFuel
  | S fuel' =>
      DXIL <- get ;;
      if negb (pos <? length DXIL) then ret tt
      else
        r <- PatchResourceHandle_step ExtResMap pos ;;
        match r with
        | Break => ret tt
        | Continue pos => PatchResourceHandle_loop fuel' ExtResMap pos
        end
  end.

Definition PatchResourceHandle (fuel : nat)
    (ExtResMap : TExtendedResourceMap) : M unit :=
  PatchResourceHandle_loop fuel ExtResMap 0.

(* ================================================================== *)
(** * PatchDXIL *)
(* ================================================================== *)

(** [SHADER_TYPE], with the values [RemapResourceBindings] assigns. *)
Inductive SHADER_TYPE : Type :=
| SHADER_TYPE_UNKNOWN
| SHADER_TYPE_VERTEX
| SHADER_TYPE_PIXEL
| SHADER_TYPE_GEOMETRY
| SHADER_TYPE_HULL
| SHADER_TYPE_DOMAIN
| SHADER_TYPE_COMPUTE
| SHADER_TYPE_AMPLIFICATION
| SHADER_TYPE_MESH
| SHADER_TYPE_RAY_GEN
| SHADER_TYPE_RAY_MISS
| SHADER_TYPE_RAY_CLOSEST_HIT
| SHADER_TYPE_RAY_ANY_HIT
| SHADER_TYPE_RAY_INTERSECTION
| SHADER_TYPE_CALLABLE.

(** Modelled from the spec: the mask [SHADER_TYPE_ALL_RAY_TRACING] is
    declared outside the sources at hand; the test
    [(ShaderType & SHADER_TYPE_ALL_RAY_TRACING) != 0] holds for the
    ray-tracing shader kinds and for no other. *)
Definition is_ray_tracing (ShaderType : SHADER_TYPE) : bool :=
  match ShaderType with
  | SHADER_TYPE_RAY_GEN | SHADER_TYPE_RAY_MISS | SHADER_TYPE_RAY_CLOSEST_HIT
  | SHADER_TYPE_RAY_ANY_HIT | SHADER_TYPE_RAY_INTERSECTION
  | SHADER_TYPE_CALLABLE => true
  | _ => false
  end.

(** The body of the [try] block. *)
Definition PatchDXIL_body (fuel : nat) (ResourceMap : TResourceBindingMap)
    (ExtResMap : TExtendedResourceMap) (ShaderType : SHADER_TYPE) : M unit :=
  if is_ray_tracing ShaderType
  then
    PatchResourceDeclarationRT ResourceMap ExtResMap ;;; ret tt
  else
    ExtResMap <- PatchResourceDeclaration fuel ExtResMap ;;
    PatchResourceHandle fuel ExtResMap.

(** [PatchDXIL]: [catch (...)] turns every exception into [false]; the
    buffer keeps whatever was written before the exception. *)
Definition PatchDXIL (fuel : nat) (ResourceMap : TResourceBindingMap)
    (ExtResMap : TExtendedResourceMap) (ShaderType : SHADER_TYPE) : M bool :=
  fun DXIL =>
    match PatchDXIL_body fuel ResourceMap ExtResMap ShaderType DXIL with
    | Ret _ DXIL' => Ret true DXIL'
    | Throw _ DXIL' => Ret false DXIL'
    | Undefined => Undefined
    | OutOfFuel => OutOfFuel
    end.

(* ================================================================== *)
(** * RemapResourceBindings *)
(* ================================================================== *)

Definition Blob : Type := list Byte.byte.

(** [D3D_SHADER_INPUT_TYPE], with the values the switch does not name. *)
Inductive D3D_SHADER_INPUT_TYPE : Type :=
| D3D_SIT_CBUFFER
| D3D_SIT_TBUFFER
| D3D_SIT_TEXTURE
| D3D_SIT_SAMPLER
| D3D_SIT_UAV_RWTYPED
| D3D_SIT_STRUCTURED
| D3D_SIT_UAV_RWSTRUCTURED
| D3D_SIT_BYTEADDRESS
| D3D_SIT_UAV_RWBYTEADDRESS
| D3D_SIT_UAV_APPEND_STRUCTURED
| D3D_SIT_UAV_CONSUME_STRUCTURED
| D3D_SIT_UAV_RWSTRUCTURED_WITH_COUNTER
| D3D_SIT_RTACCELERATIONSTRUCTURE
| D3D_SIT_UAV_FEEDBACKTEXTURE
| D3D_SIT_other (value : Z).

(** The fields of [D3D12_SHADER_INPUT_BIND_DESC] that are read. *)
Record D3D12_SHADER_INPUT_BIND_DESC : Type := {
  Desc_Type : D3D_SHADER_INPUT_TYPE;
  Desc_BindPoint : Z;
  Desc_BindCount : Z;
  Desc_Space : Z
}.

(** What is asked of [ID3D12ShaderReflection]. *)
Record ShaderReflection : Type := {
  (* D3D12_SHVER_GET_TYPE(ShDesc.Version) *)
  ShType : Z;
  (* the description when the call returns S_OK *)
  GetResourceBindingDescByName : Str -> option D3D12_SHADER_INPUT_BIND_DESC
}.

Inductive assemble_result : Type :=
| AssembleCallFailed            (* FAILED(hr) || dxilResult == nullptr *)
| AssembleStatusFailed          (* FAILED(status) *)
| AssembleNoResult              (* GetResult failed *)
| Assembled (compiled : Blob).

Inductive validate_result : Type :=
| ValidatorNotCreated
| ValidateCallFailed            (* validationResult == nullptr || FAILED(hr) *)
| ValidationFailed              (* FAILED(status) *)
| ValidatedNoResult             (* GetResult failed *)
| Validated (validated : option Blob) (compiled_in_place : Blob).

(** The compiler library behind [DxcCreateInstanceProc]. *)
Record Backend : Type := {
  loaded : bool;                        (* GetCreateInstaceProc() != nullptr *)
  library_created : bool;
  assembler_created : bool;
  compiler_created : bool;
  Disassemble : Blob -> option Str;
  (* [None]: the call returned without storing a reflection; every
     exception raised inside it is caught there *)
  GetD3D12ShaderReflection : Blob -> option ShaderReflection;
  CreateBlobWithEncodingFromPinned : Str -> bool;
  AssembleToContainer : Str -> assemble_result;
  Validate : Blob -> validate_result
}.

(** [D3D12_SHADER_VERSION_TYPE] of d3d12shader.h. *)
Definition D3D12_SHVER_PIXEL_SHADER : Z := 0.
Definition D3D12_SHVER_VERTEX_SHADER : Z := 1.
Definition D3D12_SHVER_GEOMETRY_SHADER : Z := 2.
Definition D3D12_SHVER_HULL_SHADER : Z := 3.
Definition D3D12_SHVER_DOMAIN_SHADER : Z := 4.
Definition D3D12_SHVER_COMPUTE_SHADER : Z := 5.

Definition shader_type_of (ShType : Z) : SHADER_TYPE :=
  if (ShType =? D3D12_SHVER_PIXEL_SHADER)%Z then SHADER_TYPE_PIXEL
  else if (ShType =? D3D12_SHVER_VERTEX_SHADER)%Z then SHADER_TYPE_VERTEX
  else if (ShType =? D3D12_SHVER_GEOMETRY_SHADER)%Z then SHADER_TYPE_GEOMETRY
  else if (ShType =? D3D12_SHVER_HULL_SHADER)%Z then SHADER_TYPE_HULL
  else if (ShType =? D3D12_SHVER_DOMAIN_SHADER)%Z then SHADER_TYPE_DOMAIN
  else if (ShType =? D3D12_SHVER_COMPUTE_SHADER)%Z then SHADER_TYPE_COMPUTE
  else if (ShType =? 7)%Z then SHADER_TYPE_RAY_GEN
  else if (ShType =? 8)%Z then SHADER_TYPE_RAY_INTERSECTION
  else if (ShType =? 9)%Z then SHADER_TYPE_RAY_ANY_HIT
  else if (ShType =? 10)%Z then SHADER_TYPE_RAY_CLOSEST_HIT
  else if (ShType =? 11)%Z then SHADER_TYPE_RAY_MISS
  else if (ShType =? 12)%Z then SHADER_TYPE_CALLABLE
  else if (ShType =? 13)%Z then SHADER_TYPE_MESH
  else if (ShType =? 14)%Z then SHADER_TYPE_AMPLIFICATION
  else SHADER_TYPE_UNKNOWN.

(** The switch on [ResDesc.Type]; [None] is the default case. *)
Definition res_type_of_input (t : D3D_SHADER_INPUT_TYPE) : option RES_TYPE :=
  match t with
  | D3D_SIT_CBUFFER => Some RES_TYPE_CBV
  | D3D_SIT_SAMPLER => Some RES_TYPE_SAMPLER
  | D3D_SIT_TBUFFER | D3D_SIT_TEXTURE | D3D_SIT_STRUCTURED
  | D3D_SIT_BYTEADDRESS | D3D_SIT_RTACCELERATIONSTRUCTURE =>
      Some RES_TYPE_SRV
  | D3D_SIT_UAV_RWTYPED | D3D_SIT_UAV_RWSTRUCTURED
  | D3D_SIT_UAV_RWBYTEADDRESS | D3D_SIT_UAV_APPEND_STRUCTURED
  | D3D_SIT_UAV_CONSUME_STRUCTURED
  | D3D_SIT_UAV_RWSTRUCTURED_WITH_COUNTER | D3D_SIT_UAV_FEEDBACKTEXTURE =>
      Some RES_TYPE_UAV
  | D3D_SIT_other _ => None
  end.

(** The assignments to the entry of [k] through the reference [Ext]. *)
Fixpoint ext_set_source (m : TExtendedResourceMap) (k : ResPair)
    (bind space : Z) (ty : RES_TYPE) : TExtendedResourceMap :=
  match m with
  | [] => []
  | (k', e) :: m' =>
      if same_key k k'
      then (k', {| SrcBindPoint := bind; SrcSpace := space;
                   RecordId := RecordId e; Type_ := ty |}) :: m'
      else (k', e) :: ext_set_source m' k bind space ty
  end.

(** The loop of [RemapResourceBindings] that fills [ExtResourceMap];
    [None] is the [return false] of the default case. *)
Fixpoint build_ExtResourceMap (pShaderReflection : ShaderReflection)
    (ResourceMap : TResourceBindingMap) (ExtResourceMap : TExtendedResourceMap)
  : option TExtendedResourceMap :=
  match ResourceMap with
  | [] => Some ExtResourceMap
  | NameAndBinding :: rest =>
      match GetResourceBindingDescByName pShaderReflection
              (fst NameAndBinding) with
      | Some ResDesc =>
          let ExtResourceMap := snd (ext_entry ExtResourceMap NameAndBinding) in
          match res_type_of_input (Desc_Type ResDesc) with
          | Some ty =>
              build_ExtResourceMap pShaderReflection rest
                (ext_set_source ExtResourceMap NameAndBinding
                   (Desc_BindPoint ResDesc) (Desc_Space ResDesc) ty)
          | None => None
          end
      | None => build_ExtResourceMap pShaderReflection rest ExtResourceMap
      end
  end.

(** [ValidateAndSign]: the result and what is stored in [*ppBlobOut]
    ([None] when nothing is stored). *)
Definition ValidateAndSign (backend : Backend) (compiled : Blob)
  : bool * option Blob :=
  match Validate backend compiled with
  | Validated (Some validated) _ => (true, Some validated)
  | Validated None compiled' => (true, Some compiled')
  | _ => (false, None)
  end.

(** How a call of [RemapResourceBindings] ends: with a result and what it
    stored in [*ppDstByteCode], with undefined behaviour, or with the
    iteration budget of the patcher used up. *)
Inductive remap_result : Type :=
| Remapped (result : bool) (DstByteCode : option Blob)
| RemapUndefined
| RemapOutOfFuel.

(** [RemapResourceBindings] with D3D12 support compiled in.
    [GetD3D12ShaderReflection] catches every exception itself, so the
    [catch] around its call is never entered: when no reflection was
    stored, [pShaderReflection->GetDesc] is called through a null
    pointer. *)
Definition RemapResourceBindings (backend : Backend) (fuel : nat)
    (ResourceMap : TResourceBindingMap) (pSrcBytecode : Blob)
  : remap_result :=
  if negb (loaded backend) then Remapped false None
  else if negb (library_created backend) then Remapped false None
  else if negb (assembler_created backend) then Remapped false None
  else if negb (compiler_created backend) then Remapped false None
  else
    match Disassemble backend pSrcBytecode with
    | None => Remapped false None
    | Some disasm =>
        match GetD3D12ShaderReflection backend pSrcBytecode with
        | None => RemapUndefined
        | Some pShaderReflection =>
            let ShaderType := shader_type_of (ShType pShaderReflection) in
            match build_ExtResourceMap pShaderReflection ResourceMap [] with
            | None => Remapped false None
            | Some ExtResourceMap =>
                match PatchDXIL fuel ResourceMap ExtResourceMap ShaderType
                        disasm with
                | Undefined => RemapUndefined
                | OutOfFuel => RemapOutOfFuel
                | Throw _ _ => Remapped false None
                | Ret false _ => Remapped false None
                | Ret true dxilAsm =>
                    if negb (CreateBlobWithEncodingFromPinned backend dxilAsm)
                    then Remapped false None
                    else
                      match AssembleToContainer backend dxilAsm with
                      | Assembled compiled =>
                          let '(r, out) := ValidateAndSign backend compiled in
                          Remapped r out
                      | _ => Remapped false None
                      end
                end
            end
        end
    end.

(* ================================================================== *)
(** * IsDXILBytecode *)
(* ================================================================== *)

Module Container.

(** Reads go through the bounds of the buffer: [None] is a read outside
    of it. Multi-byte fields are little-endian, as on the platforms the
    compiler library runs on; [size_t] is taken wide enough for the sums
    of the source not to wrap. *)
Definition read_u8 (data : Blob) (off : nat) : option Z :=
  option_map (fun b => Z.of_N (Byte.to_N b)) (nth_error data off).

Definition read_u16 (data : Blob) (off : nat) : option Z :=
  match read_u8 data off, read_u8 data (off + 1) with
  | Some b0, Some b1 => Some (Z.lor b0 (Z.shiftl b1 8))
  | _, _ => None
  end.

Definition read_u32 (data : Blob) (off : nat) : option Z :=
  match read_u16 data off, read_u16 data (off + 2) with
  | Some lo, Some hi => Some (Z.lor lo (Z.shiftl hi 16))
  | _, _ => None
  end.

(** The layout of dxc/DxilContainer/DxilContainer.h:
    [DxilContainerHeader] is [HeaderFourCC] (4 bytes), [Hash] (16),
    [Version.Major] and [Version.Minor] (2 each), [ContainerSizeInBytes]
    (4) and [PartCount] (4); [DxilPartHeader] is [PartFourCC] (4) and
    [PartSize] (4). *)
Definition sizeof_DxilContainerHeader : nat := 32.
Definition sizeof_DxilPartHeader : nat := 8.
Definition offsetof_HeaderFourCC : nat := 0.
Definition offsetof_Version_Major : nat := 20.
Definition offsetof_PartCount : nat := 28.

Definition DXIL_FOURCC (ch0 ch1 ch2 ch3 : ascii) : Z :=
  Z.lor (Z.lor (Z.of_nat (nat_of_ascii ch0))
               (Z.shiftl (Z.of_nat (nat_of_ascii ch1)) 8))
        (Z.lor (Z.shiftl (Z.of_nat (nat_of_ascii ch2)) 16)
               (Z.shiftl (Z.of_nat (nat_of_ascii ch3)) 24)).

Definition DFCC_Container : Z := DXIL_FOURCC "D" "X" "B" "C".
Definition DFCC_DXIL : Z := DXIL_FOURCC "D" "X" "I" "L".
Definition DxilContainerVersionMajor : Z := 1.

(** A message of [LOG_WARNING_MESSAGE]: the major version found. *)
Inductive warning : Type :=
| WrongMajorVersion (found : Z).

Inductive probe : Type :=
| Probed (result : bool) (log : list warning)
| OutOfBoundsRead.

(** The loop over the parts, [todo] parts being left from [part] on. *)
Fixpoint scan_parts (data : Blob) (todo part : nat) : probe :=
  match todo with
  | 0 => Probed false []
  | S todo' =>
      match read_u32 data (sizeof_DxilContainerHeader + 4 * part) with
      | None => OutOfBoundsRead
      | Some Offset =>
          if (Z.of_nat (length data) <?
              Offset + Z.of_nat sizeof_DxilPartHeader)%Z
          then Probed false []
          else
            match read_u32 data (Z.to_nat Offset) with
            | None => OutOfBoundsRead
            | Some PartFourCC =>
                if (PartFourCC =? DFCC_DXIL)%Z then Probed true []
                else scan_parts data todo' (S part)
            end
      end
  end.

(** [IsDXILBytecode(pBytecode, Size)] on the [Size] bytes of [data]. *)
Definition IsDXILBytecode (data : Blob) : probe :=
  if length data <? sizeof_DxilContainerHeader then Probed false []
  else
    match read_u32 data offsetof_HeaderFourCC with
    | None => OutOfBoundsRead
    | Some HeaderFourCC =>
        if negb (HeaderFourCC =? DFCC_Container)%Z then Probed false []
        else
          match read_u16 data offsetof_Version_Major with
          | None => OutOfBoundsRead
          | Some Major =>
              if negb (Major =? DxilContainerVersionMajor)%Z
              then Probed false [WrongMajorVersion Major]
              else
                match read_u32 data offsetof_PartCount with
                | None => OutOfBoundsRead
                | Some PartCount =>
                    if (Z.of_nat (length data) <?
                        Z.of_nat sizeof_DxilContainerHeader + 4 * PartCount)%Z
                    then Probed false []
                    else scan_parts data (Z.to_nat PartCount) 0
                end
          end
    end.

(** ** What the probe looks at *)

(** The fixed header fits, carries the container tag and the expected
    major version, and the table of part offsets fits. *)
Definition header_ok (data : Blob) : Prop :=
  sizeof_DxilContainerHeader <= length data /\
  read_u32 data offsetof_HeaderFourCC = Some DFCC_Container /\
  read_u16 data offsetof_Version_Major = Some DxilContainerVersionMajor /\
  exists PartCount,
    read_u32 data offsetof_PartCount = Some PartCount /\
    (Z.of_nat sizeof_DxilContainerHeader + 4 * PartCount
     <= Z.of_nat (length data))%Z.

(** [PartOffsets[i]] is [Offset]. *)
Definition part_offset (data : Blob) (i : nat) (Offset : Z) : Prop :=
  read_u32 data (sizeof_DxilContainerHeader + 4 * i) = Some Offset.

(** The header of part [i] lies within the buffer. *)
Definition part_fits (data : Blob) (i : nat) : Prop :=
  exists Offset,
    part_offset data i Offset /\
    (Offset + Z.of_nat sizeof_DxilPartHeader <= Z.of_nat (length data))%Z.

(** Part [i] carries the tag of the DXIL part. *)
Definition part_is_DXIL (data : Blob) (i : nat) : Prop :=
  exists Offset,
    part_offset data i Offset /\
    read_u32 data (Z.to_nat Offset) = Some DFCC_DXIL.

(** The scan reaches part [i] and finds the DXIL tag there: the parts
    before it and the part itself fit. *)
Definition found_at (data : Blob) (i : nat) : Prop :=
  (forall j, j <= i -> part_fits data j) /\ part_is_DXIL data i.

Definition bytes (l : list N) : Blob :=
  map (fun n => match Byte.of_N n with
                | Some b => b
                | None => Byte.x00
                end) l.

(** A header for [PartCount] parts with major version [Major]. *)
Definition header_bytes (Major PartCount : N) : Blob :=
  map byte_of_ascii (lit "DXBC")
  ++ bytes [0; 0; 0; 0; 0; 0; 0; 0; 0; 0; 0; 0; 0; 0; 0; 0]%N
  ++ bytes [Major; 0; 0; 0]%N
  ++ bytes [48; 0; 0; 0]%N
  ++ bytes [PartCount; 0; 0; 0]%N.

(** Two parts: a DXIL part at offset 40 that fits, and an offset of
    1000 that does not. *)
Definition DXIL_then_truncated : Blob :=
  header_bytes 1 2
  ++ bytes [40; 0; 0; 0]%N ++ bytes [232; 3; 0; 0]%N
  ++ map byte_of_ascii (lit "DXIL") ++ bytes [0; 0; 0; 0]%N.

(** The same parts in the other order. *)
Definition truncated_then_DXIL : Blob :=
  header_bytes 1 2
  ++ bytes [232; 3; 0; 0]%N ++ bytes [40; 0; 0; 0]%N
  ++ map byte_of_ascii (lit "DXIL") ++ bytes [0; 0; 0; 0]%N.

(** A well-formed header with major version 2. *)
Definition wrong_major : Blob :=
  header_bytes 2 1
  ++ bytes [36; 0; 0; 0]%N
  ++ map byte_of_ascii (lit "DXIL") ++ bytes [0; 0; 0; 0]%N.

End Container.

(* ================================================================== *)
(** * Notions used in the statements *)
(* ================================================================== *)

(** The text that follows a number: nothing, or a character that is not
    a number symbol. *)
Definition ends_number (R : Str) : bool :=
  match R with
  | [] => true
  | c :: _ => negb (mem c NumberSymbols)
  end.

Definition number_symbols (field : Str) : Prop :=
  Forall (fun c => mem c NumberSymbols = true) field.

Definition mismatch_message : Str :=
  lit "previous value does not match the expected".


(** A run that does not depend on the iteration budget. *)
Definition fuel_free {A} (m : M A) : Prop :=
  forall DXIL, m DXIL <> OutOfFuel.

(** The number of exclamation marks of a text: every declaration that
    the generic patcher looks at begins with one. *)
Definition bangs (s : Str) : nat :=
  length (filter (fun c => Ascii.eqb c "!") s).

(** No resource name of the extended map has an exclamation mark. *)
Definition plain_names (ExtResMap : TExtendedResourceMap) : Prop :=
  Forall (fun ResInfo => bangs (fst (fst ResInfo)) = 0) ExtResMap.

(** A run of decimal digits. *)
Definition digits (s : Str) : Prop :=
  Forall (fun c => IsNumberSymbol c = true) s.

(** Text over which [NextArg] moves on: no comma, closing parenthesis or
    line feed. *)
Definition inside_argument (s : Str) : Prop :=
  Forall (fun c => Ascii.eqb c "," = false /\ Ascii.eqb c ")" = false
                   /\ Ascii.eqb c newline = false) s.


(** A message names a thing when the thing's text occurs in it. *)
Definition names (msg thing : Str) : bool :=
  match find thing msg 0 with
  | Some _ => true
  | None => false
  end.

(** Inputs of the examples. *)
Module Examples.

Definition g_Tex : ResPair :=
  (lit "g_Tex",
   {| BindPoint := 3; Space := 0; ArraySize := 1;
      ResType := SHADER_RESOURCE_TYPE_TEXTURE_SRV |}).

(** Reflection reported [g_Tex] at space 2, register 0. *)
Definition g_Tex_ext : ResourceExtendedInfo :=
  {| SrcBindPoint := 0; SrcSpace := 2; RecordId := UINT_MAX;
     Type_ := RES_TYPE_SRV |}.

(** A metadata record whose space field reads 5 instead of 2. *)
Definition stale_record : Str :=
  ir "!5 = !{i32 0, %'class.Texture2D<float>'* undef, !'g_Tex', i32 5, i32 0, i32 1}".

(** A module with the record of [g_Tex] at space 2, register 0, and a
    createHandle call on it. *)
Definition g_Tex_module : Str :=
  ir "!5 = !{i32 0, %'class.Texture2D<float>'* undef, !'g_Tex', i32 2, i32 0, i32 1}|  %1 = call %dx.types.Handle @dx.op.createHandle(i32 57, i8 0, i32 0, i32 0, i1 false)|".

(** The module with the declaration moved to space 0, register 3. *)
Definition g_Tex_declaration_patched : Str :=
  ir "!5 = !{i32 0, %'class.Texture2D<float>'* undef, !'g_Tex', i32 0, i32 3, i32 1}|  %1 = call %dx.types.Handle @dx.op.createHandle(i32 57, i8 0, i32 0, i32 0, i1 false)|".

(** The module with the declaration and the call moved. *)
Definition g_Tex_fully_patched : Str :=
  ir "!5 = !{i32 0, %'class.Texture2D<float>'* undef, !'g_Tex', i32 0, i32 3, i32 1}|  %1 = call %dx.types.Handle @dx.op.createHandle(i32 57, i8 0, i32 0, i32 3, i1 false)|".

(** An array of four textures declared at registers 5 to 8 and bound
    at registers 10 to 13; its record has id 0. *)
Definition g_Array : ResPair :=
  (lit "g_Array",
   {| BindPoint := 10; Space := 0; ArraySize := 4;
      ResType := SHADER_RESOURCE_TYPE_TEXTURE_SRV |}).

Definition g_Array_ext : ResourceExtendedInfo :=
  {| SrcBindPoint := 5; SrcSpace := 0; RecordId := 0;
     Type_ := RES_TYPE_SRV |}.

(** The same array with the size of an unbounded array. *)
Definition g_Unbounded : ResPair :=
  (lit "g_Unbounded",
   {| BindPoint := 10; Space := 0; ArraySize := UINT_MAX;
      ResType := SHADER_RESOURCE_TYPE_TEXTURE_SRV |}).

Definition call_with_index_7 : Str :=
  ir "  %1 = call %dx.types.Handle @dx.op.createHandle(i32 57, i8 0, i32 0, i32 7, i1 false)|".

Definition call_with_index_12 : Str :=
  ir "  %1 = call %dx.types.Handle @dx.op.createHandle(i32 57, i8 0, i32 0, i32 12, i1 false)|".






(** A range of four registers that begins two registers below 2^31, and
    a call whose index is the register 2^31 of that range. *)
Definition g_High_ext : ResourceExtendedInfo :=
  {| SrcBindPoint := 2147483646; SrcSpace := 0; RecordId := 0;
     Type_ := RES_TYPE_SRV |}.

Definition call_with_index_2147483648 : Str :=
  ir "  %1 = call %dx.types.Handle @dx.op.createHandle(i32 57, i8 0, i32 0, i32 2147483648, i1 false)|".

(** A module that declares no resource and creates no handle. *)
Definition module_without_resources : Str :=
  ir "define void @main() {|  ret void|}|".

(** The record of [g_Tex] without its name, as optimised modules have
    it, and the record after the generic patcher. *)
Definition unnamed_record : Str :=
  ir "!5 = !{i32 0, %'class.Texture2D<float>'* undef, !'', i32 2, i32 0, i32 1}|".

Definition unnamed_record_patched : Str :=
  ir "!5 = !{i32 0, %'class.Texture2D<float>'* undef, !'g_Tex', i32 0, i32 3, i32 1}|".

(** A request for a resource that the shader does not declare. *)
Definition g_Missing : ResPair :=
  (lit "g_Missing",
   {| BindPoint := 7; Space := 1; ArraySize := 1;
      ResType := SHADER_RESOURCE_TYPE_CONSTANT_BUFFER |}).

(** What reflection reports for a shader of type [ShType] that declares
    [g_Tex] only. *)
Definition reflection_of (ShType : Z) : ShaderReflection :=
  {| ShType := ShType;
     GetResourceBindingDescByName := fun name =>
       if Str_eqb name (lit "g_Tex")
       then Some {| Desc_Type := D3D_SIT_TEXTURE; Desc_BindPoint := 0;
                    Desc_BindCount := 1; Desc_Space := 2 |}
       else None |}.

(** A compiler library that disassembles every blob to [text], reflects
    it as [refl], assembles a text to its bytes and validates in place. *)
Definition backend_of (text : Str) (refl : ShaderReflection) : Backend :=
  {| loaded := true;
     library_created := true;
     assembler_created := true;
     compiler_created := true;
     Disassemble := fun _ => Some text;
     GetD3D12ShaderReflection := fun _ => Some refl;
     CreateBlobWithEncodingFromPinned := fun _ => true;
     AssembleToContainer := fun s => Assembled (map byte_of_ascii s);
     Validate := fun compiled => Validated None compiled |}.

End Examples.

(* ================================================================== *)
(** * The compiler object: DXCompilerImpl *)
(* ================================================================== *)

Module DXCompiler.

(** [DXCompilerTarget]; [TargetOther] is a value outside the enumeration,
    which the source reports with [UNEXPECTED]. *)
Inductive DXCompilerTarget : Type :=
| Direct3D12
| Vulkan
| TargetOther.

(** [ShaderVersion], with the two members the source reads. *)
Record ShaderVersion : Type := {
  Major : Z;
  Minor : Z
}.

Definition VK_API_VERSION_1_1 : Z := Z.lor (Z.shiftl 1 22) (Z.shiftl 1 12).
Definition VK_API_VERSION_1_2 : Z := Z.lor (Z.shiftl 1 22) (Z.shiftl 2 12).

(** [IShaderSourceInputStreamFactory]: the data that [ReadBlob] reads
    from the stream that [CreateInputStream] opens for a file name;
    [None] when no stream is opened. *)
Record IShaderSourceInputStreamFactory : Type := {
  CreateInputStream : Str -> option Blob
}.

(** [IDXCompiler::CompileAttribs], the members that are inputs.
    [SourceLength] is the length of [Source]; [ppBlobOut] and
    [ppCompilerOutput] are results. *)
Record CompileAttribs : Type := {
  Source : Str;
  EntryPoint : Str;
  Profile : Str;
  pDefines : list (Str * Str);
  pArgs : list Str;
  pShaderSourceStreamFactory : option IShaderSourceInputStreamFactory
}.

(** [IDxcOperationResult] of a compilation. *)
Record IDxcOperationResult : Type := {
  (* [Some ok] when [GetStatus] succeeds, [ok] being [SUCCEEDED(status)] *)
  GetStatus : option bool;
  (* the text when [GetErrorBuffer] and [GetBlobAsUtf8] both succeed *)
  GetErrorBuffer : option Blob;
  (* the blob when [GetResult] succeeds *)
  GetResult : option Blob
}.

(** The entry point [DxcCreateInstanceProc] of a loaded library: whether
    [Load] gets a validator from it, the version that the validator's
    [IDxcVersionInfo] reports ([None] when the interface is missing), the
    instances it creates for a compilation or a remap, and what
    [IDxcCompiler::Compile] answers: [SUCCEEDED(hr)] and the result
    object, [None] for a null pointer. The member [loaded] of [instances]
    is not looked at: the entry point is there. *)
Record DxcCreateInstanceProc : Type := {
  CreateValidator : bool;
  GetVersionInfo : option (Z * Z);
  instances : Backend;
  DxcCompile : CompileAttribs -> bool * option IDxcOperationResult
}.

Record DXCompilerImpl : Type := {
  m_pCreateInstance : option DxcCreateInstanceProc;
  m_IsInitialized : bool;
  m_MaxShaderModel : ShaderVersion;
  m_LibName : Str;
  m_Target : DXCompilerTarget;
  m_APIVersion : Z;
  m_MajorVer : Z;
  m_MinorVer : Z
}.

(** [auto ver = (m_MajorVer << 16) | (m_MinorVer & 0xFFFF)], in
    [UINT32]. *)
Definition packed_version (MajorVer MinorVer : Z) : Z :=
  Z.lor (u32 (Z.shiftl MajorVer 16)) (Z.land MinorVer 65535).

(** The switch of [Load] that maps a compiler version to the maximum
    shader model. *)
Definition max_shader_model (ver : Z) : ShaderVersion :=
  if (ver =? 65541)%Z then {| Major := 6; Minor := 5 |}
  else if (ver =? 65540)%Z then {| Major := 6; Minor := 4 |}
  else if (ver =? 65539)%Z || (ver =? 65538)%Z
  then {| Major := 6; Minor := 1 |}
  else if (65541 <? ver)%Z then {| Major := 6; Minor := 6 |}
  else {| Major := 6; Minor := 0 |}.

Section Object.

(** [DXCompilerBase::Load(m_Target, m_LibName)], which loads the library
    and returns its entry point, and the value of [ShaderVersion{}]. *)
Variable Base_Load : DXCompilerTarget -> Str -> option DxcCreateInstanceProc.
Variable ShaderVersion_default : ShaderVersion.

(** The constructor, as [CreateDXCompiler] calls it. *)
Definition CreateDXCompiler (Target : DXCompilerTarget) (APIVersion : Z)
    (pLibraryName : option Str) : DXCompilerImpl :=
  {| m_pCreateInstance := None;
     m_IsInitialized := false;
     m_MaxShaderModel := ShaderVersion_default;
     m_LibName :=
       match pLibraryName with
       | Some pLibName => pLibName
       | None =>
           match Target with
           | Direct3D12 => lit "dxcompiler"
           | _ => lit "spv_dxcompiler"
           end
       end;
     m_Target := Target;
     m_APIVersion := APIVersion;
     m_MajorVer := 0;
     m_MinorVer := 0 |}.

(** [Load()]: the object after the call and the entry point returned. *)
Definition Load (this : DXCompilerImpl)
  : DXCompilerImpl * option DxcCreateInstanceProc :=
  if m_IsInitialized this then (this, m_pCreateInstance this)
  else
    let pCreateInstance := Base_Load (m_Target this) (m_LibName this) in
    let version :=
      match pCreateInstance with
      | Some proc =>
          if CreateValidator proc then GetVersionInfo proc else None
      | None => None
      end in
    ({| m_pCreateInstance := pCreateInstance;
        m_IsInitialized := true;
        m_MaxShaderModel :=
          match version with
          | Some (MajorVer, MinorVer) =>
              max_shader_model (packed_version (u32 MajorVer) (u32 MinorVer))
          | None => m_MaxShaderModel this
          end;
        m_LibName := m_LibName this;
        m_Target := m_Target this;
        m_APIVersion := m_APIVersion this;
        m_MajorVer :=
          match version with
          | Some (MajorVer, _) => u32 MajorVer
          | None => m_MajorVer this
          end;
        m_MinorVer :=
          match version with
          | Some (_, MinorVer) => u32 MinorVer
          | None => m_MinorVer this
          end |},
     pCreateInstance).

Definition GetCreateInstaceProc (this : DXCompilerImpl)
  : DXCompilerImpl * option DxcCreateInstanceProc :=
  Load this.

Definition IsLoaded (this : DXCompilerImpl) : DXCompilerImpl * bool :=
  let '(this, CreateInstance) := GetCreateInstaceProc this in
  (this, match CreateInstance with
         | Some _ => true
         | None => false
         end).

Definition GetMaxShaderModel (this : DXCompilerImpl)
  : DXCompilerImpl * ShaderVersion :=
  let '(this, _) := Load this in
  (this, m_MaxShaderModel this).

Definition GetVersion (this : DXCompilerImpl) : Z * Z :=
  (m_MajorVer this, m_MinorVer this).

(** How a call of [Compile(const CompileAttribs&)] ends: the value
    returned with what is stored in [*ppBlobOut] and in
    [*ppCompilerOutput] ([None] when nothing is stored), or a call
    through the null result pointer. *)
Inductive compile_result : Type :=
| Compiled (result : bool) (BlobOut CompilerOutput : option Blob)
| CompileUndefined.

(** [Compile(const CompileAttribs& Attribs)]. *)
Definition Compile (this : DXCompilerImpl) (Attribs : CompileAttribs)
  : DXCompilerImpl * compile_result :=
  let '(this, CreateInstance) := GetCreateInstaceProc this in
  (this,
   match CreateInstance with
   | None => Compiled false None None
   | Some proc =>
       let backend := instances proc in
       if negb (library_created backend) then Compiled false None None
       else if negb (compiler_created backend) then Compiled false None None
       else if negb (CreateBlobWithEncodingFromPinned backend (Source Attribs))
       then Compiled false None None
       else
         let '(hr, result) := DxcCompile proc Attribs in
         match result with
         | None =>
             (* [result->GetStatus] is called when [SUCCEEDED(hr)] *)
             if hr then CompileUndefined else Compiled false None None
         | Some result =>
             let hr :=
               if hr
               then match GetStatus result with
                    | Some status => status
                    | None => hr
                    end
               else hr in
             let CompilerOutput := GetErrorBuffer result in
             if negb hr then Compiled false None CompilerOutput
             else
               match GetResult result with
               | None => Compiled false None CompilerOutput
               | Some compiled =>
                   match m_Target this with
                   | Direct3D12 =>
                       let '(r, BlobOut) := ValidateAndSign backend compiled in
                       Compiled r BlobOut CompilerOutput
                   | _ => Compiled true (Some compiled) CompilerOutput
                   end
               end
         end
   end).

End Object.

(** ** Compile(const ShaderCreateInfo&, ...) *)

(** What [Compile] logs about the shader model. *)
Inductive shader_model_message : Type :=
| Upgrading (ShaderModel : ShaderVersion)
| Downgrading (MaxSM ShaderModel : ShaderVersion).

(** How [HandleHLSLCompilerResult] ends: it returns, having stored a
    blob in [*ppCompilerOutput] or not, or it throws. *)
Inductive handler_result : Type :=
| Handled (CompilerOutput : option Blob)
| HandlerThrew.

(** How a call of [Compile(const ShaderCreateInfo&, ...)] ends. *)
Inductive shader_compile_result : Type :=
| NotLoaded
| ShaderCompileThrew
| ShaderCompileUndefined
| ShaderCompiled (pByteCode : option (list Z))
    (ppByteCodeBlob ppCompilerOutput : option Blob).

(** The [uint32_t] words of a blob, low byte first: what
    [pByteCode->assign(p, p + Size / sizeof(uint32_t))] stores. *)
Fixpoint to_words (data : Blob) : list Z :=
  match data with
  | b0 :: b1 :: b2 :: b3 :: rest =>
      let byte b := Z.of_N (Byte.to_N b) in
      Z.lor (Z.lor (byte b0) (Z.shiftl (byte b1) 8))
            (Z.lor (Z.shiftl (byte b2) 16) (Z.shiftl (byte b3) 24))
      :: to_words rest
  | _ => []
  end.

Section CompileShader.

Variable Base_Load : DXCompilerTarget -> Str -> option DxcCreateInstanceProc.

(** The operators of [ShaderVersion] and the value of
    [ShaderVersion{}], declared outside of this file. *)
Variable ShaderVersion_default : ShaderVersion.
Variable ShaderVersion_eq : ShaderVersion -> ShaderVersion -> bool.
Variable ShaderVersion_gt : ShaderVersion -> ShaderVersion -> bool.
Variable ShaderVersion_ge : ShaderVersion -> ShaderVersion -> bool.

(** [ShaderCreateInfo], with the members that [Compile] reads itself:
    [Desc.ShaderType], [Desc.Name], [EntryPoint] and
    [pShaderSourceStreamFactory]. *)
Variable ShaderCreateInfo : Type.
Variable Desc_ShaderType : ShaderCreateInfo -> SHADER_TYPE.
Variable Desc_Name : ShaderCreateInfo -> Str.
Variable CI_EntryPoint : ShaderCreateInfo -> Str.
Variable CI_pShaderSourceStreamFactory :
  ShaderCreateInfo -> option IShaderSourceInputStreamFactory.

(** Whether the file is built with [DILIGENT_DEBUG]. *)
Variable DILIGENT_DEBUG : bool.

(** The helpers of HLSLUtils.hpp and ShaderToolsCommon.hpp. *)
Variable GetHLSLProfileString : SHADER_TYPE -> ShaderVersion -> Str.
Variable BuildHLSLSourceString : ShaderCreateInfo -> option Str -> Str.
Variable HandleHLSLCompilerResult :
  bool -> option Blob -> Str -> Str -> handler_result.

(** The validation of the shader model: the model that is compiled for
    and what is logged. *)
Definition validate_shader_model (ShaderModel MaxSM : ShaderVersion)
  : ShaderVersion * list shader_model_message :=
  if ShaderVersion_eq ShaderModel ShaderVersion_default then (MaxSM, [])
  else if (Major ShaderModel <? 6)%Z
  then ({| Major := 6; Minor := 0 |}, [Upgrading ShaderModel])
  else if ShaderVersion_gt ShaderModel MaxSM
  then (MaxSM, [Downgrading MaxSM ShaderModel])
  else (ShaderModel, []).

(** [m_MajorVer > 1 || (m_MajorVer == 1 && m_MinorVer >= 5)] *)
Definition since_1_5 (this : DXCompilerImpl) : bool :=
  ((1 <? m_MajorVer this)
   || ((m_MajorVer this =? 1) && (5 <=? m_MinorVer this)))%Z.

(** The compiler arguments [DxilArgs]. *)
Definition DxilArgs (this : DXCompilerImpl) (ShaderModel : ShaderVersion)
  : list Str :=
  match m_Target this with
  | Direct3D12 =>
      [lit "-Zpc"]
      ++ (if DILIGENT_DEBUG
          then [lit "-Zi"; lit "-Od"]
               ++ (if since_1_5 this then [lit "-Qembed_debug"] else [])
          else if since_1_5 this then [lit "-O3"] else [lit "-Od"])
  | Vulkan =>
      [lit "-spirv"; lit "-fspv-reflect"; lit "-O3"; lit "-Zpc"]
      ++ (if (VK_API_VERSION_1_2 <=? m_APIVersion this)%Z
             && ShaderVersion_ge ShaderModel {| Major := 6; Minor := 3 |}
          then [lit "-fspv-target-env=vulkan1.2"]
          else if (VK_API_VERSION_1_1 <=? m_APIVersion this)%Z
          then [lit "-fspv-target-env=vulkan1.1"]
          else [])
  | TargetOther => []
  end.

(** The attributes [CA] that are handed to [Compile]. *)
Definition shader_compile_attribs (this : DXCompilerImpl)
    (ShaderCI : ShaderCreateInfo) (ShaderModel : ShaderVersion)
    (ExtraDefinitions : option Str) : CompileAttribs :=
  {| Source := BuildHLSLSourceString ShaderCI ExtraDefinitions;
     EntryPoint := CI_EntryPoint ShaderCI;
     Profile := GetHLSLProfileString (Desc_ShaderType ShaderCI) ShaderModel;
     pDefines := [(lit "DXCOMPILER", [])];
     pArgs := DxilArgs this ShaderModel;
     pShaderSourceStreamFactory := CI_pShaderSourceStreamFactory ShaderCI |}.

(** [Compile(ShaderCI, ShaderModel, ExtraDefinitions, ppByteCodeBlob,
    pByteCode, ppCompilerOutput)]; the two booleans tell whether
    [pByteCode] and [ppByteCodeBlob] are null. *)
Definition CompileShader (this : DXCompilerImpl) (ShaderCI : ShaderCreateInfo)
    (ShaderModel : ShaderVersion) (ExtraDefinitions : option Str)
    (ppByteCodeBlob_given pByteCode_given : bool)
  : DXCompilerImpl * shader_compile_result :=
  let '(this, loaded) := IsLoaded Base_Load this in
  if negb loaded then (this, NotLoaded)
  else
    let '(this, MaxSM) := GetMaxShaderModel Base_Load this in
    let '(ShaderModel, _) := validate_shader_model ShaderModel MaxSM in
    let CA := shader_compile_attribs this ShaderCI ShaderModel
                ExtraDefinitions in
    let '(this, r) := Compile Base_Load this CA in
    (this,
     match r with
     | CompileUndefined => ShaderCompileUndefined
     | Compiled result pDXIL pDxcLog =>
         match HandleHLSLCompilerResult result pDxcLog (Source CA)
                 (Desc_Name ShaderCI) with
         | HandlerThrew => ShaderCompileThrew
         | Handled ppCompilerOutput =>
             match pDXIL with
             | Some DXIL =>
                 if result && (0 <? length DXIL)
                 then ShaderCompiled
                        (if pByteCode_given then Some (to_words DXIL)
                         else None)
                        (if ppByteCodeBlob_given then Some DXIL else None)
                        ppCompilerOutput
                 else ShaderCompiled None None ppCompilerOutput
             | None => ShaderCompiled None None ppCompilerOutput
             end
         end
     end).

End CompileShader.

End DXCompiler.

(* ================================================================== *)
(** * The include handler: DxcIncludeHandlerImpl *)
(* ================================================================== *)

Module DxcIncludeHandlerImpl.

Import DXCompiler.

Inductive HRESULT : Type :=
| S_OK
| E_FAIL.

Record DxcIncludeHandlerImpl : Type := {
  m_RefCount : Z;
  m_FileDataCache : list Blob
}.

(** [static_cast<char>(wc)] for a wide character [wc]. *)
Definition narrow (wc : Z) : ascii :=
  ascii_of_N (Z.to_N (wc mod 256)).

(** The characters before the terminating zero: what [wcslen] counts
    and what [c_str()] shows. *)
Fixpoint wide_c_str (w : list Z) : list Z :=
  match w with
  | [] => []
  | wc :: w' => if (wc =? 0)%Z then [] else wc :: wide_c_str w'
  end.

Fixpoint c_str (s : Str) : Str :=
  match s with
  | [] => []
  | c :: s' => if Ascii.eqb c zero then [] else c :: c_str s'
  end.

(** [fileName] after the conversion loop. *)
Definition converted_name (pFilename : list Z) : Str :=
  map narrow (wide_c_str pFilename).

Definition backslash : ascii := ascii_of_nat 92.

(** The validation of the file name: a leading dot with a slash or a
    backslash is erased from a name of more than two characters. *)
Definition validated_name (fileName : Str) : Str :=
  if (2 <? length fileName)
     && Ascii.eqb (at_ fileName 0) "."
     && (Ascii.eqb (at_ fileName 1) backslash
         || Ascii.eqb (at_ fileName 1) "/")
  then skipn 2 fileName
  else fileName.

(** How a call of [LoadSource] ends: the value returned, what is stored
    in [*ppIncludeSource] and the error that is logged. *)
Record load_source_result : Type := {
  hr : HRESULT;
  pIncludeSource : option Blob;
  logged : option Str
}.

Section Handler.

Variable m_pStreamFactory : IShaderSourceInputStreamFactory.

(** [m_pLibrary->CreateBlobWithEncodingFromPinned(pData, Size, CP_UTF8,
    &sourceBlob)]: whether the call succeeds. The blob is a view of the
    [Size] bytes at [pData]. *)
Variable CreateBlobWithEncodingFromPinned : Blob -> Z -> bool.

(** [LoadSource(pFilename, ppIncludeSource)]; [pFilename] is [None] for
    a null pointer and the wide characters of the buffer otherwise. *)
Definition LoadSource (this : DxcIncludeHandlerImpl)
    (pFilename : option (list Z))
  : DxcIncludeHandlerImpl * load_source_result :=
  match pFilename with
  | None =>
      (this, {| hr := E_FAIL; pIncludeSource := None; logged := None |})
  | Some pFilename =>
      let fileName := converted_name pFilename in
      if (length fileName =? 0)
      then
        (this,
         {| hr := E_FAIL; pIncludeSource := None;
            logged :=
              Some (lit "Failed to convert shader include file name "
                    ++ fileName ++ lit ". File name must be ANSI string") |})
      else
        let fileName := validated_name fileName in
        match CreateInputStream m_pStreamFactory (c_str fileName) with
        | None =>
            (this,
             {| hr := E_FAIL; pIncludeSource := None;
                logged :=
                  Some (lit "Failed to open shader include file "
                        ++ fileName ++ lit ". Check that the file exists") |})
        | Some pFileData =>
            let Size := u32 (Z.of_nat (length pFileData)) in
            if negb (CreateBlobWithEncodingFromPinned pFileData Size)
            then
              (this,
               {| hr := E_FAIL; pIncludeSource := None;
                  logged :=
                    Some (lit "Failed to allocate space for shader include file "
                          ++ fileName ++ lit ".") |})
            else
              ({| m_RefCount := m_RefCount this;
                  m_FileDataCache := m_FileDataCache this ++ [pFileData] |},
               {| hr := S_OK;
                  pIncludeSource := Some (firstn (Z.to_nat Size) pFileData);
                  logged := None |})
        end
  end.

End Handler.

(** [AddRef()] and [Release()]: the object after the call and the value
    returned. The handler lives on the stack of [Compile] and is not
    deleted by [Release]. *)
Definition AddRef (this : DxcIncludeHandlerImpl)
  : DxcIncludeHandlerImpl * Z :=
  ({| m_RefCount := m_RefCount this + 1;
      m_FileDataCache := m_FileDataCache this |},
   (m_RefCount this + 1)%Z).

Definition Release (this : DxcIncludeHandlerImpl)
  : DxcIncludeHandlerImpl * Z :=
  ({| m_RefCount := m_RefCount this - 1;
      m_FileDataCache := m_FileDataCache this |},
   (m_RefCount this - 1)%Z).

End DxcIncludeHandlerImpl.

(* ================================================================== *)
(** * Further notions used in the statements *)
(* ================================================================== *)

(** The entry that the loop of [RemapResourceBindings] makes for a
    request: none when reflection does not know the name, and otherwise
    the reflected register, space and type with no record id yet. *)
Definition reflected_entry (pShaderReflection : ShaderReflection)
    (NameAndBinding : ResPair) : list (ResPair * ResourceExtendedInfo) :=
  match GetResourceBindingDescByName pShaderReflection
          (fst NameAndBinding) with
  | Some ResDesc =>
      match res_type_of_input (Desc_Type ResDesc) with
      | Some ty =>
          [(NameAndBinding,
            {| SrcBindPoint := Desc_BindPoint ResDesc;
               SrcSpace := Desc_Space ResDesc;
               RecordId := UINT_MAX;
               Type_ := ty |})]
      | None => []
      end
  | None => []
  end.

(** The quoted name under which the ray-tracing patcher looks for a
    resource. *)
Definition DxilName (ResPair : ResPair) : Str :=
  lit "!" ++ [dquote] ++ fst ResPair ++ [dquote].

(** Inputs of the examples for the compiler object. *)
Module CompilerExamples.

Import DXCompiler.

(** An order of shader versions: by major number, then by minor
    number. *)
Definition version_eq (a b : ShaderVersion) : bool :=
  ((Major a =? Major b) && (Minor a =? Minor b))%Z.

Definition version_gt (a b : ShaderVersion) : bool :=
  ((Major b <? Major a)
   || ((Major a =? Major b) && (Minor b <? Minor a)))%Z.

Definition version_ge (a b : ShaderVersion) : bool :=
  version_gt a b || version_eq a b.

Definition version_0_0 : ShaderVersion := {| Major := 0; Minor := 0 |}.

(** The result object of a compilation that succeeded with a warning
    text of two bytes and a blob of six bytes. *)
Definition compiled_with_warning : IDxcOperationResult :=
  {| GetStatus := Some true;
     GetErrorBuffer := Some (Container.bytes [119; 33]%N);
     GetResult := Some (Container.bytes [1; 2; 3; 4; 5; 6]%N) |}.

(** A library whose validator reports version 1.5 and whose compiler
    answers every compilation with [compiled_with_warning]. *)
Definition library_1_5 : DxcCreateInstanceProc :=
  {| CreateValidator := true;
     GetVersionInfo := Some (1, 5)%Z;
     instances := Examples.backend_of [] (Examples.reflection_of 0);
     DxcCompile := fun _ => (true, Some compiled_with_warning) |}.

Definition load_library_1_5 (Target : DXCompilerTarget) (LibName : Str)
  : option DxcCreateInstanceProc :=
  Some library_1_5.

(** A compiler object for Vulkan 1.2 on which [Load] has not run. *)
Definition vulkan_compiler : DXCompilerImpl :=
  CreateDXCompiler version_0_0 Vulkan VK_API_VERSION_1_2 None.

Definition some_attribs : CompileAttribs :=
  {| Source := lit "float4 main() : SV_Target { return 0; }";
     EntryPoint := lit "main";
     Profile := lit "ps_6_0";
     pDefines := [];
     pArgs := [];
     pShaderSourceStreamFactory := None |}.

(** A create info that holds an entry point only, helpers that give a
    fixed profile and a fixed source, and a handler that hands the log
    on. *)
Definition entry_point_only : Type := Str.

Definition profile_ps_6_0 (ShaderType : SHADER_TYPE)
    (ShaderModel : ShaderVersion) : Str :=
  lit "ps_6_0".

Definition fixed_source (ShaderCI : entry_point_only)
    (ExtraDefinitions : option Str) : Str :=
  Source some_attribs.

Definition hand_on_log (CompilationSucceeded : bool)
    (pCompilerOutput : option Blob) (ShaderSource ShaderName : Str)
  : handler_result :=
  Handled pCompilerOutput.

(** [Compile] for the entry point [main] on [vulkan_compiler], with both
    outputs asked for. *)
Definition compile_main : DXCompilerImpl * shader_compile_result :=
  CompileShader load_library_1_5 version_0_0 version_eq version_gt
    version_ge entry_point_only (fun _ => SHADER_TYPE_PIXEL)
    (fun _ => lit "shader") (fun ShaderCI => ShaderCI) (fun _ => None)
    false profile_ps_6_0 fixed_source hand_on_log vulkan_compiler
    (lit "main") version_0_0 None true true.

End CompilerExamples.
(* ================================================================== *)
(** * Facts about the text operations *)
(* ================================================================== *)

Section TextFacts.

Implicit Types (s r A R : Str) (c : ascii).

Lemma skipn_app_plus A s k : skipn (length A + k) (A ++ s) = skipn k s.
Proof.
  induction A as [|a A IH]; simpl; auto.
Qed.

Lemma skipn_app_exact A s : skipn (length A) (A ++ s) = s.
Proof.
  rewrite <- (Nat.add_0_r (length A)). apply skipn_app_plus.
Qed.

Lemma firstn_app_plus A s k : firstn (length A + k) (A ++ s) = A ++ firstn k s.
Proof.
  induction A as [|a A IH]; simpl; auto. now rewrite IH.
Qed.

Lemma firstn_app_exact A s : firstn (length A) (A ++ s) = A.
Proof.
  rewrite <- (Nat.add_0_r (length A)), firstn_app_plus. simpl.
  apply app_nil_r.
Qed.

Lemma at_app_plus A s k : at_ (A ++ s) (length A + k) = at_ s k.
Proof.
  unfold at_. induction A as [|a A IH]; simpl; auto.
Qed.

Lemma at_skipn s k : at_ s k = hd zero (skipn k s).
Proof.
  unfold at_. revert k. induction s as [|c s IH]; intros [|k]; simpl; auto.
Qed.

Lemma starts_with_app pat s : starts_with pat (pat ++ s) = true.
Proof.
  induction pat as [|p pat IH]; simpl; auto.
  now rewrite Ascii.eqb_refl.
Qed.

Lemma starts_with_spec pat s :
  starts_with pat s = true <-> exists r, s = pat ++ r.
Proof.
  split.
  - revert s. induction pat as [|p pat IH]; intros s H.
    + now exists s.
    + destruct s as [|c s]; simpl in H; [discriminate|].
      apply andb_true_iff in H as [Hc Hs].
      apply Ascii.eqb_eq in Hc. subst c.
      destruct (IH _ Hs) as [r ->]. now exists r.
  - intros [r ->]. apply starts_with_app.
Qed.

Lemma starts_with_length pat s :
  starts_with pat s = true -> length pat <= length s.
Proof.
  intros H. apply starts_with_spec in H as [r ->].
  rewrite length_app. lia.
Qed.

Lemma find_in_bound pat s i : find_in pat s = Some i -> i <= length s.
Proof.
  revert i. induction s as [|c s IH]; intros i; simpl.
  - destruct (starts_with pat []); intros H; inversion H; auto.
  - destruct (starts_with pat (c :: s)).
    + intros H; inversion H; lia.
    + destruct (find_in pat s) as [j|]; simpl; intros H; inversion H.
      specialize (IH j eq_refl). lia.
Qed.

Lemma find_in_starts pat s i :
  find_in pat s = Some i -> starts_with pat (skipn i s) = true.
Proof.
  revert i. induction s as [|c s IH]; intros i; simpl.
  - destruct (starts_with pat []) eqn:E; intros H; inversion H; auto.
  - destruct (starts_with pat (c :: s)) eqn:E.
    + intros H; inversion H; auto.
    + destruct (find_in pat s) as [j|]; simpl; intros H; inversion H.
      simpl. now apply IH.
Qed.

(** [find] answers at or after the position it is given, with a match. *)
Lemma find_spec pat s pos i :
  find pat s pos = Some i ->
  pos <= i /\ i <= length s /\ starts_with pat (skipn i s) = true.
Proof.
  unfold find. destruct (pos <=? length s) eqn:E; [|discriminate].
  apply Nat.leb_le in E.
  destruct (find_in pat (skipn pos s)) as [j|] eqn:F; simpl; [|discriminate].
  intros H; inversion H; subst i. clear H.
  pose proof (find_in_bound _ _ _ F) as B. rewrite length_skipn in B.
  pose proof (find_in_starts _ _ _ F) as St. rewrite skipn_skipn in St.
  rewrite (Nat.add_comm j pos) in St. repeat split; auto; lia.
Qed.

Lemma rfind_from_spec pat s n i :
  rfind_from pat s n = Some i ->
  i <= n /\ starts_with pat (skipn i s) = true.
Proof.
  induction n as [|n IH]; cbn [rfind_from].
  - destruct (starts_with pat (skipn 0 s)) eqn:E; intros H; inversion H.
    subst. auto.
  - destruct (starts_with pat (skipn (S n) s)) eqn:E; intros H.
    + inversion H; subst. auto.
    + destruct (IH H). split; auto.
Qed.

Lemma rfind_spec pat s pos i :
  rfind pat s pos = Some i ->
  i <= pos /\ i <= length s /\ starts_with pat (skipn i s) = true.
Proof.
  unfold rfind. intros H. apply rfind_from_spec in H as [H1 H2].
  repeat split; auto; lia.
Qed.

Lemma first_not_of_bound set s i :
  first_not_of set s = Some i -> i < length s.
Proof.
  revert i. induction s as [|c s IH]; intros i; simpl; [discriminate|].
  destruct (mem c set).
  - destruct (first_not_of set s) as [j|]; simpl; intros H; inversion H.
    specialize (IH j eq_refl). lia.
  - intros H; inversion H; lia.
Qed.

Lemma find_first_not_of_spec set s pos i :
  find_first_not_of set s pos = Some i -> pos <= i /\ i < length s.
Proof.
  unfold find_first_not_of.
  destruct (first_not_of set (skipn pos s)) as [j|] eqn:F; simpl;
    [|discriminate].
  intros H; inversion H; subst. apply first_not_of_bound in F.
  rewrite length_skipn in F. lia.
Qed.

(** The characters before the answer of [first_not_of] are in the set
    and the one at the answer is not. *)
Lemma first_not_of_split set s :
  exists field rest,
    s = field ++ rest /\ Forall (fun c => mem c set = true) field /\
    match first_not_of set s with
    | Some i => i = length field /\
                exists c rest', rest = c :: rest' /\ mem c set = false
    | None => rest = []
    end.
Proof.
  induction s as [|c s (field & rest & -> & Hf & Hr)]; simpl.
  - exists [], []. auto.
  - destruct (mem c set) eqn:E.
    + exists (c :: field), rest. split; [reflexivity|]. split; [auto|].
      destruct (first_not_of set (field ++ rest)); simpl; auto.
      destruct Hr as [-> Hr]. auto.
    + exists [], (c :: field ++ rest). repeat split; eauto.
Qed.

Lemma first_not_of_app_stop set field c rest :
  Forall (fun c => mem c set = true) field -> mem c set = false ->
  first_not_of set (field ++ c :: rest) = Some (length field).
Proof.
  induction 1 as [|d field Hd _ IH]; intros Hc; simpl.
  - now rewrite Hc.
  - rewrite Hd, IH by assumption. reflexivity.
Qed.

Lemma first_not_of_all set field :
  Forall (fun c => mem c set = true) field -> first_not_of set field = None.
Proof.
  induction 1 as [|d field Hd _ IH]; simpl; auto.
  now rewrite Hd, IH.
Qed.

(** [std::to_string] of a [Uint32] has between one and ten characters. *)
Lemma dec_digits_length fuel n acc :
  length (dec_digits fuel n acc) <= fuel + length acc.
Proof.
  revert n acc. induction fuel as [|fuel IH]; intros n acc; simpl; [lia|].
  destruct (n / 10 =? 0)%Z; simpl; [lia|].
  etransitivity; [apply IH|]. simpl. lia.
Qed.

Lemma dec_digits_nonempty fuel n acc :
  0 < fuel -> 0 < length (dec_digits fuel n acc).
Proof.
  revert n acc.
  induction fuel as [|fuel IH]; intros n acc Hf; simpl; [lia|].
  destruct (n / 10 =? 0)%Z; simpl; [lia|].
  destruct fuel as [|fuel]; simpl; [lia|]. apply IH. lia.
Qed.

Lemma to_string_length n : 1 <= length (to_string n) <= 10.
Proof.
  unfold to_string. split.
  - apply dec_digits_nonempty. lia.
  - pose proof (dec_digits_length 10 (u32 n) []). simpl in *. lia.
Qed.

End TextFacts.

(* ================================================================== *)
(** * Facts about ReplaceRecord and ReadRecord *)
(* ================================================================== *)

Section RecordFacts.

Implicit Types (A R field NewValue Name RecordName : Str).

Lemma comma_space_at_app A R :
  comma_space_at (A ++ lit ", " ++ R) (length A) = true.
Proof.
  unfold comma_space_at.
  rewrite <- (Nat.add_0_r (length A)) at 2. rewrite at_app_plus.
  rewrite at_app_plus. rewrite length_app. simpl.
  replace (length A + 1 <? length A + S (S (length R))) with true; auto.
  symmetry. apply Nat.ltb_lt. lia.
Qed.

Lemma find_end_of_field A field R :
  number_symbols field -> ends_number R = true ->
  count_to (A ++ field ++ R) (length A)
    (find_first_not_of NumberSymbols (A ++ field ++ R) (length A))
  = length field.
Proof.
  intros Hf Hr. unfold find_first_not_of, count_to.
  rewrite skipn_app_exact.
  destruct R as [|c R]; simpl in Hr.
  - rewrite app_nil_r, first_not_of_all by assumption. simpl.
    rewrite length_app. lia.
  - rewrite first_not_of_app_stop; auto.
    + simpl. lia.
    + now apply negb_true_iff in Hr.
Qed.

(** The field and its replacement, for a buffer that has a record at
    [length A]. *)
Lemma record_field A field R NewValue :
  number_symbols field -> ends_number R = true ->
  let DXIL := A ++ lit ", i32 " ++ field ++ R in
  let pos := length A + 2 + length i32 in
  let n := count_to DXIL pos (find_first_not_of NumberSymbols DXIL pos) in
  substr DXIL pos n = Some field /\
  replace DXIL pos n NewValue = Some (A ++ lit ", i32 " ++ NewValue ++ R).
Proof.
  intros Hf Hr DXIL pos n.
  assert (HD : DXIL = (A ++ lit ", i32 ") ++ field ++ R)
    by (unfold DXIL; now rewrite <- app_assoc).
  assert (Hp : pos = length (A ++ lit ", i32 "))
    by (unfold pos; rewrite length_app; simpl; lia).
  assert (Hn : n = length field).
  { unfold n. rewrite HD, Hp. now apply find_end_of_field. }
  assert (Hle : (pos <=? length DXIL) = true).
  { apply Nat.leb_le. rewrite HD, Hp, !length_app. lia. }
  unfold substr, replace. rewrite Hle, Hn. split; f_equal.
  - rewrite HD, Hp, skipn_app_exact. apply firstn_app_exact.
  - rewrite HD, Hp, firstn_app_exact, skipn_app_plus, skipn_app_exact.
    now rewrite <- app_assoc.
Qed.

Lemma record_shape A field R :
  let DXIL := A ++ lit ", i32 " ++ field ++ R in
  comma_space_at DXIL (length A) = true /\
  starts_with i32 (skipn (length A + 2) DXIL) = true.
Proof.
  intros DXIL. split.
  - unfold DXIL. change (lit ", i32 " ++ field ++ R)
      with (lit ", " ++ (lit "i32 " ++ field ++ R)).
    apply comma_space_at_app.
  - unfold DXIL. rewrite skipn_app_plus. reflexivity.
Qed.

(** [ReplaceRecord] on a buffer that has a record at [length A]: the
    field is read with [stoi], cast to [Uint32] and compared with the
    expected value before anything is written. *)
Lemma ReplaceRecord_on_field A field R NewValue Name RecordName Expected :
  number_symbols field -> ends_number R = true ->
  let DXIL := A ++ lit ", i32 " ++ field ++ R in
  ReplaceRecord (length A) NewValue Name RecordName Expected DXIL =
  match stoi field with
  | StoiValue z =>
      if (u32 z =? Expected)%Z
      then Ret (length A + 2 + length i32 + length NewValue)
               (A ++ lit ", i32 " ++ NewValue ++ R)
      else Throw (resource_error Name mismatch_message) DXIL
  | StoiInvalidArgument => Throw (lit "std::invalid_argument") DXIL
  | StoiOutOfRange => Throw (lit "std::out_of_range") DXIL
  end.
Proof.
  intros Hf Hr DXIL.
  destruct (record_shape A field R) as [H1 H2].
  destruct (record_field A field R NewValue Hf Hr) as [H3 H4].
  fold DXIL in H1, H2, H3, H4.
  unfold ReplaceRecord, bind, get, check, ret, throw.
  rewrite H1, H2. unfold or_out_of_range, ret. rewrite H3.
  unfold stoi_u32. destruct (stoi field); auto.
  unfold ret. destruct (u32 z =? Expected)%Z; auto.
  rewrite H4. reflexivity.
Qed.

(** [ReadRecord] on the same buffer. *)
Lemma ReadRecord_on_field A field R :
  number_symbols field -> ends_number R = true ->
  let DXIL := A ++ lit ", i32 " ++ field ++ R in
  ReadRecord (length A) DXIL =
  match stoi field with
  | StoiValue z =>
      Ret (RecordRead
             (match R with
              | [] => None
              | _ :: _ => Some (length A + 2 + length i32 + length field)
              end) (u32 z)) DXIL
  | StoiInvalidArgument => Throw (lit "std::invalid_argument") DXIL
  | StoiOutOfRange => Throw (lit "std::out_of_range") DXIL
  end.
Proof.
  intros Hf Hr DXIL.
  destruct (record_shape A field R) as [H1 H2].
  destruct (record_field A field R [] Hf Hr) as [H3 _].
  fold DXIL in H1, H2, H3.
  unfold ReadRecord, bind, get.
  rewrite H1, H2. cbn [negb]. unfold or_out_of_range, ret. rewrite H3.
  unfold stoi_u32. destruct (stoi field); auto.
  unfold ret. do 2 f_equal.
  assert (HD : DXIL = (A ++ lit ", i32 ") ++ field ++ R)
    by (unfold DXIL; now rewrite <- app_assoc).
  assert (Hp : length A + 2 + length i32 = length (A ++ lit ", i32 "))
    by (rewrite length_app; simpl; lia).
  rewrite HD, Hp. unfold find_first_not_of. rewrite skipn_app_exact.
  destruct R as [|c R]; simpl in Hr.
  - rewrite app_nil_r, first_not_of_all by assumption. reflexivity.
  - apply negb_true_iff in Hr.
    rewrite first_not_of_app_stop by assumption. reflexivity.
Qed.

(** Every buffer that passes the two shape checks has a record. *)
Lemma record_decompose DXIL pos :
  comma_space_at DXIL pos = true ->
  starts_with i32 (skipn (pos + 2) DXIL) = true ->
  exists A field R,
    DXIL = A ++ lit ", i32 " ++ field ++ R /\ length A = pos /\
    number_symbols field /\ ends_number R = true.
Proof.
  intros Hc Hs.
  unfold comma_space_at in Hc.
  apply andb_true_iff in Hc as [Hc Hc3]. apply andb_true_iff in Hc as [Hc1 Hc2].
  apply Nat.ltb_lt in Hc1. apply Ascii.eqb_eq in Hc2, Hc3.
  apply starts_with_spec in Hs as [rest Hs].
  destruct (first_not_of_split NumberSymbols rest)
    as (field & R & -> & Hf & HR).
  exists (firstn pos DXIL), field, R.
  assert (Hlen : length (firstn pos DXIL) = pos)
    by (rewrite length_firstn; lia).
  repeat split; auto.
  - rewrite <- (firstn_skipn pos DXIL) at 1. f_equal.
    rewrite at_skipn in Hc2, Hc3.
    replace (pos + 2) with (2 + pos) in Hs by lia.
    rewrite <- skipn_skipn in Hs.
    replace (pos + 1) with (1 + pos) in Hc3 by lia.
    rewrite <- skipn_skipn in Hc3.
    destruct (skipn pos DXIL) as [|c1 [|c2 r]]; simpl in *;
      try discriminate; subst; reflexivity.
  - destruct (first_not_of NumberSymbols (field ++ R)).
    + destruct HR as (_ & c & r' & -> & Hm). unfold ends_number.
      now rewrite Hm.
    + now subst R.
Qed.

(** What a returning call of [ReplaceRecord] has done. *)
Lemma ReplaceRecord_Ret pos NewValue Name RecordName Expected DXIL pos' DXIL' :
  ReplaceRecord pos NewValue Name RecordName Expected DXIL = Ret pos' DXIL' ->
  exists A field R z,
    DXIL = A ++ lit ", i32 " ++ field ++ R /\ length A = pos /\
    number_symbols field /\ ends_number R = true /\
    stoi field = StoiValue z /\ u32 z = Expected /\
    DXIL' = A ++ lit ", i32 " ++ NewValue ++ R /\
    pos' = pos + 2 + length i32 + length NewValue.
Proof.
  intros H.
  assert (Hc : comma_space_at DXIL pos = true).
  { unfold ReplaceRecord, bind, get, check in H.
    destruct (comma_space_at DXIL pos); auto. discriminate. }
  assert (Hs : starts_with i32 (skipn (pos + 2) DXIL) = true).
  { unfold ReplaceRecord, bind, get, check in H. rewrite Hc in H.
    unfold ret in H.
    destruct (starts_with i32 (skipn (pos + 2) DXIL)); auto. discriminate. }
  destruct (record_decompose _ _ Hc Hs) as (A & field & R & -> & <- & Hf & HR).
  rewrite ReplaceRecord_on_field in H by assumption.
  destruct (stoi field) as [z| |] eqn:Ez; try discriminate.
  destruct (u32 z =? Expected)%Z eqn:Eq; try discriminate.
  apply Z.eqb_eq in Eq. inversion H; subst.
  exists A, field, R, z. repeat split; auto.
Qed.

End RecordFacts.

(* ================================================================== *)
(** * Throwing is final *)
(* ================================================================== *)

Section Propagation.

Lemma bind_Throw {A B} (m : M A) (k : A -> M B) s msg s' :
  m s = Throw msg s' -> bind m k s = Throw msg s'.
Proof. unfold bind. now intros ->. Qed.

Lemma bind_Ret {A B} (m : M A) (k : A -> M B) s a s' :
  m s = Ret a s' -> bind m k s = k a s'.
Proof. unfold bind. now intros ->. Qed.

Lemma bind_Ret_inv {A B} (m : M A) (k : A -> M B) s b s'' :
  bind m k s = Ret b s'' ->
  exists a s', m s = Ret a s' /\ k a s' = Ret b s''.
Proof.
  unfold bind. destruct (m s) as [a s'| | |]; try discriminate. eauto.
Qed.

Lemma PatchResourceDeclarationRT_loop_Throw ResPair rest ExtResMap DXIL msg DXIL' :
  PatchResourceDeclarationRT_step ExtResMap ResPair DXIL = Throw msg DXIL' ->
  PatchResourceDeclarationRT (ResPair :: rest) ExtResMap DXIL = Throw msg DXIL'.
Proof.
  intros H. unfold PatchResourceDeclarationRT. simpl.
  now apply bind_Throw.
Qed.

Lemma PatchDXIL_Throw fuel ResourceMap ExtResMap ShaderType DXIL msg DXIL' :
  PatchDXIL_body fuel ResourceMap ExtResMap ShaderType DXIL = Throw msg DXIL' ->
  PatchDXIL fuel ResourceMap ExtResMap ShaderType DXIL = Ret false DXIL'.
Proof. unfold PatchDXIL. now intros ->. Qed.

Lemma PatchDXIL_never_throws fuel ResourceMap ExtResMap ShaderType DXIL msg DXIL' :
  PatchDXIL fuel ResourceMap ExtResMap ShaderType DXIL <> Throw msg DXIL'.
Proof.
  unfold PatchDXIL.
  destruct (PatchDXIL_body fuel ResourceMap ExtResMap ShaderType DXIL);
    discriminate.
Qed.

End Propagation.

(* ================================================================== *)
(** * The numeric fields of a record *)
(* ================================================================== *)

(** C10. The record reader and the equality gate read a field with a
    signed conversion and cast the result to [Uint32]: the value that is
    returned, and compared with the expected previous value, is the
    integer read modulo 2^32. In particular a field [-1] reads as
    4294967295 (0xFFFFFFFF), passes the gate when that sentinel is
    expected, and is rewritten. *)
Theorem C10_fields_are_compared_modulo_2_32 :
  (forall A field R z NewValue Name RecordName Expected,
      number_symbols field -> ends_number R = true ->
      stoi field = StoiValue z ->
      let DXIL := A ++ lit ", i32 " ++ field ++ R in
      (exists e, ReadRecord (length A) DXIL
                 = Ret (RecordRead e (z mod 2 ^ 32)%Z) DXIL) /\
      ReplaceRecord (length A) NewValue Name RecordName Expected DXIL =
        if (z mod 2 ^ 32 =? Expected)%Z
        then Ret (length A + 6 + length NewValue)
                 (A ++ lit ", i32 " ++ NewValue ++ R)
        else Throw (resource_error Name mismatch_message) DXIL) /\
  (forall A R NewValue Name RecordName,
      ends_number R = true ->
      let DXIL := A ++ lit ", i32 -1" ++ R in
      (exists e, ReadRecord (length A) DXIL
                 = Ret (RecordRead e 4294967295) DXIL) /\
      ReplaceRecord (length A) NewValue Name RecordName 4294967295 DXIL =
        Ret (length A + 6 + length NewValue)
            (A ++ lit ", i32 " ++ NewValue ++ R)).
Proof.
  assert (G : forall A field R z NewValue Name RecordName Expected,
      number_symbols field -> ends_number R = true ->
      stoi field = StoiValue z ->
      let DXIL := A ++ lit ", i32 " ++ field ++ R in
      (exists e, ReadRecord (length A) DXIL
                 = Ret (RecordRead e (z mod 2 ^ 32)%Z) DXIL) /\
      ReplaceRecord (length A) NewValue Name RecordName Expected DXIL =
        if (z mod 2 ^ 32 =? Expected)%Z
        then Ret (length A + 6 + length NewValue)
                 (A ++ lit ", i32 " ++ NewValue ++ R)
        else Throw (resource_error Name mismatch_message) DXIL).
  { intros A field R z NewValue Name RecordName Expected Hf HR Hz DXIL.
    split.
    - unfold DXIL. rewrite ReadRecord_on_field, Hz by assumption.
      unfold u32, two32. change (2 ^ 32)%Z with 4294967296%Z. eauto.
    - unfold DXIL. rewrite ReplaceRecord_on_field, Hz by assumption.
      unfold u32, two32. change (2 ^ 32)%Z with 4294967296%Z.
      replace (length A + 2 + length i32) with (length A + 6)
        by (simpl; lia).
      reflexivity. }
  split; [exact G|].
  intros A R NewValue Name RecordName HR.
  apply (G A (lit "-1") R (-1)%Z NewValue Name RecordName 4294967295%Z);
    auto.
  repeat constructor.
Qed.

Lemma C10_fields_are_compared_modulo_2_32_witness :
  ReplaceRecord 0 (lit "7") (lit "g_Tex") (lit "space") 4294967295
    (lit ", i32 -1, i32 5")
  = Ret 7 (lit ", i32 7, i32 5").
Proof.
  exact (proj2 (proj2 C10_fields_are_compared_modulo_2_32
                  [] (lit ", i32 5") (lit "7") (lit "g_Tex") (lit "space")
                  eq_refl)).
Defined.

(* ================================================================== *)
(** * The declaration patchers at a record *)
(* ================================================================== *)

Section DeclarationFacts.

Lemma find_declared_Some ExtResMap BindPoint' Space' ResType k e :
  find_declared ExtResMap BindPoint' Space' ResType = Some (k, e) ->
  In (k, e) ExtResMap /\ SrcBindPoint e = BindPoint' /\
  SrcSpace e = Space' /\ RES_TYPE_eqb (Type_ e) ResType = true.
Proof.
  induction ExtResMap as [|[k' e'] m IH]; simpl; [discriminate|].
  destruct ((SrcBindPoint e' =? BindPoint')%Z && (SrcSpace e' =? Space')%Z
            && RES_TYPE_eqb (Type_ e') ResType) eqn:E.
  - intros H; inversion H; subst.
    apply andb_true_iff in E as [E E3]. apply andb_true_iff in E as [E1 E2].
    apply Z.eqb_eq in E1, E2. auto.
  - intros H. destruct (IH H) as (? & ? & ? & ?). auto.
Qed.

Lemma ends_number_comma R : ends_number (lit ", i32 " ++ R) = true.
Proof. reflexivity. Qed.

Lemma length_record_prefix A field :
  length (A ++ lit ", i32 " ++ field) = length A + 2 + length i32 + length field.
Proof. rewrite !length_app. simpl. lia. Qed.

(** [patch_declaration] on a buffer with a space field and a register
    field at [length A]: the resource is looked up by the values just
    read, so both gates pass; the fields are rewritten and the name is
    added when the record has none. The position that is returned was
    computed before the name is added. *)
Lemma patch_declaration_on_fields ExtResMap BeginOfResName ResName RecordId
    ResType A f1 f2 R v1 v2 :
  number_symbols f1 -> number_symbols f2 -> ends_number R = true ->
  stoi f1 = StoiValue v1 -> stoi f2 = StoiValue v2 ->
  BeginOfResName <= length A ->
  let DXIL := A ++ lit ", i32 " ++ f1 ++ lit ", i32 " ++ f2 ++ R in
  patch_declaration ExtResMap BeginOfResName (length A) ResName RecordId
    ResType DXIL =
  match find_declared ExtResMap (u32 v2) (u32 v1) ResType with
  | None =>
      Throw (declaration_error (lit "failed to find resource in ResourceMap"))
        DXIL
  | Some (k, e) =>
      let S := to_string (Space (snd k)) in
      let Bp := to_string (BindPoint (snd k)) in
      let DXIL1 := A ++ lit ", i32 " ++ S ++ lit ", i32 " ++ Bp ++ R in
      Ret (set_declared_RecordId ExtResMap (u32 v2) (u32 v1) ResType RecordId,
           Continue (length A + 2 + length i32 + length S
                     + 2 + length i32 + length Bp))
          (match ResName with
           | [] => firstn BeginOfResName DXIL1 ++ fst k
                   ++ skipn BeginOfResName DXIL1
           | _ :: _ => DXIL1
           end)
  end.
Proof.
  intros Hf1 Hf2 HR Hv1 Hv2 Hb DXIL.
  unfold patch_declaration.
  erewrite bind_Ret.
  2:{ unfold DXIL.
      rewrite (ReadRecord_on_field A f1 (lit ", i32 " ++ f2 ++ R)), Hv1;
        auto. }
  match goal with
  | |- context [match lit ", i32 " ++ ?t with
                | [] => None
                | _ :: _ => Some ?x
                end] =>
      change (match lit ", i32 " ++ t with
              | [] => None
              | _ :: _ => Some x
              end) with (Some x)
  end.
  cbv iota beta.
  erewrite bind_Ret.
  2:{ unfold DXIL.
      rewrite <- length_record_prefix.
      replace (A ++ lit ", i32 " ++ f1 ++ lit ", i32 " ++ f2 ++ R)
        with ((A ++ lit ", i32 " ++ f1) ++ lit ", i32 " ++ f2 ++ R)
        by (now rewrite <- !app_assoc).
      rewrite (ReadRecord_on_field _ f2 R), Hv2; auto. }
  cbv beta iota.
  replace ((A ++ lit ", i32 " ++ f1) ++ lit ", i32 " ++ f2 ++ R)
    with DXIL by (unfold DXIL; now rewrite <- !app_assoc).
  destruct (find_declared ExtResMap (u32 v2) (u32 v1) ResType)
    as [[k e]|] eqn:F; [|reflexivity].
  apply find_declared_Some in F as (_ & Hbp & Hsp & _).
  erewrite bind_Ret.
  2:{ unfold DXIL.
      rewrite (ReplaceRecord_on_field A f1 (lit ", i32 " ++ f2 ++ R)), Hv1;
        auto.
      rewrite Hsp, Z.eqb_refl. reflexivity. }
  erewrite bind_Ret.
  2:{ rewrite <- length_record_prefix.
      replace (A ++ lit ", i32 " ++ to_string (Space (snd k))
                 ++ lit ", i32 " ++ f2 ++ R)
        with ((A ++ lit ", i32 " ++ to_string (Space (snd k)))
                ++ lit ", i32 " ++ f2 ++ R)
        by (now rewrite <- !app_assoc).
      rewrite (ReplaceRecord_on_field _ f2 R), Hv2; auto.
      rewrite Hbp, Z.eqb_refl. reflexivity. }
  rewrite length_record_prefix.
  replace ((A ++ lit ", i32 " ++ to_string (Space (snd k)))
             ++ lit ", i32 " ++ to_string (BindPoint (snd k)) ++ R)
    with (A ++ lit ", i32 " ++ to_string (Space (snd k))
            ++ lit ", i32 " ++ to_string (BindPoint (snd k)) ++ R)
    by (now rewrite <- !app_assoc).
  destruct ResName as [|c ResName]; [|reflexivity].
  unfold bind, get, insert, replace, or_out_of_range, ret, put.
  set (DXIL1 := A ++ _).
  assert (Hle : (BeginOfResName <=? length DXIL1) = true).
  { apply Nat.leb_le. unfold DXIL1. rewrite length_app. lia. }
  rewrite Hle, Nat.add_0_r. reflexivity.
Qed.

(** [PatchResourceDeclarationRT_step] once the name and the record id
    are found: what is left are the two replacements. *)
Lemma PatchResourceDeclarationRT_step_replacements ExtResMap ResPair DXIL
    EndOfResTypeRecord p q rid :
  let Name := fst ResPair in
  let DxilName := lit "!" ++ [dquote] ++ Name ++ [dquote] in
  find DxilName DXIL 0 = Some EndOfResTypeRecord ->
  rfind ResourceRecStart DXIL EndOfResTypeRecord = Some p ->
  starts_with i32 (skipn (p + 4) DXIL) = true ->
  find_first_not_of NumberSymbols DXIL (p + 8) = Some q ->
  atoi (skipn (p + 8) DXIL) = Some rid ->
  PatchResourceDeclarationRT_step ExtResMap ResPair DXIL =
  bind (ReplaceRecord (EndOfResTypeRecord + length DxilName)
          (to_string (Space (snd ResPair))) Name (lit "space")
          (SrcSpace (fst (ext_entry ExtResMap ResPair))))
       (fun pos =>
          bind (ReplaceRecord pos (to_string (BindPoint (snd ResPair))) Name
                  (lit "binding")
                  (SrcBindPoint (fst (ext_entry ExtResMap ResPair))))
               (fun _ =>
                  ret (ext_set_RecordId (snd (ext_entry ExtResMap ResPair))
                         ResPair (u32 rid))))
       DXIL.
Proof.
  intros Name DxilName Hfind Hrfind Hi32 Hend Hid.
  unfold PatchResourceDeclarationRT_step. cbv zeta.
  unfold bind, get.
  destruct (ext_entry ExtResMap ResPair) as [Ext ExtResMap'].
  cbn [fst snd]. subst Name DxilName. rewrite Hfind, Hrfind.
  change (length ResourceRecStart) with 4. change (length i32) with 4.
  rewrite <- Nat.add_assoc. change (4 + 4) with 8.
  unfold check, ret, atoi_u32. rewrite Hi32, Hend, Hid.
  reflexivity.
Qed.

End DeclarationFacts.

(* ================================================================== *)
(** * The remap pipeline *)
(* ================================================================== *)

Section RemapFacts.

Lemma PatchDXIL_true fuel ResourceMap ExtResMap ShaderType DXIL DXIL' :
  PatchDXIL fuel ResourceMap ExtResMap ShaderType DXIL = Ret true DXIL' <->
  PatchDXIL_body fuel ResourceMap ExtResMap ShaderType DXIL = Ret tt DXIL'.
Proof.
  unfold PatchDXIL.
  destruct (PatchDXIL_body fuel ResourceMap ExtResMap ShaderType DXIL)
    as [[] s| | |]; split; intros H; inversion H; auto.
Qed.

Lemma ValidateAndSign_spec backend compiled r out :
  ValidateAndSign backend compiled = (r, out) ->
  (r = false /\ out = None) \/
  (r = true /\ exists validated inplace,
      Validate backend compiled = Validated validated inplace /\
      out = Some (match validated with
                  | Some v => v
                  | None => inplace
                  end)).
Proof.
  unfold ValidateAndSign.
  destruct (Validate backend compiled) as [| | | |[v|] inplace];
    intros H; inversion H; subst; auto; right; eauto.
Qed.

(** A remap that fails to patch stores nothing. *)
Lemma Remap_patch_failed backend fuel ResourceMap pSrcBytecode
    disasm refl ExtResourceMap DXIL' :
  Disassemble backend pSrcBytecode = Some disasm ->
  GetD3D12ShaderReflection backend pSrcBytecode = Some refl ->
  build_ExtResourceMap refl ResourceMap [] = Some ExtResourceMap ->
  PatchDXIL fuel ResourceMap ExtResourceMap (shader_type_of (ShType refl))
    disasm = Ret false DXIL' ->
  RemapResourceBindings backend fuel ResourceMap pSrcBytecode
  = Remapped false None.
Proof.
  intros Hd Hr Hb Hp. unfold RemapResourceBindings.
  rewrite Hd, Hr, Hb, Hp.
  destruct (loaded backend), (library_created backend),
    (assembler_created backend), (compiler_created backend); reflexivity.
Qed.

(** What a remap that returned has done. *)
Lemma Remap_returns backend fuel ResourceMap pSrcBytecode r out :
  RemapResourceBindings backend fuel ResourceMap pSrcBytecode
  = Remapped r out ->
  (r = false /\ out = None) \/
  (r = true /\
   exists disasm refl ExtResourceMap dxilAsm compiled validated inplace,
     Disassemble backend pSrcBytecode = Some disasm /\
     GetD3D12ShaderReflection backend pSrcBytecode = Some refl /\
     build_ExtResourceMap refl ResourceMap [] = Some ExtResourceMap /\
     PatchDXIL_body fuel ResourceMap ExtResourceMap
       (shader_type_of (ShType refl)) disasm = Ret tt dxilAsm /\
     AssembleToContainer backend dxilAsm = Assembled compiled /\
     Validate backend compiled = Validated validated inplace /\
     out = Some (match validated with
                 | Some v => v
                 | None => inplace
                 end)).
Proof.
  unfold RemapResourceBindings.
  destruct (loaded backend); cbn [negb]; [|intros H; inversion H; auto].
  destruct (library_created backend); cbn [negb];
    [|intros H; inversion H; auto].
  destruct (assembler_created backend); cbn [negb];
    [|intros H; inversion H; auto].
  destruct (compiler_created backend); cbn [negb];
    [|intros H; inversion H; auto].
  destruct (Disassemble backend pSrcBytecode) as [disasm|] eqn:Hd;
    [|intros H; inversion H; auto].
  destruct (GetD3D12ShaderReflection backend pSrcBytecode) as [refl|] eqn:Hr;
    [|intros H; inversion H; auto].
  destruct (build_ExtResourceMap refl ResourceMap []) as [ext|] eqn:Hb;
    [|intros H; inversion H; auto].
  destruct (PatchDXIL fuel ResourceMap ext (shader_type_of (ShType refl))
              disasm) as [[|] dxilAsm|msg t| |] eqn:Hp;
    try (intros H; inversion H; auto; fail).
  apply PatchDXIL_true in Hp.
  destruct (CreateBlobWithEncodingFromPinned backend dxilAsm); cbn [negb];
    [|intros H; inversion H; auto].
  destruct (AssembleToContainer backend dxilAsm) as [| | |compiled] eqn:Ha;
    try (intros H; inversion H; auto; fail).
  destruct (ValidateAndSign backend compiled) as [r' out'] eqn:Hv.
  intros H; inversion H; subst r' out'.
  apply ValidateAndSign_spec in Hv
    as [[-> ->]|(-> & validated & inplace & Hv & ->)]; auto.
  right. split; auto.
  exists disasm, refl, ext, dxilAsm, compiled, validated, inplace.
  repeat split; auto.
Qed.

(** The stages of a remap after the text and the reflection of the
    bytecode were obtained. *)
Lemma Remap_with_reflection backend fuel ResourceMap pSrcBytecode
    disasm refl :
  Disassemble backend pSrcBytecode = Some disasm ->
  GetD3D12ShaderReflection backend pSrcBytecode = Some refl ->
  RemapResourceBindings backend fuel ResourceMap pSrcBytecode
  = if loaded backend && library_created backend
       && assembler_created backend && compiler_created backend
    then
      match build_ExtResourceMap refl ResourceMap [] with
      | None => Remapped false None
      | Some ExtResourceMap =>
          match PatchDXIL fuel ResourceMap ExtResourceMap
                  (shader_type_of (ShType refl)) disasm with
          | Undefined => RemapUndefined
          | OutOfFuel => RemapOutOfFuel
          | Throw _ _ => Remapped false None
          | Ret false _ => Remapped false None
          | Ret true dxilAsm =>
              if negb (CreateBlobWithEncodingFromPinned backend dxilAsm)
              then Remapped false None
              else
                match AssembleToContainer backend dxilAsm with
                | Assembled compiled =>
                    let '(r, out) := ValidateAndSign backend compiled in
                    Remapped r out
                | _ => Remapped false None
                end
          end
      end
    else Remapped false None.
Proof.
  intros Hd Hr. unfold RemapResourceBindings. rewrite Hd, Hr.
  destruct (loaded backend), (library_created backend),
    (assembler_created backend), (compiler_created backend); reflexivity.
Qed.

End RemapFacts.




(* ================================================================== *)
(** * The equality gate of the declaration patchers *)
(* ================================================================== *)

(** The equality gate of the declaration patchers.
    Each of the two replacements of a declaration rewrite
    (space, then binding) goes through [ReplaceRecord], which reads the
    field, casts it to [Uint32] and compares it with the value captured
    before; when they differ nothing is written and an exception is raised
    whose message is the fixed text with the resource name, whatever the
    field. In the ray-tracing patcher a difference on the space field
    stops the pass with the buffer untouched, a difference on the binding
    field stops it with the space field already rewritten, and in both
    cases [PatchDXIL] returns [false], on which the remap fails without a
    result. In the generic patcher the resource is chosen by the values
    just read, so both fields pass the gate and are rewritten. *)
Theorem ReplaceRecord_equality_gate :
  (forall A field R z NewValue Name RecordName Expected,
      number_symbols field -> ends_number R = true ->
      stoi field = StoiValue z -> (z mod 2 ^ 32)%Z <> Expected ->
      let DXIL := A ++ lit ", i32 " ++ field ++ R in
      ReplaceRecord (length A) NewValue Name RecordName Expected DXIL
      = Throw (lit "Unable to patch DXIL for resource '" ++ Name
               ++ lit "': previous value does not match the expected")
              DXIL) /\
  (forall fuel ExtResMap ResPair rest ShaderType H f1 f2 R v1 v2 p q rid,
      let Name := fst ResPair in
      let DxilName := lit "!" ++ [dquote] ++ Name ++ [dquote] in
      let Ext := fst (ext_entry ExtResMap ResPair) in
      let DXIL :=
        H ++ DxilName ++ lit ", i32 " ++ f1 ++ lit ", i32 " ++ f2 ++ R in
      let DXIL1 :=
        H ++ DxilName ++ lit ", i32 " ++ to_string (Space (snd ResPair))
          ++ lit ", i32 " ++ f2 ++ R in
      let msg := lit "Unable to patch DXIL for resource '" ++ Name
                 ++ lit "': previous value does not match the expected" in
      is_ray_tracing ShaderType = true ->
      find DxilName DXIL 0 = Some (length H) ->
      rfind ResourceRecStart DXIL (length H) = Some p ->
      starts_with i32 (skipn (p + 4) DXIL) = true ->
      find_first_not_of NumberSymbols DXIL (p + 8) = Some q ->
      atoi (skipn (p + 8) DXIL) = Some rid ->
      number_symbols f1 -> number_symbols f2 -> ends_number R = true ->
      stoi f1 = StoiValue v1 -> stoi f2 = StoiValue v2 ->
      ((v1 mod 2 ^ 32)%Z <> SrcSpace Ext ->
       PatchResourceDeclarationRT (ResPair :: rest) ExtResMap DXIL
       = Throw msg DXIL /\
       PatchDXIL fuel (ResPair :: rest) ExtResMap ShaderType DXIL
       = Ret false DXIL) /\
      ((v1 mod 2 ^ 32)%Z = SrcSpace Ext ->
       (v2 mod 2 ^ 32)%Z <> SrcBindPoint Ext ->
       PatchResourceDeclarationRT (ResPair :: rest) ExtResMap DXIL
       = Throw msg DXIL1 /\
       PatchDXIL fuel (ResPair :: rest) ExtResMap ShaderType DXIL
       = Ret false DXIL1)) /\
  (forall ExtResMap BeginOfResName c ResName RecordId ResType A f1 f2 R
          v1 v2 k e,
      number_symbols f1 -> number_symbols f2 -> ends_number R = true ->
      stoi f1 = StoiValue v1 -> stoi f2 = StoiValue v2 ->
      BeginOfResName <= length A ->
      find_declared ExtResMap (v2 mod 2 ^ 32)%Z (v1 mod 2 ^ 32)%Z ResType
      = Some (k, e) ->
      SrcSpace e = (v1 mod 2 ^ 32)%Z /\ SrcBindPoint e = (v2 mod 2 ^ 32)%Z /\
      exists ExtResMap' pos,
        patch_declaration ExtResMap BeginOfResName (length A) (c :: ResName)
          RecordId ResType
          (A ++ lit ", i32 " ++ f1 ++ lit ", i32 " ++ f2 ++ R)
        = Ret (ExtResMap', Continue pos)
              (A ++ lit ", i32 " ++ to_string (Space (snd k))
                 ++ lit ", i32 " ++ to_string (BindPoint (snd k)) ++ R)) /\
  (forall backend fuel ResourceMap pSrcBytecode disasm refl ExtResourceMap
          DXIL',
      Disassemble backend pSrcBytecode = Some disasm ->
      GetD3D12ShaderReflection backend pSrcBytecode = Some refl ->
      build_ExtResourceMap refl ResourceMap [] = Some ExtResourceMap ->
      PatchDXIL fuel ResourceMap ExtResourceMap (shader_type_of (ShType refl))
        disasm = Ret false DXIL' ->
      RemapResourceBindings backend fuel ResourceMap pSrcBytecode
      = Remapped false None).
Proof.
  assert (U : forall z, (z mod 2 ^ 32)%Z = u32 z) by reflexivity.
  split; [|split; [|split]].
  - intros A field R z NewValue Name RecordName Expected Hf HR Hz Hne DXIL.
    unfold DXIL. rewrite ReplaceRecord_on_field, Hz by assumption.
    rewrite U in Hne. apply Z.eqb_neq in Hne. rewrite Hne. reflexivity.
  - intros fuel ExtResMap ResPair rest ShaderType H f1 f2 R v1 v2 p q rid
      Name DxilName Ext DXIL DXIL1 msg Hrt Hfind Hrfind Hi32 Hend Hid
      Hf1 Hf2 HR Hv1 Hv2.
    pose proof (PatchResourceDeclarationRT_step_replacements ExtResMap
                  ResPair DXIL (length H) p q rid Hfind Hrfind Hi32 Hend Hid)
      as Hstep.
    fold Name in Hstep. fold DxilName in Hstep. fold Ext in Hstep.
    assert (HD : DXIL = (H ++ DxilName) ++ lit ", i32 " ++ f1
                          ++ lit ", i32 " ++ f2 ++ R)
      by (unfold DXIL; now rewrite <- app_assoc).
    assert (HL : length H + length DxilName = length (H ++ DxilName))
      by now rewrite length_app.
    rewrite HL in Hstep.
    assert (Hfatal : forall t,
               PatchResourceDeclarationRT_step ExtResMap ResPair DXIL
               = Throw msg t ->
               PatchResourceDeclarationRT (ResPair :: rest) ExtResMap DXIL
               = Throw msg t /\
               PatchDXIL fuel (ResPair :: rest) ExtResMap ShaderType DXIL
               = Ret false t).
    { intros t Ht.
      pose proof (PatchResourceDeclarationRT_loop_Throw ResPair rest
                    ExtResMap DXIL msg t Ht) as Hl.
      split; [exact Hl|]. apply PatchDXIL_Throw with (msg := msg).
      unfold PatchDXIL_body. rewrite Hrt. now apply bind_Throw. }
    split.
    + intros Hne. apply Hfatal. rewrite Hstep. apply bind_Throw.
      rewrite HD at 1.
      rewrite (ReplaceRecord_on_field (H ++ DxilName) f1
                 (lit ", i32 " ++ f2 ++ R)), Hv1; auto.
      rewrite U in Hne. apply Z.eqb_neq in Hne. rewrite Hne.
      rewrite <- HD. reflexivity.
    + intros Heq Hne. apply Hfatal. rewrite Hstep.
      erewrite bind_Ret.
      2:{ rewrite HD at 1.
          rewrite (ReplaceRecord_on_field (H ++ DxilName) f1
                     (lit ", i32 " ++ f2 ++ R)), Hv1; auto.
          rewrite U in Heq. rewrite Heq, Z.eqb_refl. reflexivity. }
      apply bind_Throw.
      rewrite <- length_record_prefix.
      replace ((H ++ DxilName) ++ lit ", i32 "
               ++ to_string (Space (snd ResPair)) ++ lit ", i32 " ++ f2 ++ R)
        with (((H ++ DxilName) ++ lit ", i32 "
               ++ to_string (Space (snd ResPair))) ++ lit ", i32 " ++ f2 ++ R)
        by (now rewrite <- !app_assoc).
      rewrite (ReplaceRecord_on_field _ f2 R), Hv2; auto.
      rewrite U in Hne. apply Z.eqb_neq in Hne. rewrite Hne.
      unfold DXIL1. now rewrite <- !app_assoc.
  - intros ExtResMap BeginOfResName c ResName RecordId ResType A f1 f2 R
      v1 v2 k e Hf1 Hf2 HR Hv1 Hv2 Hb Hfd.
    rewrite !U in *.
    pose proof (find_declared_Some _ _ _ _ _ _ Hfd) as (_ & Hbp & Hsp & _).
    repeat split; auto.
    pose proof (patch_declaration_on_fields ExtResMap BeginOfResName
                  (c :: ResName) RecordId ResType A f1 f2 R v1 v2
                  Hf1 Hf2 HR Hv1 Hv2 Hb) as Hp.
    cbv zeta in Hp. rewrite Hfd in Hp. eauto.
  - intros. eapply Remap_patch_failed; eauto.
Qed.

Lemma ReplaceRecord_equality_gate_example :
  PatchDXIL 0 [Examples.g_Tex] [(Examples.g_Tex, Examples.g_Tex_ext)]
    SHADER_TYPE_RAY_GEN Examples.stale_record
  = Ret false Examples.stale_record.
Proof.
  pose proof (proj1 (proj2 ReplaceRecord_equality_gate) 0
                [(Examples.g_Tex, Examples.g_Tex_ext)] Examples.g_Tex []
                SHADER_TYPE_RAY_GEN
                (ir "!5 = !{i32 0, %'class.Texture2D<float>'* undef, ")
                (lit "5") (lit "0") (lit ", i32 1}") 5%Z 0%Z 3 12 0%Z) as W.
  cbv zeta in W.
  refine (proj2 (proj1 (W eq_refl eq_refl eq_refl eq_refl eq_refl eq_refl
                          _ _ eq_refl eq_refl eq_refl) _)).
  - repeat constructor.
  - repeat constructor.
  - vm_compute. discriminate.
Defined.

(** C4. On a mismatch the gate throws before anything is written and
    the remap fails without a result, but the message leaves the field
    out. For the record of [g_Tex] whose space field reads 5 where
    reflection reported 2, the ray-tracing patcher throws with the
    buffer as it was; the message names the resource and not the field.
    The check of the same function for a record that is not there names
    both. *)
Theorem C4_mismatch_message_omits_the_field :
  PatchResourceDeclarationRT [Examples.g_Tex]
    [(Examples.g_Tex, Examples.g_Tex_ext)] Examples.stale_record
  = Throw (lit "Unable to patch DXIL for resource 'g_Tex': previous value does not match the expected")
      Examples.stale_record /\
  names (lit "Unable to patch DXIL for resource 'g_Tex': previous value does not match the expected")
    (lit "g_Tex") = true /\
  names (lit "Unable to patch DXIL for resource 'g_Tex': previous value does not match the expected")
    (lit "space") = false /\
  ReplaceRecord 0 (lit "0") (lit "g_Tex") (lit "space") 2 (lit "}")
  = Throw (lit "Unable to patch DXIL for resource 'g_Tex': space record is not found")
      (lit "}") /\
  names (lit "Unable to patch DXIL for resource 'g_Tex': space record is not found")
    (lit "space") = true /\
  RemapResourceBindings
    (Examples.backend_of Examples.stale_record (Examples.reflection_of 7))
    1 [Examples.g_Tex] []
  = Remapped false None.
Proof. vm_compute. repeat split. Qed.

(* ================================================================== *)
(** * The order of the passes *)
(* ================================================================== *)

(** C2, as the code has it.
    For a shader that is not a ray-tracing shader the
    generic declaration patcher runs first and the createHandle patcher
    runs on its output, with the extended map it left. For a ray-tracing
    shader the ray-tracing declaration patcher runs alone: its output is
    the output of [PatchDXIL] and the createHandle patcher is not run. In
    both cases the extended map is built before. *)
Theorem C2_pass_order :
  (forall fuel ResourceMap ExtResMap ShaderType DXIL DXIL'',
      is_ray_tracing ShaderType = false ->
      (PatchDXIL fuel ResourceMap ExtResMap ShaderType DXIL = Ret true DXIL''
       <-> exists ExtResMap' DXIL',
             PatchResourceDeclaration fuel ExtResMap DXIL
             = Ret ExtResMap' DXIL' /\
             PatchResourceHandle fuel ExtResMap' DXIL' = Ret tt DXIL'')) /\
  (forall fuel ResourceMap ExtResMap ShaderType DXIL DXIL',
      is_ray_tracing ShaderType = true ->
      (PatchDXIL fuel ResourceMap ExtResMap ShaderType DXIL = Ret true DXIL'
       <-> exists ExtResMap',
             PatchResourceDeclarationRT ResourceMap ExtResMap DXIL
             = Ret ExtResMap' DXIL')) /\
  (forall backend fuel ResourceMap pSrcBytecode out,
      RemapResourceBindings backend fuel ResourceMap pSrcBytecode
      = Remapped true out ->
      exists disasm refl ExtResourceMap dxilAsm,
        Disassemble backend pSrcBytecode = Some disasm /\
        GetD3D12ShaderReflection backend pSrcBytecode = Some refl /\
        build_ExtResourceMap refl ResourceMap [] = Some ExtResourceMap /\
        PatchDXIL fuel ResourceMap ExtResourceMap
          (shader_type_of (ShType refl)) disasm = Ret true dxilAsm).
Proof.
  split; [|split].
  - intros fuel ResourceMap ExtResMap ShaderType DXIL DXIL'' Hrt.
    rewrite PatchDXIL_true. unfold PatchDXIL_body. rewrite Hrt. split.
    + intros H. apply bind_Ret_inv in H as (ext' & DXIL' & H1 & H2). eauto.
    + intros (ext' & DXIL' & H1 & H2). erewrite bind_Ret; eauto.
  - intros fuel ResourceMap ExtResMap ShaderType DXIL DXIL' Hrt.
    rewrite PatchDXIL_true. unfold PatchDXIL_body. rewrite Hrt. split.
    + intros H. apply bind_Ret_inv in H as (ext' & DXIL1 & H1 & H2).
      inversion H2; subst. eauto.
    + intros (ext' & H1). erewrite bind_Ret; eauto.
  - intros backend fuel ResourceMap pSrcBytecode out H.
    apply Remap_returns in H
      as [[Hf _]|(_ & disasm & refl & ext & dxilAsm & compiled & validated
                  & inplace & Hd & Hr & Hb & Hp & _)]; [discriminate|].
    exists disasm, refl, ext, dxilAsm. repeat split; auto.
    now apply PatchDXIL_true.
Qed.

Lemma C2_pass_order_witness :
  exists ExtResMap',
    PatchResourceDeclarationRT [Examples.g_Tex]
      [(Examples.g_Tex, Examples.g_Tex_ext)] Examples.g_Tex_module
    = Ret ExtResMap' Examples.g_Tex_declaration_patched.
Proof.
  apply (proj1 (proj1 (proj2 C2_pass_order) 100 [Examples.g_Tex]
                  [(Examples.g_Tex, Examples.g_Tex_ext)] SHADER_TYPE_RAY_GEN
                  Examples.g_Tex_module Examples.g_Tex_declaration_patched
                  eq_refl)).
  vm_compute. reflexivity.
Defined.

(** C2 in the wording of the specification fails:
    for a ray-tracing shader the createHandle call
    keeps its index 0 while the declaration moves to register 3; for a
    pixel shader the same module has the call rewritten to 3. *)
Lemma C2_counterexample :
  PatchDXIL 100 [Examples.g_Tex] [(Examples.g_Tex, Examples.g_Tex_ext)]
    SHADER_TYPE_RAY_GEN Examples.g_Tex_module
  = Ret true Examples.g_Tex_declaration_patched /\
  PatchDXIL 100 [Examples.g_Tex] [(Examples.g_Tex, Examples.g_Tex_ext)]
    SHADER_TYPE_PIXEL Examples.g_Tex_module
  = Ret true Examples.g_Tex_fully_patched /\
  Str_eqb Examples.g_Tex_declaration_patched Examples.g_Tex_fully_patched
  = false.
Proof. vm_compute. auto. Qed.

(* ================================================================== *)
(** * The extended resource map *)
(* ================================================================== *)

Section BuilderFacts.

Lemma build_ExtResourceMap_None refl ResourceMap ExtResourceMap :
  build_ExtResourceMap refl ResourceMap ExtResourceMap = None <->
  exists r desc,
    In r ResourceMap /\
    GetResourceBindingDescByName refl (fst r) = Some desc /\
    res_type_of_input (Desc_Type desc) = None.
Proof.
  revert ExtResourceMap.
  induction ResourceMap as [|r rest IH]; intros ext; simpl.
  - split; [discriminate|]. intros (r & desc & [] & _).
  - destruct (GetResourceBindingDescByName refl (fst r)) as [desc|] eqn:G.
    + destruct (res_type_of_input (Desc_Type desc)) as [ty|] eqn:T.
      * rewrite IH. split.
        -- intros (r' & d' & Hin & Hg & Ht). exists r', d'. auto.
        -- intros (r' & d' & [<-|Hin] & Hg & Ht).
           ++ rewrite G in Hg. inversion Hg; subst. congruence.
           ++ exists r', d'. auto.
      * split; auto. intros _. exists r, desc. auto.
    + rewrite IH. split.
      * intros (r' & d' & Hin & Hg & Ht). exists r', d'. auto.
      * intros (r' & d' & [<-|Hin] & Hg & Ht).
        -- congruence.
        -- exists r', d'. auto.
Qed.

End BuilderFacts.

(** C3, as the code has it.
    A binding request whose name has no reflection entry
    is skipped: the loop that builds the extended map goes on with the
    remaining requests as if the request were not there, and creates no
    entry for it. The loop fails only on a request that has a reflection
    entry of a type it does not know. *)
Theorem C3_request_without_reflection_is_skipped :
  (forall refl NameAndBinding rest ExtResourceMap,
      GetResourceBindingDescByName refl (fst NameAndBinding) = None ->
      build_ExtResourceMap refl (NameAndBinding :: rest) ExtResourceMap
      = build_ExtResourceMap refl rest ExtResourceMap) /\
  (forall refl ResourceMap ExtResourceMap,
      build_ExtResourceMap refl ResourceMap ExtResourceMap = None <->
      exists r desc,
        In r ResourceMap /\
        GetResourceBindingDescByName refl (fst r) = Some desc /\
        res_type_of_input (Desc_Type desc) = None).
Proof.
  split.
  - intros refl NameAndBinding rest ext H. simpl. now rewrite H.
  - apply build_ExtResourceMap_None.
Qed.

Lemma C3_request_without_reflection_is_skipped_witness :
  build_ExtResourceMap (Examples.reflection_of 0)
    [Examples.g_Missing; Examples.g_Tex] []
  = build_ExtResourceMap (Examples.reflection_of 0) [Examples.g_Tex] [].
Proof.
  exact (proj1 C3_request_without_reflection_is_skipped
           (Examples.reflection_of 0) Examples.g_Missing [Examples.g_Tex] []
           eq_refl).
Defined.

(** C3 in the wording of the specification fails:
    with a request for [g_Missing], which
    reflection does not know, the map is built with the entry of [g_Tex]
    alone and the remap succeeds with the patched module. *)
Lemma C3_counterexample :
  GetResourceBindingDescByName (Examples.reflection_of 0)
    (fst Examples.g_Missing) = None /\
  build_ExtResourceMap (Examples.reflection_of 0)
    [Examples.g_Missing; Examples.g_Tex] []
  = Some [(Examples.g_Tex, Examples.g_Tex_ext)] /\
  RemapResourceBindings
    (Examples.backend_of Examples.g_Tex_module (Examples.reflection_of 0))
    100 [Examples.g_Missing; Examples.g_Tex] []
  = Remapped true (Some (map byte_of_ascii Examples.g_Tex_fully_patched)).
Proof. vm_compute. auto. Qed.

(* ================================================================== *)
(** * The container probe *)
(* ================================================================== *)

Module ContainerFacts.
Import Container.

Lemma read_u8_Some data off :
  off < length data -> exists v, read_u8 data off = Some v /\ (0 <= v)%Z.
Proof.
  intros H. unfold read_u8.
  destruct (nth_error data off) as [b|] eqn:E.
  - exists (Z.of_N (Byte.to_N b)). split; auto. apply N2Z.is_nonneg.
  - apply nth_error_None in E. lia.
Qed.

Lemma read_u16_Some data off :
  off + 2 <= length data ->
  exists v, read_u16 data off = Some v /\ (0 <= v)%Z.
Proof.
  intros H. unfold read_u16.
  destruct (read_u8_Some data off) as (b0 & -> & H0); [lia|].
  destruct (read_u8_Some data (off + 1)) as (b1 & -> & H1); [lia|].
  eexists. split; eauto.
  apply Z.lor_nonneg. split; auto. now apply Z.shiftl_nonneg.
Qed.

Lemma read_u32_Some data off :
  off + 4 <= length data ->
  exists v, read_u32 data off = Some v /\ (0 <= v)%Z.
Proof.
  intros H. unfold read_u32.
  destruct (read_u16_Some data off) as (lo & -> & H0); [lia|].
  destruct (read_u16_Some data (off + 2)) as (hi & -> & H1); [lia|].
  eexists. split; eauto.
  apply Z.lor_nonneg. split; auto. now apply Z.shiftl_nonneg.
Qed.

(** The loop over the parts never reads outside the buffer once the
    table of offsets fits, logs nothing, and answers [true] exactly when
    it reaches a part with the DXIL tag. *)
Lemma scan_parts_spec data todo part :
  sizeof_DxilContainerHeader + 4 * (part + todo) <= length data ->
  exists b,
    scan_parts data todo part = Probed b [] /\
    (b = true <->
     exists i, part <= i < part + todo /\
               (forall j, part <= j <= i -> part_fits data j) /\
               part_is_DXIL data i).
Proof.
  revert part. induction todo as [|todo IH]; intros part Hfit.
  - exists false. split; [reflexivity|]. split; [discriminate|].
    intros (i & Hi & _). lia.
  - cbn [scan_parts].
    destruct (read_u32_Some data (sizeof_DxilContainerHeader + 4 * part))
      as (Offset & HO & HOpos); [lia|].
    rewrite HO.
    assert (Huniq : forall O', part_offset data part O' -> O' = Offset).
    { unfold part_offset. intros O' H'. congruence. }
    destruct (Z.of_nat (length data) <?
              Offset + Z.of_nat sizeof_DxilPartHeader)%Z eqn:Hlt.
    + apply Z.ltb_lt in Hlt.
      exists false. split; [reflexivity|]. split; [discriminate|].
      intros (i & Hi & Hall & _).
      destruct (Hall part) as (O' & HO' & Hle); [lia|].
      apply Huniq in HO'. subst O'. lia.
    + apply Z.ltb_ge in Hlt.
      assert (Hself : part_fits data part) by (exists Offset; split; auto).
      destruct (read_u32_Some data (Z.to_nat Offset)) as (tag & HT & _).
      { unfold sizeof_DxilPartHeader in Hlt. lia. }
      rewrite HT.
      destruct (tag =? DFCC_DXIL)%Z eqn:Htag.
      * apply Z.eqb_eq in Htag. subst tag.
        exists true. split; [reflexivity|]. split; [|reflexivity].
        intros _. exists part. split; [lia|]. split.
        -- intros j Hj. replace j with part by lia. exact Hself.
        -- exists Offset. split; auto.
      * apply Z.eqb_neq in Htag.
        destruct (IH (S part)) as (b & Hb & Hiff); [lia|].
        exists b. split; [exact Hb|]. rewrite Hiff. split.
        -- intros (i & Hi & Hall & Hd). exists i. split; [lia|].
           split; auto. intros j Hj.
           destruct (Nat.eq_dec j part) as [->|]; auto. apply Hall. lia.
        -- intros (i & Hi & Hall & Hd).
           destruct (Nat.eq_dec i part) as [->|Hne].
           ++ destruct Hd as (O' & HO' & Ht'). apply Huniq in HO'. subst O'.
              congruence.
           ++ exists i. split; [lia|]. split; auto.
              intros j Hj. apply Hall. lia.
Qed.

End ContainerFacts.

(** C5, as the code has it.
    On every buffer the probe returns a boolean without
    reading outside the buffer. It answers [true] exactly when the header
    checks pass (size of the fixed header, container tag, major version,
    size of the offset table) and the scan of the parts, in the order of
    the table, reaches a part with the DXIL tag: that part and all parts
    before it have their header within the buffer. Parts after the first
    DXIL part are not examined, and a part that does not fit ends the
    scan with [false] whatever follows it. The log is empty except for a
    wrong major version, which gives [false] and exactly one warning. *)
Theorem C5_probe :
  forall data,
  exists b log,
    Container.IsDXILBytecode data = Container.Probed b log /\
    (b = true <->
     Container.header_ok data /\
     exists i PartCount,
       Container.read_u32 data Container.offsetof_PartCount
       = Some PartCount /\
       (Z.of_nat i < PartCount)%Z /\ Container.found_at data i) /\
    (log = [] \/
     b = false /\
     exists Major,
       log = [Container.WrongMajorVersion Major] /\
       Major <> Container.DxilContainerVersionMajor) /\
    (forall Major,
        Container.sizeof_DxilContainerHeader <= length data ->
        Container.read_u32 data Container.offsetof_HeaderFourCC
        = Some Container.DFCC_Container ->
        Container.read_u16 data Container.offsetof_Version_Major
        = Some Major ->
        Major <> Container.DxilContainerVersionMajor ->
        b = false /\ log = [Container.WrongMajorVersion Major]).
Proof.
  intros data. unfold Container.IsDXILBytecode.
  destruct (length data <? Container.sizeof_DxilContainerHeader) eqn:Hsz.
  { apply Nat.ltb_lt in Hsz. exists false, []. split; [reflexivity|].
    split; [|split].
    - split; [discriminate|]. intros ((H & _) & _). lia.
    - auto.
    - intros. lia. }
  apply Nat.ltb_ge in Hsz.
  pose proof Hsz as Hsz'. unfold Container.sizeof_DxilContainerHeader in Hsz'.
  destruct (ContainerFacts.read_u32_Some data Container.offsetof_HeaderFourCC)
    as (FourCC & HF & _);
    [unfold Container.offsetof_HeaderFourCC; lia|].
  rewrite HF.
  destruct (FourCC =? Container.DFCC_Container)%Z eqn:Hmagic; cbn [negb].
  2:{ apply Z.eqb_neq in Hmagic. exists false, []. split; [reflexivity|].
      split; [|split].
      - split; [discriminate|]. intros ((_ & H & _) & _). congruence.
      - auto.
      - intros Major _ H. congruence. }
  apply Z.eqb_eq in Hmagic. subst FourCC.
  destruct (ContainerFacts.read_u16_Some data Container.offsetof_Version_Major)
    as (Major & HM & _);
    [unfold Container.offsetof_Version_Major; lia|].
  rewrite HM.
  destruct (Major =? Container.DxilContainerVersionMajor)%Z eqn:Hmajor;
    cbn [negb].
  2:{ apply Z.eqb_neq in Hmajor.
      exists false, [Container.WrongMajorVersion Major].
      split; [reflexivity|]. split; [|split].
      - split; [discriminate|]. intros ((_ & _ & H & _) & _). congruence.
      - right. split; auto. exists Major. auto.
      - intros Major' _ _ H _. split; auto. congruence. }
  apply Z.eqb_eq in Hmajor. subst Major.
  destruct (ContainerFacts.read_u32_Some data Container.offsetof_PartCount)
    as (PartCount & HP & HPpos);
    [unfold Container.offsetof_PartCount; lia|].
  rewrite HP.
  destruct (Z.of_nat (length data) <?
            Z.of_nat Container.sizeof_DxilContainerHeader + 4 * PartCount)%Z
    eqn:Htab.
  { apply Z.ltb_lt in Htab. exists false, []. split; [reflexivity|].
    split; [|split].
    - split; [discriminate|].
      intros ((_ & _ & _ & PC & HPC & Hle) & _).
      assert (PC = PartCount) by congruence. subst PC. lia.
    - auto.
    - intros Major' _ _ H Hne. congruence. }
  apply Z.ltb_ge in Htab.
  destruct (ContainerFacts.scan_parts_spec data (Z.to_nat PartCount) 0)
    as (b & Hb & Hiff).
  { unfold Container.sizeof_DxilContainerHeader in *. lia. }
  exists b, []. split; [exact Hb|]. split; [|split].
  - rewrite Hiff. split.
    + intros (i & Hi & Hall & Hd). split.
      * repeat split; auto. exists PartCount. auto.
      * exists i, PartCount. split; auto. split; [lia|].
        split; auto. intros j Hj. apply Hall. lia.
    + intros (_ & i & PC & HPC & Hi & Hall & Hd).
      assert (PC = PartCount) by congruence. subst PC.
      exists i. split; [lia|]. split; auto.
      intros j Hj. apply Hall. lia.
  - auto.
  - intros Major' _ _ H Hne. congruence.
Qed.

(** C5 in the wording of the specification fails
    in both directions when parts fit unevenly.
    With a DXIL part that fits followed by an offset whose part header
    lies outside the buffer the probe answers [true], although the buffer
    is too small for a referenced part header. With the same parts in the
    other order it answers [false], although the header checks pass and a
    part within the buffer carries the DXIL tag. *)
Lemma C5_counterexample :
  (Container.IsDXILBytecode Container.DXIL_then_truncated
   = Container.Probed true [] /\
   Container.part_offset Container.DXIL_then_truncated 1 1000 /\
   (Z.of_nat (length Container.DXIL_then_truncated) < 1000 + 8)%Z) /\
  (Container.IsDXILBytecode Container.truncated_then_DXIL
   = Container.Probed false [] /\
   Container.header_ok Container.truncated_then_DXIL /\
   Container.part_offset Container.truncated_then_DXIL 1 40 /\
   (40 + 8 <= Z.of_nat (length Container.truncated_then_DXIL))%Z /\
   Container.read_u32 Container.truncated_then_DXIL 40
   = Some Container.DFCC_DXIL).
Proof.
  split.
  - split; [reflexivity|]. split; [reflexivity|]. vm_compute. reflexivity.
  - split; [reflexivity|]. split.
    + unfold Container.header_ok. split; [vm_compute; lia|].
      split; [reflexivity|]. split; [reflexivity|].
      exists 2%Z. split; [reflexivity|]. vm_compute. discriminate.
    + split; [reflexivity|]. split; [vm_compute; discriminate|reflexivity].
Qed.

(* ================================================================== *)
(** * The createHandle patcher at an index *)
(* ================================================================== *)

Section HandleFacts.

Lemma in_bind_range_spec RangeId ResType SrcIndex k e :
  in_bind_range RangeId ResType SrcIndex (k, e) = true <->
  RecordId e = RangeId /\ Type_ e = ResType /\
  (SrcBindPoint e <= SrcIndex
   < (SrcBindPoint e + ArraySize (snd k)) mod 2 ^ 32)%Z.
Proof.
  unfold in_bind_range. cbn [fst snd].
  rewrite !andb_true_iff, Z.eqb_eq, Z.leb_le, Z.ltb_lt.
  assert (T : RES_TYPE_eqb (Type_ e) ResType = true <-> Type_ e = ResType).
  { destruct (Type_ e), ResType; simpl; split; intros; congruence. }
  rewrite T. unfold u32, two32. change (2 ^ 32)%Z with 4294967296%Z.
  tauto.
Qed.

Lemma find_bind_range_first m1 e m2 RangeId ResType SrcIndex :
  (forall e', In e' m1 -> in_bind_range RangeId ResType SrcIndex e' = false) ->
  in_bind_range RangeId ResType SrcIndex e = true ->
  find_bind_range (m1 ++ e :: m2) RangeId ResType SrcIndex = Some e.
Proof.
  intros H1 He. induction m1 as [|e' m1 IH]; simpl.
  - now rewrite He.
  - rewrite (H1 e') by (now left). apply IH.
    intros e'' Hin. apply H1. now right.
Qed.

Lemma find_bind_range_Some m e RangeId ResType SrcIndex :
  find_bind_range m RangeId ResType SrcIndex = Some e ->
  exists m1 m2,
    m = m1 ++ e :: m2 /\
    (forall e', In e' m1 ->
                in_bind_range RangeId ResType SrcIndex e' = false) /\
    in_bind_range RangeId ResType SrcIndex e = true.
Proof.
  induction m as [|e' m IH]; simpl; [discriminate|].
  destruct (in_bind_range RangeId ResType SrcIndex e') eqn:E.
  - intros H; inversion H; subst. exists [], m. repeat split; auto.
    intros ? [].
  - intros H. destruct (IH H) as (m1 & m2 & -> & H1 & H2).
    exists (e' :: m1), m2. repeat split; auto.
    intros e'' [<-|Hin]; auto.
Qed.

Lemma find_bind_range_none m RangeId ResType SrcIndex :
  (forall e, In e m -> in_bind_range RangeId ResType SrcIndex e = false) ->
  find_bind_range m RangeId ResType SrcIndex = None.
Proof.
  induction m as [|e m IH]; simpl; auto. intros H.
  rewrite (H e) by (now left). apply IH. intros e' Hin. apply H. now right.
Qed.

Lemma to_string_u32 n : to_string (u32 n) = to_string n.
Proof.
  unfold to_string, u32, two32. now rewrite Z.mod_mod.
Qed.

(** [ReplaceBindPoint] on the span [src] between [A] and [R]. *)
Lemma ReplaceBindPoint_on_index ExtResMap ResClass RangeId A src R :
  let DXIL := A ++ src ++ R in
  ReplaceBindPoint ExtResMap ResClass RangeId (length A)
    (length A + length src) DXIL =
  match stoi src with
  | StoiValue z =>
      match ResClassToType ResClass with
      | None => Undefined
      | Some ResType =>
          match find_bind_range ExtResMap RangeId ResType (u32 z) with
          | None => Throw (lit "Failed to find resource in ResourceMap") DXIL
          | Some (pBind, pExt) =>
              Ret tt (A ++ to_string (BindPoint (snd pBind)
                                      + (u32 z - SrcBindPoint pExt))
                        ++ R)
          end
      end
  | StoiInvalidArgument => Throw (lit "std::invalid_argument") DXIL
  | StoiOutOfRange => Throw (lit "std::out_of_range") DXIL
  end.
Proof.
  intros DXIL. unfold ReplaceBindPoint, bind, get.
  replace (length A + length src - length A) with (length src) by lia.
  unfold substr.
  assert (Hle : (length A <=? length DXIL) = true).
  { apply Nat.leb_le. unfold DXIL. rewrite length_app. lia. }
  rewrite Hle. unfold or_out_of_range, ret.
  unfold DXIL at 1. rewrite skipn_app_exact, firstn_app_exact.
  unfold stoi_u32. destruct (stoi src) as [z| |]; auto. unfold ret.
  destruct (ResClassToType ResClass) as [ResType|]; auto.
  destruct (find_bind_range ExtResMap RangeId ResType (u32 z))
    as [[pBind pExt]|]; auto.
  unfold put. f_equal. unfold DXIL.
  rewrite firstn_app_exact.
  replace (A ++ src ++ R) with ((A ++ src) ++ R) by now rewrite app_assoc.
  rewrite <- length_app, skipn_app_exact. do 2 f_equal.
  rewrite to_string_u32. unfold to_string. f_equal.
  unfold u32, two32. now rewrite Zplus_mod_idemp_r.
Qed.

End HandleFacts.

(* ================================================================== *)
(** * The createHandle patcher at a dynamic index *)
(* ================================================================== *)

Section DynamicIndexFacts.

Lemma NextArg_scan_comma base rest pos :
  inside_argument base ->
  NextArg_scan (base ++ ","%char :: rest) pos = (true, pos + length base).
Proof.
  intros H. revert pos.
  induction H as [|c base (H1 & H2 & H3) _ IH]; intros pos; simpl.
  - f_equal. lia.
  - rewrite H1, H2, H3. simpl. rewrite IH. f_equal. lia.
Qed.






End DynamicIndexFacts.

(* ================================================================== *)
(** * The createHandle patcher at a call *)
(* ================================================================== *)

Section CallFacts.

(** [read_arg] at the comma before an argument [arg] of type [type]. *)
Lemma read_arg_on_arg P type arg R m1 m2 m3 s :
  inside_argument arg ->
  let DXIL := P ++ lit ", " ++ type ++ arg ++ ","%char :: R in
  read_arg DXIL (length P) type m1 m2 m3 s
  = Ret (length P + 2 + length type,
         length P + 2 + length type + length arg) s.
Proof.
  intros Harg DXIL. unfold read_arg.
  assert (H1 : comma_space_at DXIL (length P) = true)
    by apply comma_space_at_app.
  rewrite H1. unfold check at 1. unfold bind at 1. unfold ret at 1.
  assert (H2 : skipn (length P + 2) DXIL = type ++ arg ++ ","%char :: R).
  { unfold DXIL. rewrite skipn_app_plus. reflexivity. }
  rewrite H2, starts_with_app.
  unfold check at 1. unfold bind at 1. unfold ret at 1.
  unfold NextArg.
  assert (H3 : skipn (length P + 2 + length type) DXIL
               = arg ++ ","%char :: R).
  { unfold DXIL.
    replace (P ++ lit ", " ++ type ++ arg ++ ","%char :: R)
      with ((P ++ lit ", " ++ type) ++ arg ++ ","%char :: R)
      by (now rewrite <- !app_assoc).
    replace (length P + 2 + length type)
      with (length (P ++ lit ", " ++ type))
      by (rewrite !length_app; simpl; lia).
    apply skipn_app_exact. }
  rewrite H3, NextArg_scan_comma by assumption.
  reflexivity.
Qed.

(** One iteration on a call: the class and the range id are read from
    the call, and the index is handed to [patch_dynamic_index] when it
    is a variable and to [ReplaceBindPoint] when it is not; the scan
    resumes at the end of the index as it was. *)
Lemma PatchResourceHandle_step_on_call ExtResMap pos A op cls rid
    src R ResClass RangeId :
  let after_cls := lit ", i32 " ++ rid ++ lit ", i32 " ++ src
                   ++ ","%char :: R in
  let P := A ++ CallHandlePattern ++ i32 ++ op ++ lit ", i8 " ++ cls
           ++ lit ", i32 " ++ rid ++ lit ", i32 " in
  let DXIL := P ++ src ++ ","%char :: R in
  find CallHandlePattern DXIL pos = Some (length A) ->
  inside_argument op -> inside_argument cls -> inside_argument rid ->
  inside_argument src ->
  src <> [] ->
  atoi (cls ++ after_cls) = Some ResClass ->
  atoi (rid ++ lit ", i32 " ++ src ++ ","%char :: R) = Some RangeId ->
  PatchResourceHandle_step ExtResMap pos DXIL
  = bind (if Ascii.eqb (hd zero src) "%"
          then patch_dynamic_index ExtResMap (u32 ResClass) (u32 RangeId)
                 src (length P + length src)
          else ReplaceBindPoint ExtResMap (u32 ResClass) (u32 RangeId)
                 (length P) (length P + length src))
         (fun _ => ret (Continue (length P + length src))) DXIL.
Proof.
  intros after_cls P DXIL Hfind Hop Hcls Hrid Hsrc Hne Hac Har.
  set (P1 := A ++ CallHandlePattern ++ i32).
  set (P2 := P1 ++ op ++ lit ", i8 ").
  set (P3 := P2 ++ cls ++ lit ", i32 ").
  assert (HP : P = P3 ++ rid ++ lit ", i32 ").
  { unfold P, P3, P2, P1. now rewrite <- !app_assoc. }
  assert (D1 : DXIL = (A ++ CallHandlePattern)
                        ++ i32 ++ op ++ lit ", i8 " ++ cls ++ after_cls).
  { unfold DXIL, P, after_cls. now rewrite <- !app_assoc. }
  assert (D2 : DXIL = P1 ++ op ++ ","%char :: lit " i8 " ++ cls ++ after_cls).
  { rewrite D1. unfold P1. now rewrite <- !app_assoc. }
  assert (D3 : DXIL = (P1 ++ op) ++ lit ", " ++ i8 ++ cls
                        ++ ","%char :: lit " i32 " ++ rid ++ lit ", i32 "
                        ++ src ++ ","%char :: R).
  { rewrite D2. unfold after_cls. now rewrite <- !app_assoc. }
  assert (D4 : DXIL = (P2 ++ cls) ++ lit ", " ++ i32 ++ rid
                        ++ ","%char :: lit " i32 " ++ src ++ ","%char :: R).
  { rewrite D3. unfold P2. now rewrite <- !app_assoc. }
  assert (D5 : DXIL = (P3 ++ rid) ++ lit ", " ++ i32 ++ src
                        ++ ","%char :: R).
  { rewrite D4. unfold P3. now rewrite <- !app_assoc. }
  assert (L1 : length A + length CallHandlePattern + length i32 = length P1)
    by (unfold P1; rewrite !length_app; lia).
  assert (L2 : length (P1 ++ op) + 2 + length i8 = length P2)
    by (unfold P2; rewrite !length_app; simpl; lia).
  assert (L3 : length (P2 ++ cls) + 2 + length i32 = length P3)
    by (unfold P3; rewrite !length_app; simpl; lia).
  assert (L4 : length (P3 ++ rid) + 2 + length i32 = length P)
    by (rewrite HP, !length_app; simpl; lia).
  unfold PatchResourceHandle_step. unfold bind at 1. unfold get.
  rewrite Hfind.
  assert (S1 : starts_with i32 (skipn (length A + length CallHandlePattern)
                                  DXIL) = true).
  { rewrite D1 at 1. rewrite <- length_app, skipn_app_exact.
    apply starts_with_app. }
  rewrite S1. unfold check at 1. unfold bind at 1. unfold ret at 1.
  rewrite L1. unfold NextArg at 1.
  assert (S2 : skipn (length P1) DXIL
               = op ++ ","%char :: lit " i8 " ++ cls ++ after_cls).
  { rewrite D2 at 1. apply skipn_app_exact. }
  rewrite S2, NextArg_scan_comma by assumption.
  unfold check at 1. unfold bind at 1. unfold ret at 1.
  rewrite <- length_app.
  unfold bind at 1. rewrite D3 at 1.
  rewrite read_arg_on_arg by assumption. try rewrite <- D3.
  rewrite L2, <- length_app.
  unfold bind at 1. unfold atoi_u32 at 1.
  assert (S3 : skipn (length P2) DXIL = cls ++ after_cls).
  { replace DXIL with (P2 ++ cls ++ after_cls)
      by (unfold DXIL, P, P2, P1, after_cls; now rewrite <- !app_assoc).
    apply skipn_app_exact. }
  rewrite S3, Hac. unfold ret at 1.
  unfold bind at 1. rewrite D4 at 1.
  rewrite read_arg_on_arg by assumption. try rewrite <- D4.
  rewrite L3, <- length_app.
  unfold bind at 1. unfold atoi_u32 at 1.
  assert (S4 : skipn (length P3) DXIL
               = rid ++ lit ", i32 " ++ src ++ ","%char :: R).
  { replace DXIL with (P3 ++ rid ++ lit ", i32 " ++ src ++ ","%char :: R)
      by (unfold DXIL, P, P3, P2, P1; now rewrite <- !app_assoc).
    apply skipn_app_exact. }
  rewrite S4, Har. unfold ret at 1.
  unfold bind at 1. rewrite D5 at 1.
  rewrite read_arg_on_arg by assumption. try rewrite <- D5.
  rewrite L4.
  replace (length P + length src - length P) with (length src) by lia.
  unfold bind at 1. unfold substr.
  assert (Hle : (length P <=? length DXIL) = true).
  { apply Nat.leb_le. unfold DXIL. rewrite length_app. lia. }
  rewrite Hle. unfold or_out_of_range, ret at 1.
  assert (S5 : firstn (length src) (skipn (length P) DXIL) = src).
  { unfold DXIL. rewrite skipn_app_exact. apply firstn_app_exact. }
  rewrite S5.
  assert (Hlen : negb (length src =? 0) = true).
  { destruct src; [congruence|reflexivity]. }
  rewrite Hlen. unfold check at 1. unfold bind at 1. unfold ret at 1.
  reflexivity.
Qed.

(** The same for an index that is not a variable. *)
Lemma PatchResourceHandle_step_on_literal_call ExtResMap pos A op cls rid
    src R ResClass RangeId :
  let after_cls := lit ", i32 " ++ rid ++ lit ", i32 " ++ src
                   ++ ","%char :: R in
  let P := A ++ CallHandlePattern ++ i32 ++ op ++ lit ", i8 " ++ cls
           ++ lit ", i32 " ++ rid ++ lit ", i32 " in
  let DXIL := P ++ src ++ ","%char :: R in
  find CallHandlePattern DXIL pos = Some (length A) ->
  inside_argument op -> inside_argument cls -> inside_argument rid ->
  inside_argument src ->
  src <> [] -> Ascii.eqb (hd zero src) "%" = false ->
  atoi (cls ++ after_cls) = Some ResClass ->
  atoi (rid ++ lit ", i32 " ++ src ++ ","%char :: R) = Some RangeId ->
  PatchResourceHandle_step ExtResMap pos DXIL
  = bind (ReplaceBindPoint ExtResMap (u32 ResClass) (u32 RangeId)
            (length P) (length P + length src))
         (fun _ => ret (Continue (length P + length src))) DXIL.
Proof.
  intros after_cls P DXIL Hfind Hop Hcls Hrid Hsrc Hne Hpc Hac Har.
  pose proof (PatchResourceHandle_step_on_call ExtResMap pos A op cls rid
                src R ResClass RangeId Hfind Hop Hcls Hrid Hsrc Hne Hac Har)
    as H.
  cbv zeta in H. rewrite Hpc in H. exact H.
Qed.




End CallFacts.

(** The resolution of a literal index.
    For a createHandle call with a literal index the
    patcher maps the resource class through 0 = SRV, 1 = UAV, 2 = CBV,
    3 = Sampler and takes the first entry of the extended map, in
    iteration order, whose record id is the range id of the call, whose
    type is the mapped class and whose source range holds the index:
    [SrcBindPoint <= SrcIndex] and
    [SrcIndex < (SrcBindPoint + ArraySize) mod 2^32], the upper bound
    being computed in [Uint32]. It writes
    [(BindPoint + (SrcIndex - SrcBindPoint)) mod 2^32] in place of the
    index. When no entry qualifies it throws. When
    [SrcBindPoint + ArraySize] does not exceed the [Uint32] range the
    source range is the interval [[SrcBindPoint, SrcBindPoint +
    ArraySize)]; for a range declared at 5 with 4 elements the index 7
    becomes [BindPoint + 2]. The class, the range id and the index are
    the second, third and fourth arguments of the call, and the scan
    resumes at the end of the index as it was before the rewrite. *)
Theorem literal_index_resolution :
  (ResClassToType 0 = Some RES_TYPE_SRV /\
   ResClassToType 1 = Some RES_TYPE_UAV /\
   ResClassToType 2 = Some RES_TYPE_CBV /\
   ResClassToType 3 = Some RES_TYPE_SAMPLER) /\
  (forall RangeId ResType SrcIndex (k : ResPair) e,
      in_bind_range RangeId ResType SrcIndex (k, e) = true <->
      RecordId e = RangeId /\ Type_ e = ResType /\
      (SrcBindPoint e <= SrcIndex
       < (SrcBindPoint e + ArraySize (snd k)) mod 2 ^ 32)%Z) /\
  (forall (k : ResPair) e,
      (0 <= SrcBindPoint e + ArraySize (snd k) < 2 ^ 32)%Z ->
      ((SrcBindPoint e + ArraySize (snd k)) mod 2 ^ 32
       = SrcBindPoint e + ArraySize (snd k))%Z) /\
  (forall m1 pBind pExt m2 ResClass ResType RangeId A src R z,
      ResClassToType ResClass = Some ResType ->
      stoi src = StoiValue z ->
      (forall e', In e' m1 ->
         in_bind_range RangeId ResType (z mod 2 ^ 32)%Z e' = false) ->
      in_bind_range RangeId ResType (z mod 2 ^ 32)%Z (pBind, pExt) = true ->
      ReplaceBindPoint (m1 ++ (pBind, pExt) :: m2) ResClass RangeId
        (length A) (length A + length src) (A ++ src ++ R)
      = Ret tt
          (A ++ to_string ((BindPoint (snd pBind)
                            + (z mod 2 ^ 32 - SrcBindPoint pExt))
                           mod 2 ^ 32)%Z
             ++ R)) /\
  (forall ExtResMap ResClass ResType RangeId A src R z,
      ResClassToType ResClass = Some ResType ->
      stoi src = StoiValue z ->
      (forall e, In e ExtResMap ->
         in_bind_range RangeId ResType (z mod 2 ^ 32)%Z e = false) ->
      ReplaceBindPoint ExtResMap ResClass RangeId
        (length A) (length A + length src) (A ++ src ++ R)
      = Throw (lit "Failed to find resource in ResourceMap")
          (A ++ src ++ R)) /\
  (forall pBind pExt m2 ResClass ResType RangeId A R,
      ResClassToType ResClass = Some ResType ->
      RecordId pExt = RangeId -> Type_ pExt = ResType ->
      SrcBindPoint pExt = 5%Z -> ArraySize (snd pBind) = 4%Z ->
      ReplaceBindPoint ((pBind, pExt) :: m2) ResClass RangeId
        (length A) (length A + 1) (A ++ lit "7" ++ R)
      = Ret tt
          (A ++ to_string ((BindPoint (snd pBind) + 2) mod 2 ^ 32)%Z ++ R)) /\
  (forall ExtResMap pos A op cls rid src R ResClass RangeId,
      let after_cls := lit ", i32 " ++ rid ++ lit ", i32 " ++ src
                       ++ ","%char :: R in
      let P := A ++ CallHandlePattern ++ i32 ++ op ++ lit ", i8 " ++ cls
               ++ lit ", i32 " ++ rid ++ lit ", i32 " in
      let DXIL := P ++ src ++ ","%char :: R in
      find CallHandlePattern DXIL pos = Some (length A) ->
      inside_argument op -> inside_argument cls -> inside_argument rid ->
      inside_argument src ->
      src <> [] -> Ascii.eqb (hd zero src) "%" = false ->
      atoi (cls ++ after_cls) = Some ResClass ->
      atoi (rid ++ lit ", i32 " ++ src ++ ","%char :: R) = Some RangeId ->
      PatchResourceHandle_step ExtResMap pos DXIL
      = bind (ReplaceBindPoint ExtResMap (u32 ResClass) (u32 RangeId)
                (length P) (length P + length src))
             (fun _ => ret (Continue (length P + length src))) DXIL).
Proof.
  assert (U : forall z, (z mod 2 ^ 32)%Z = u32 z) by reflexivity.
  split; [repeat split|].
  split; [exact in_bind_range_spec|].
  split; [intros k e H; now apply Z.mod_small|].
  split; [|split; [|split; [|exact PatchResourceHandle_step_on_literal_call]]].
  - intros m1 pBind pExt m2 ResClass ResType RangeId A src R z Hc Hz H1 He.
    pose proof (ReplaceBindPoint_on_index (m1 ++ (pBind, pExt) :: m2)
                  ResClass RangeId A src R) as HR.
    cbv zeta in HR. rewrite HR, Hz, Hc. rewrite !U in *.
    rewrite (find_bind_range_first m1 (pBind, pExt) m2) by assumption.
    now rewrite to_string_u32.
  - intros ExtResMap ResClass ResType RangeId A src R z Hc Hz Hall.
    pose proof (ReplaceBindPoint_on_index ExtResMap ResClass RangeId A src R)
      as HR.
    cbv zeta in HR. rewrite HR, Hz, Hc. rewrite !U in *.
    now rewrite find_bind_range_none.
  - intros pBind pExt m2 ResClass ResType RangeId A R Hc Hid Hty Hsrc Hsz.
    pose proof (ReplaceBindPoint_on_index ((pBind, pExt) :: m2)
                  ResClass RangeId A (lit "7") R) as HR.
    cbv zeta in HR. change (length (lit "7")) with 1 in HR.
    rewrite HR, Hc. change (stoi (lit "7")) with (StoiValue 7).
    cbv iota. change (u32 7) with 7%Z.
    rewrite (find_bind_range_first [] (pBind, pExt) m2).
    + rewrite U, to_string_u32, Hsrc. reflexivity.
    + intros ? [].
    + apply in_bind_range_spec. rewrite Hsrc, Hsz.
      repeat split; auto; try lia; reflexivity.
Qed.

Lemma literal_index_resolution_example :
  ReplaceBindPoint [(Examples.g_Array, Examples.g_Array_ext)] 0 0 74 75
    Examples.call_with_index_7
  = Ret tt Examples.call_with_index_12 /\
  PatchResourceHandle 100 [(Examples.g_Array, Examples.g_Array_ext)]
    Examples.call_with_index_7
  = Ret tt Examples.call_with_index_12.
Proof.
  split; [|vm_compute; reflexivity].
  exact (proj1 (proj2 (proj2 (proj2 (proj2 (proj2
                  literal_index_resolution)))))
           Examples.g_Array Examples.g_Array_ext [] 0%Z RES_TYPE_SRV 0%Z
           (ir "  %1 = call %dx.types.Handle @dx.op.createHandle(i32 57, i8 0, i32 0, i32 ")
           (ir ", i1 false)|")
           eq_refl eq_refl eq_refl eq_refl eq_refl).
Defined.

(** C1. The index of a call lies in the source range of the resource of
    its class and range id, and the patcher throws. For a range declared
    at register 5 with the size 4294967295 of an unbounded array, the
    index 7 lies in [[5, 5 + 4294967295)], yet the upper bound, computed
    in [Uint32], wraps to 4. For a range of four registers that begins
    at 2147483646, the index 2147483648 lies in the range, yet
    [std::stoi] does not read it. *)
Theorem C1_index_in_range_is_refused :
  (PatchResourceHandle 100 [(Examples.g_Unbounded, Examples.g_Array_ext)]
     Examples.call_with_index_7
   = Throw (lit "Failed to find resource in ResourceMap")
       Examples.call_with_index_7 /\
   RecordId Examples.g_Array_ext = 0%Z /\
   ResClassToType 0 = Some (Type_ Examples.g_Array_ext) /\
   (SrcBindPoint Examples.g_Array_ext <= 7
    < SrcBindPoint Examples.g_Array_ext
      + ArraySize (snd Examples.g_Unbounded))%Z /\
   u32 (SrcBindPoint Examples.g_Array_ext
        + ArraySize (snd Examples.g_Unbounded)) = 4%Z) /\
  (PatchResourceHandle 100 [(Examples.g_Array, Examples.g_High_ext)]
     Examples.call_with_index_2147483648
   = Throw (lit "std::out_of_range") Examples.call_with_index_2147483648 /\
   RecordId Examples.g_High_ext = 0%Z /\
   ResClassToType 0 = Some (Type_ Examples.g_High_ext) /\
   (SrcBindPoint Examples.g_High_ext <= 2147483648
    < SrcBindPoint Examples.g_High_ext
      + ArraySize (snd Examples.g_Array))%Z /\
   (SrcBindPoint Examples.g_High_ext
    + ArraySize (snd Examples.g_Array) < 2 ^ 32)%Z).
Proof.
  split.
  - split; [vm_compute; reflexivity|].
    split; [reflexivity|]. split; [reflexivity|].
    split; [|reflexivity].
    unfold Examples.g_Array_ext, Examples.g_Unbounded, UINT_MAX. simpl. lia.
  - split; [vm_compute; reflexivity|].
    split; [reflexivity|]. split; [reflexivity|].
    unfold Examples.g_High_ext, Examples.g_Array. simpl. lia.
Qed.




(* ================================================================== *)
(** * How far an iteration of the createHandle scan moves *)
(* ================================================================== *)

Section HandleScanFacts.

Lemma check_Ret cond msg s u s' :
  check cond msg s = Ret u s' -> cond = true /\ s' = s.
Proof.
  unfold check, ret, throw. destruct cond; intros H; inversion H; auto.
Qed.

Lemma NextArg_scan_spec rest pos ok pos' :
  NextArg_scan rest pos = (ok, pos') ->
  pos <= pos' /\ pos' <= pos + length rest /\
  (ok = true -> pos' < pos + length rest).
Proof.
  revert pos. induction rest as [|c rest IH]; intros pos; simpl.
  - intros H; inversion H; subst. repeat split; try lia; discriminate.
  - destruct (Ascii.eqb c ",").
    + intros H; inversion H; subst. repeat split; lia.
    + destruct (Ascii.eqb c ")" || Ascii.eqb c newline).
      * intros H; inversion H; subst. repeat split; try lia; discriminate.
      * intros H. apply IH in H. destruct H as (H1 & H2 & H3).
        repeat split; try lia. intros Hok. specialize (H3 Hok). lia.
Qed.

Lemma NextArg_spec DXIL pos ok pos' :
  NextArg DXIL pos = (ok, pos') ->
  pos <= pos' /\ (ok = true -> pos' < length DXIL).
Proof.
  unfold NextArg. intros H. apply NextArg_scan_spec in H.
  rewrite length_skipn in H. destruct H as (H1 & H2 & H3).
  split; auto. intros Hok. specialize (H3 Hok). lia.
Qed.

Lemma read_arg_Ret DXIL pos type m1 m2 m3 s StartPos pos' s' :
  read_arg DXIL pos type m1 m2 m3 s = Ret (StartPos, pos') s' ->
  s' = s /\ StartPos = pos + 2 + length type /\ StartPos <= pos' /\
  pos' < length DXIL.
Proof.
  unfold read_arg. intros H.
  apply bind_Ret_inv in H as (u1 & s1 & H1 & H).
  apply check_Ret in H1 as [_ ->].
  apply bind_Ret_inv in H as (u2 & s2 & H2 & H).
  apply check_Ret in H2 as [_ ->].
  destruct (NextArg DXIL (pos + 2 + length type)) as [ok p] eqn:E.
  apply bind_Ret_inv in H as (u3 & s3 & H3 & H).
  apply check_Ret in H3 as [Hok ->].
  inversion H; subst.
  apply NextArg_spec in E as [E1 E2]. repeat split; auto.
Qed.

(** A returning [ReplaceBindPoint] has replaced a span that is not empty
    by at most ten characters. *)
Lemma ReplaceBindPoint_Ret ExtResMap ResClass RangeId s e DXIL u DXIL' :
  ReplaceBindPoint ExtResMap ResClass RangeId s e DXIL = Ret u DXIL' ->
  length DXIL' <= length DXIL + 9.
Proof.
  unfold ReplaceBindPoint, bind, get, or_out_of_range, substr.
  destruct (s <=? length DXIL) eqn:Hs; [|discriminate].
  apply Nat.leb_le in Hs. unfold ret.
  unfold stoi_u32.
  destruct (stoi (firstn (e - s) (skipn s DXIL))) as [z| |] eqn:Hz;
    try discriminate.
  unfold ret.
  destruct (ResClassToType ResClass) as [ty|]; [|discriminate].
  destruct (find_bind_range ExtResMap RangeId ty (u32 z)) as [[pBind pExt]|];
    [|discriminate].
  unfold put. intros H; inversion H; subst. clear H.
  assert (Hne : 1 <= length (firstn (e - s) (skipn s DXIL))).
  { destruct (firstn (e - s) (skipn s DXIL)); [discriminate|simpl; lia]. }
  rewrite length_firstn, length_skipn in Hne.
  rewrite !length_app, length_firstn, length_skipn.
  pose proof (to_string_length
                (u32 (BindPoint (snd pBind) + u32 (u32 z - SrcBindPoint pExt)))).
  lia.
Qed.

Lemma patch_dynamic_index_Ret ExtResMap ResClass RangeId SrcIndexStr
    IndexEndPos DXIL u DXIL' :
  patch_dynamic_index ExtResMap ResClass RangeId SrcIndexStr IndexEndPos DXIL
  = Ret u DXIL' ->
  length DXIL' <= length DXIL + 9.
Proof.
  unfold patch_dynamic_index. unfold bind at 1. unfold get.
  destruct (rfind (SrcIndexStr ++ lit " = add i32 ") DXIL IndexEndPos)
    as [IndexDeclPos|]; [|discriminate].
  destruct (Ascii.eqb (at_ DXIL (IndexDeclPos
                                 + length (SrcIndexStr ++ lit " = add i32 ")))
              "%").
  - destruct (NextArg DXIL _) as [ok p].
    intros H. apply bind_Ret_inv in H as (u1 & s1 & H1 & H).
    apply check_Ret in H1 as [_ ->].
    destruct (length DXIL <? p + 2); [discriminate|].
    apply bind_Ret_inv in H as (u2 & s2 & H2 & H).
    apply check_Ret in H2 as [_ ->].
    apply bind_Ret_inv in H as (u3 & s3 & H3 & H).
    apply check_Ret in H3 as [_ ->].
    eapply ReplaceBindPoint_Ret; eauto.
  - intros H. apply bind_Ret_inv in H as (u3 & s3 & H3 & H).
    apply check_Ret in H3 as [_ ->].
    eapply ReplaceBindPoint_Ret; eauto.
Qed.

(** An iteration that goes on has found a call at or after [pos] and
    resumes at the comma that ended the index in the buffer it was given,
    well after the call; the buffer has grown by nine characters at
    most. *)
Lemma PatchResourceHandle_step_Continue ExtResMap pos DXIL pos' DXIL' :
  PatchResourceHandle_step ExtResMap pos DXIL = Ret (Continue pos') DXIL' ->
  exists callHandlePos,
    find CallHandlePattern DXIL pos = Some callHandlePos /\
    callHandlePos + length CallHandlePattern + 22 <= pos' /\
    pos' < length DXIL /\
    length DXIL' <= length DXIL + 9.
Proof.
  unfold PatchResourceHandle_step. unfold bind at 1. unfold get.
  destruct (find CallHandlePattern DXIL pos) as [callHandlePos|] eqn:Hfind;
    [|discriminate].
  intros H. exists callHandlePos. split; [reflexivity|].
  apply bind_Ret_inv in H as (u1 & s1 & H1 & H).
  apply check_Ret in H1 as [_ ->].
  destruct (NextArg DXIL _) as [ok p0] eqn:E0.
  apply NextArg_spec in E0 as [E0 _].
  apply bind_Ret_inv in H as (u2 & s2 & H2 & H).
  apply check_Ret in H2 as [_ ->].
  apply bind_Ret_inv in H as ([c1 p1] & s3 & H3 & H).
  apply read_arg_Ret in H3 as (-> & -> & Hp1 & _).
  apply bind_Ret_inv in H as (ResClass & s4 & H4 & H).
  assert (s4 = DXIL) as ->.
  { unfold atoi_u32 in H4. destruct (atoi _); inversion H4; auto. }
  apply bind_Ret_inv in H as ([c2 p2] & s5 & H5 & H).
  apply read_arg_Ret in H5 as (-> & -> & Hp2 & _).
  apply bind_Ret_inv in H as (RangeId & s6 & H6 & H).
  assert (s6 = DXIL) as ->.
  { unfold atoi_u32 in H6. destruct (atoi _); inversion H6; auto. }
  apply bind_Ret_inv in H as ([c3 p3] & s7 & H7 & H).
  apply read_arg_Ret in H7 as (-> & -> & Hp3 & Hlt).
  apply bind_Ret_inv in H as (SrcIndexStr & s8 & H8 & H).
  assert (s8 = DXIL /\ SrcIndexStr
          = firstn (p3 - (p2 + 2 + length i32))
              (skipn (p2 + 2 + length i32) DXIL)) as [-> HS].
  { unfold or_out_of_range, substr in H8.
    destruct (_ <=? _); inversion H8; auto. }
  apply bind_Ret_inv in H as (u9 & s9 & H9 & H).
  apply check_Ret in H9 as [Hne ->].
  apply bind_Ret_inv in H as (u10 & s10 & H10 & H).
  inversion H; subst pos' DXIL'. clear H.
  assert (Hlen : 1 <= p3 - (p2 + 2 + length i32)).
  { apply negb_true_iff, Nat.eqb_neq in Hne. rewrite HS in Hne.
    rewrite length_firstn in Hne. lia. }
  change (length i32) with 4 in *. change (length i8) with 3 in *.
  split; [lia|]. split; [exact Hlt|].
  destruct (Ascii.eqb (hd zero SrcIndexStr) "%").
  - eapply patch_dynamic_index_Ret; eauto.
  - eapply ReplaceBindPoint_Ret; eauto.
Qed.

Lemma PatchResourceHandle_step_buffer ExtResMap pos DXIL DXIL' :
  PatchResourceHandle_step ExtResMap pos DXIL = Ret Break DXIL' ->
  DXIL' = DXIL.
Proof.
  unfold PatchResourceHandle_step. unfold bind at 1. unfold get.
  destruct (find CallHandlePattern DXIL pos) as [callHandlePos|] eqn:Hfind.
  - intros H.
    repeat (apply bind_Ret_inv in H as (? & ? & _ & H);
            try match type of H with
                | (let '(_, _) := ?x in _) _ = _ => destruct x
                end).
    discriminate.
  - intros H; inversion H; auto.
Qed.

End HandleScanFacts.

(* ================================================================== *)
(** * Runs without an iteration budget *)
(* ================================================================== *)

Section FuelFree.

Lemma fuel_free_ret {A} (a : A) : fuel_free (ret a).
Proof. intros s. discriminate. Qed.

Lemma fuel_free_throw {A} msg : fuel_free (@throw A msg).
Proof. intros s. discriminate. Qed.

Lemma fuel_free_undefined {A} : fuel_free (@undefined A).
Proof. intros s. discriminate. Qed.

Lemma fuel_free_get : fuel_free get.
Proof. intros s. discriminate. Qed.

Lemma fuel_free_put s : fuel_free (put s).
Proof. intros s'. discriminate. Qed.

Lemma fuel_free_bind {A B} (m : M A) (k : A -> M B) :
  fuel_free m -> (forall a, fuel_free (k a)) -> fuel_free (bind m k).
Proof.
  intros Hm Hk s. unfold bind. specialize (Hm s).
  destruct (m s); try discriminate; try congruence; apply Hk.
Qed.

Lemma fuel_free_check cond msg : fuel_free (check cond msg).
Proof. destruct cond; intros s; discriminate. Qed.

Lemma fuel_free_or_out_of_range {A} (o : option A) :
  fuel_free (or_out_of_range o).
Proof. destruct o; intros s; discriminate. Qed.

Lemma fuel_free_stoi_u32 s : fuel_free (stoi_u32 s).
Proof. unfold stoi_u32. destruct (stoi s); intros s'; discriminate. Qed.

Lemma fuel_free_atoi_u32 DXIL pos : fuel_free (atoi_u32 DXIL pos).
Proof. unfold atoi_u32. destruct (atoi _); intros s'; discriminate. Qed.

End FuelFree.

Ltac fuel_free_step :=
  first
    [ solve [auto]
    | progress cbv zeta
    | apply fuel_free_ret
    | apply fuel_free_throw
    | apply fuel_free_undefined
    | apply fuel_free_get
    | apply fuel_free_put
    | apply fuel_free_check
    | apply fuel_free_or_out_of_range
    | apply fuel_free_stoi_u32
    | apply fuel_free_atoi_u32
    | assumption
    | apply fuel_free_bind; [|intros]
    | match goal with
      | |- fuel_free (match ?x with _ => _ end) => destruct x
      | |- fuel_free (if ?x then _ else _) => destruct x
      end ].

Ltac fuel_free := repeat fuel_free_step.

Section FuelFreeRuns.

Lemma fuel_free_ReplaceRecord pos NewValue Name RecordName Expected :
  fuel_free (ReplaceRecord pos NewValue Name RecordName Expected).
Proof. unfold ReplaceRecord. fuel_free. Qed.

Lemma fuel_free_ReadRecord pos : fuel_free (ReadRecord pos).
Proof. unfold ReadRecord. fuel_free. Qed.

Lemma fuel_free_ReplaceBindPoint ExtResMap ResClass RangeId s e :
  fuel_free (ReplaceBindPoint ExtResMap ResClass RangeId s e).
Proof. unfold ReplaceBindPoint. fuel_free. Qed.

Lemma fuel_free_patch_dynamic_index ExtResMap ResClass RangeId SrcIndexStr
    IndexEndPos :
  fuel_free (patch_dynamic_index ExtResMap ResClass RangeId SrcIndexStr
               IndexEndPos).
Proof.
  unfold patch_dynamic_index.
  pose proof fuel_free_ReplaceBindPoint. fuel_free; apply H.
Qed.

Lemma fuel_free_read_arg DXIL pos type m1 m2 m3 :
  fuel_free (read_arg DXIL pos type m1 m2 m3).
Proof. unfold read_arg. fuel_free. Qed.

Lemma fuel_free_PatchResourceHandle_step ExtResMap pos :
  fuel_free (PatchResourceHandle_step ExtResMap pos).
Proof.
  unfold PatchResourceHandle_step.
  pose proof fuel_free_ReplaceBindPoint.
  pose proof fuel_free_patch_dynamic_index.
  pose proof fuel_free_read_arg.
  fuel_free; auto.
Qed.

Lemma fuel_free_patch_declaration ExtResMap BeginOfResName BindingRecordStart
    ResName RecordId ResType :
  fuel_free (patch_declaration ExtResMap BeginOfResName BindingRecordStart
               ResName RecordId ResType).
Proof.
  unfold patch_declaration.
  pose proof fuel_free_ReplaceRecord.
  pose proof fuel_free_ReadRecord.
  fuel_free; auto.
Qed.

Lemma fuel_free_PatchResourceDeclaration_step ExtResMap pos :
  fuel_free (PatchResourceDeclaration_step ExtResMap pos).
Proof.
  unfold PatchResourceDeclaration_step.
  pose proof fuel_free_patch_declaration.
  fuel_free; auto.
Qed.

Lemma fuel_free_PatchResourceDeclarationRT ResourceMap ExtResMap :
  fuel_free (PatchResourceDeclarationRT ResourceMap ExtResMap).
Proof.
  unfold PatchResourceDeclarationRT. revert ExtResMap.
  induction ResourceMap as [|r rest IH]; intros ExtResMap; simpl.
  - apply fuel_free_ret.
  - apply fuel_free_bind; [|intros; apply IH].
    unfold PatchResourceDeclarationRT_step.
    pose proof fuel_free_ReplaceRecord.
    fuel_free; auto.
Qed.

(** With a budget above the length of what is left to scan the loop of
    the createHandle patcher ends. *)
Lemma PatchResourceHandle_loop_ends fuel ExtResMap pos DXIL :
  length DXIL - pos < fuel ->
  PatchResourceHandle_loop fuel ExtResMap pos DXIL <> OutOfFuel.
Proof.
  revert pos DXIL. induction fuel as [|fuel IH]; intros pos DXIL Hf; [lia|].
  cbn [PatchResourceHandle_loop]. unfold bind at 1. unfold get.
  destruct (pos <? length DXIL) eqn:Hp; cbn [negb]; [|discriminate].
  apply Nat.ltb_lt in Hp.
  unfold bind.
  pose proof (fuel_free_PatchResourceHandle_step ExtResMap pos DXIL) as Hff.
  destruct (PatchResourceHandle_step ExtResMap pos DXIL)
    as [[pos'|] DXIL'| | |] eqn:Hs; try discriminate; try congruence.
  apply PatchResourceHandle_step_Continue in Hs
    as (c & Hfind & Hpos & Hlt & Hlen).
  apply find_spec in Hfind as (Hc & _).
  apply IH. lia.
Qed.

End FuelFreeRuns.

(* ================================================================== *)
(** * How far an iteration of the declaration scan moves *)
(* ================================================================== *)

Section DeclarationScanFacts.

Lemma bangs_app a b : bangs (a ++ b) = bangs a + bangs b.
Proof. unfold bangs. now rewrite filter_app, length_app. Qed.

Lemma bangs_skipn_le n s : bangs (skipn n s) <= bangs s.
Proof.
  rewrite <- (firstn_skipn n s) at 2. rewrite bangs_app. lia.
Qed.

Lemma bangs_firstn_le n s : bangs (firstn n s) <= bangs s.
Proof.
  rewrite <- (firstn_skipn n s) at 2. rewrite bangs_app. lia.
Qed.

Lemma bangs_at s i :
  Ascii.eqb (at_ s i) "!" = true -> 1 <= bangs (firstn (S i) s).
Proof.
  unfold at_, bangs. revert i. induction s as [|c s IH]; intros i.
  - destruct i; cbn; discriminate.
  - destruct i as [|i]; cbn [nth firstn filter].
    + intros H. rewrite H. cbn [length]. lia.
    + intros H. specialize (IH i H). cbn [firstn] in IH.
      destruct (Ascii.eqb c "!"); cbn [length]; lia.
Qed.

(** Moving past an exclamation mark leaves fewer of them ahead. *)
Lemma bangs_skipn_lt s p i q :
  p <= i -> i < q -> Ascii.eqb (at_ s i) "!" = true ->
  bangs (skipn q s) < bangs (skipn p s).
Proof.
  intros Hp Hq Hb.
  assert (Hs : skipn q s = skipn (q - p) (skipn p s)).
  { rewrite skipn_skipn. f_equal. lia. }
  rewrite Hs.
  rewrite <- (firstn_skipn (q - p) (skipn p s)) at 2. rewrite bangs_app.
  assert (Hat : Ascii.eqb (at_ (skipn p s) (i - p)) "!" = true).
  { rewrite at_skipn in *. rewrite skipn_skipn.
    replace (i - p + p) with i by lia. exact Hb. }
  apply bangs_at in Hat.
  assert (Hle : bangs (firstn (S (i - p)) (skipn p s))
                <= bangs (firstn (q - p) (skipn p s))).
  { replace (firstn (S (i - p)) (skipn p s))
      with (firstn (S (i - p)) (firstn (q - p) (skipn p s))).
    - apply bangs_firstn_le.
    - rewrite firstn_firstn. f_equal. lia. }
  lia.
Qed.

Lemma bangs_digits_run set s :
  Forall (fun c => mem c set = true) s -> mem "!" set = false -> bangs s = 0.
Proof.
  intros H Hb. induction H as [|c s Hc _ IH]; auto.
  unfold bangs in *. simpl.
  destruct (Ascii.eqb c "!") eqn:E; auto.
  apply Ascii.eqb_eq in E. subst c. congruence.
Qed.

Lemma digit_char_not_bang d :
  (0 <= d < 10)%Z -> Ascii.eqb (digit_char d) "!" = false.
Proof.
  intros H.
  assert (C : (d = 0 \/ d = 1 \/ d = 2 \/ d = 3 \/ d = 4 \/ d = 5 \/ d = 6
               \/ d = 7 \/ d = 8 \/ d = 9)%Z) by lia.
  clear H. intuition (subst; reflexivity).
Qed.

Lemma bangs_dec_digits fuel z acc :
  bangs acc = 0 -> bangs (dec_digits fuel z acc) = 0.
Proof.
  revert z acc. induction fuel as [|fuel IH]; intros z acc Hacc;
    cbn [dec_digits]; auto.
  assert (Hd : bangs (digit_char (z mod 10) :: acc) = 0).
  { unfold bangs in *. cbn [filter].
    rewrite digit_char_not_bang by (apply Z.mod_pos_bound; lia).
    exact Hacc. }
  destruct (z / 10 =? 0)%Z; auto.
Qed.

Lemma bangs_to_string n : bangs (to_string n) = 0.
Proof. unfold to_string. now apply bangs_dec_digits. Qed.

(** The loop of [ReadResName]: it moves over word symbols only, and
    stops on a quote when it succeeds. *)
Lemma ReadResName_scan_spec rest pos ok pos' :
  ReadResName_scan rest pos = (ok, pos') ->
  pos <= pos' /\ pos' <= pos + length rest /\
  Forall (fun c => IsWordSymbol c = true) (firstn (pos' - pos) rest) /\
  (ok = true -> hd zero (skipn (pos' - pos) rest) = dquote /\
                pos' < pos + length rest).
Proof.
  revert pos. induction rest as [|c rest IH]; intros pos; simpl.
  - intros H; inversion H; subst. rewrite Nat.sub_diag. simpl.
    repeat split; auto; try lia; discriminate.
  - destruct (IsWordSymbol c) eqn:W.
    + intros H. apply IH in H as (H1 & H2 & H3 & H4).
      replace (pos' - pos) with (S (pos' - S pos)) by lia.
      simpl. repeat split; try lia.
      * constructor; auto.
      * apply H4; auto.
      * apply H4 in H. lia.
    + destruct (Ascii.eqb c dquote) eqn:Q.
      * intros H; inversion H; subst. rewrite Nat.sub_diag. simpl.
        apply Ascii.eqb_eq in Q. repeat split; auto; lia.
      * intros H; inversion H; subst. rewrite Nat.sub_diag. simpl.
        repeat split; auto; try lia; discriminate.
Qed.

Lemma IsWordSymbol_not_bang c : IsWordSymbol c = true -> Ascii.eqb c "!" = false.
Proof.
  intros H. destruct (Ascii.eqb c "!") eqn:E; auto.
  apply Ascii.eqb_eq in E. subst c. discriminate.
Qed.

Lemma bangs_word s : Forall (fun c => IsWordSymbol c = true) s -> bangs s = 0.
Proof.
  induction 1 as [|c s Hc _ IH]; auto.
  unfold bangs in *. simpl. now rewrite (IsWordSymbol_not_bang c Hc).
Qed.

(** What a returning [ReadRecord] has read. *)
Lemma ReadRecord_Ret pos DXIL r DXIL' :
  ReadRecord pos DXIL = Ret r DXIL' ->
  DXIL' = DXIL /\
  ((exists p, r = RecordNotRead p /\ pos <= p) \/
   exists A field R z,
     DXIL = A ++ lit ", i32 " ++ field ++ R /\ length A = pos /\
     number_symbols field /\ ends_number R = true /\
     stoi field = StoiValue z /\
     r = RecordRead
           (match R with
            | [] => None
            | _ :: _ => Some (length A + 2 + length i32 + length field)
            end) (u32 z)).
Proof.
  intros H.
  destruct (comma_space_at DXIL pos) eqn:Hc.
  2:{ unfold ReadRecord, bind, get in H. rewrite Hc in H.
      inversion H; subst. split; auto. left. eauto. }
  destruct (starts_with i32 (skipn (pos + 2) DXIL)) eqn:Hs.
  2:{ unfold ReadRecord, bind, get in H. rewrite Hc, Hs in H.
      inversion H; subst. split; auto. left. exists (pos + 2). split; auto.
      lia. }
  destruct (record_decompose _ _ Hc Hs) as (A & field & R & -> & <- & Hf & HR).
  rewrite ReadRecord_on_field in H by assumption.
  destruct (stoi field) as [z| |] eqn:Hz; try discriminate.
  inversion H; subst. split; auto. right.
  exists A, field, R, z. repeat split; auto.
Qed.

Lemma app_inv_length (a b c d : Str) :
  a ++ b = c ++ d -> length a = length c -> a = c /\ b = d.
Proof.
  revert c. induction a as [|x a IH]; intros [|y c] H Hl; simpl in *;
    try discriminate; auto.
  inversion H; subst. destruct (IH c) as [-> ->]; auto.
Qed.

(** What an iteration has done when [patch_declaration] lets the scan
    go on: nothing, or the rewrite of both fields of the record at
    [BindingRecordStart] for a resource of the map. *)
Lemma patch_declaration_Continue ExtResMap BeginOfResName BindingRecordStart
    ResName RecordId ResType DXIL ExtResMap' pos' DXIL' :
  BeginOfResName <= BindingRecordStart ->
  patch_declaration ExtResMap BeginOfResName BindingRecordStart ResName
    RecordId ResType DXIL = Ret (ExtResMap', Continue pos') DXIL' ->
  (DXIL' = DXIL /\ ExtResMap' = ExtResMap /\ BindingRecordStart <= pos') \/
  exists A f1 f2 R k e v1 v2,
    DXIL = A ++ lit ", i32 " ++ f1 ++ lit ", i32 " ++ f2 ++ R /\
    length A = BindingRecordStart /\
    find_declared ExtResMap (u32 v2) (u32 v1) ResType = Some (k, e) /\
    ExtResMap'
    = set_declared_RecordId ExtResMap (u32 v2) (u32 v1) ResType RecordId /\
    let G := lit ", i32 " ++ to_string (Space (snd k))
             ++ lit ", i32 " ++ to_string (BindPoint (snd k)) in
    pos' = BindingRecordStart + length G /\
    DXIL' = match ResName with
            | [] => firstn BeginOfResName A ++ fst k
                    ++ skipn BeginOfResName A ++ G ++ R
            | _ :: _ => A ++ G ++ R
            end.
Proof.
  intros HB H.
  pose proof H as H0.
  unfold patch_declaration in H.
  apply bind_Ret_inv in H as (r1 & s1 & H1 & H).
  apply ReadRecord_Ret in H1
    as (-> & [(p & -> & Hp)|(A & f1 & R1 & v1 & HD & HA & Hf1 & HR1 & Hv1 & ->)]).
  { inversion H; subst. left. auto. }
  destruct R1 as [|c R1]; [discriminate|].
  apply bind_Ret_inv in H as (r2 & s2 & H2 & H).
  apply ReadRecord_Ret in H2
    as (-> & [(p & -> & Hp)|(A2 & f2 & R & v2 & HD2 & HA2 & Hf2 & HR & Hv2 & ->)]).
  { inversion H; subst. left. repeat split; auto. lia. }
  clear H.
  assert (HA2' : A2 = A ++ lit ", i32 " ++ f1 /\
                 c :: R1 = lit ", i32 " ++ f2 ++ R).
  { rewrite HD in HD2.
    replace (A ++ lit ", i32 " ++ f1 ++ c :: R1)
      with ((A ++ lit ", i32 " ++ f1) ++ c :: R1) in HD2
      by (now rewrite <- !app_assoc).
    apply app_inv_length in HD2 as [E1 E2]; auto.
    rewrite length_record_prefix. lia. }
  destruct HA2' as [-> HR1'].
  rewrite HR1' in HD. subst DXIL.
  rewrite <- HA in H0, HB.
  rewrite (patch_declaration_on_fields ExtResMap BeginOfResName ResName
             RecordId ResType A f1 f2 R v1 v2) in H0 by assumption.
  destruct (find_declared ExtResMap (u32 v2) (u32 v1) ResType)
    as [[k e]|] eqn:F; [|discriminate].
  cbv zeta in H0. inversion H0; subst. clear H0.
  right. exists A, f1, f2, R, k, e, v1, v2.
  split; [reflexivity|]. split; [reflexivity|]. split; [exact F|].
  split; [reflexivity|]. cbv zeta. split.
  - rewrite !length_app. simpl. lia.
  - destruct ResName as [|c' ResName].
    + set (G := lit ", i32 " ++ _).
      replace (A ++ lit ", i32 " ++ to_string (Space (snd k))
                 ++ lit ", i32 " ++ to_string (BindPoint (snd k)) ++ R)
        with (A ++ G ++ R)
        by (unfold G; now rewrite <- !app_assoc).
      rewrite firstn_app, skipn_app.
      replace (BeginOfResName - length A) with 0 by lia.
      simpl. rewrite app_nil_r. now rewrite <- !app_assoc.
    + now rewrite <- !app_assoc.
Qed.

End DeclarationScanFacts.

Section DeclarationProgress.

Lemma plain_names_set_declared_RecordId ExtResMap BindPoint' Space' ResType
    RecordId :
  plain_names ExtResMap ->
  plain_names (set_declared_RecordId ExtResMap BindPoint' Space' ResType
                 RecordId).
Proof.
  unfold plain_names. induction 1 as [|[k e] m Hk Hm IH]; simpl; auto.
  destruct (_ && _); constructor; auto.
Qed.

Lemma plain_names_In ExtResMap k e :
  plain_names ExtResMap -> In (k, e) ExtResMap -> bangs (fst k) = 0.
Proof.
  unfold plain_names. rewrite Forall_forall. intros H Hin.
  exact (H (k, e) Hin).
Qed.

Lemma ResNameDecl_bang DXIL E :
  starts_with ResNameDecl (skipn E DXIL) = true ->
  Ascii.eqb (at_ DXIL (E + 2)) "!" = true.
Proof.
  intros H. apply starts_with_spec in H as [r Hr].
  rewrite at_skipn. replace (E + 2) with (2 + E) by lia.
  rewrite <- skipn_skipn, Hr. reflexivity.
Qed.

Lemma firstn_succ_split (X : Str) k :
  firstn (S k) X = firstn k X ++ firstn 1 (skipn k X).
Proof.
  revert k. induction X as [|x X IH]; intros [|k]; cbn [firstn skipn app];
    auto.
  f_equal. apply IH.
Qed.

(** The text between the start of a name and the end of its closing
    quote has no exclamation mark. *)
Lemma bangs_name_and_quote DXIL B sp :
  B <= sp ->
  Forall (fun c => IsWordSymbol c = true) (firstn (sp - B) (skipn B DXIL)) ->
  hd zero (skipn (sp - B) (skipn B DXIL)) = dquote ->
  bangs (skipn B (firstn (sp + 1) DXIL)) = 0.
Proof.
  intros HB Hw Hq.
  assert (E : skipn B (firstn (sp + 1) DXIL)
              = firstn (S (sp - B)) (skipn B DXIL)).
  { rewrite firstn_skipn_comm. do 2 f_equal. lia. }
  rewrite E, firstn_succ_split, bangs_app, (bangs_word _ Hw).
  destruct (skipn (sp - B) (skipn B DXIL)) as [|c r]; simpl in *; auto.
  subst c. reflexivity.
Qed.

Lemma bangs_fields n1 n2 :
  bangs (lit ", i32 " ++ to_string n1 ++ lit ", i32 " ++ to_string n2) = 0.
Proof.
  rewrite !bangs_app, !bangs_to_string. reflexivity.
Qed.

(** An iteration of the declaration scan that goes on has moved the
    position forward. When no resource name has an exclamation mark it
    has also left fewer exclamation marks ahead of the position. *)
Lemma PatchResourceDeclaration_step_progress ExtResMap pos DXIL
    ExtResMap' pos' DXIL' :
  PatchResourceDeclaration_step ExtResMap pos DXIL
  = Ret (ExtResMap', Continue pos') DXIL' ->
  pos < pos' /\
  (plain_names ExtResMap ->
   plain_names ExtResMap' /\
   bangs (skipn pos' DXIL') < bangs (skipn pos DXIL)).
Proof.
  unfold PatchResourceDeclaration_step. unfold bind at 1. unfold get.
  destruct (find ResNameDecl DXIL pos) as [E|] eqn:Hfind; [|discriminate].
  apply find_spec in Hfind as (HE & HEl & Hst).
  pose proof (ResNameDecl_bang DXIL E Hst) as Hbang.
  change (length ResNameDecl) with 4.
  unfold ReadResName.
  destruct (ReadResName_scan (skipn (E + 4) DXIL) (E + 4)) as [ok sp] eqn:Hscan.
  apply ReadResName_scan_spec in Hscan as (Hsp1 & Hsp2 & Hword & Hquote).
  assert (Same : forall p, E + 4 <= p ->
            pos < p /\
            (plain_names ExtResMap ->
             plain_names ExtResMap /\
             bangs (skipn p DXIL) < bangs (skipn pos DXIL))).
  { intros p Hp. split; [lia|]. intros Hpl. split; auto.
    apply (bangs_skipn_lt DXIL pos (E + 2) p); auto; lia. }
  destruct ok; cbn [negb].
  2:{ intros H; inversion H; subst. apply Same. lia. }
  destruct (Hquote eq_refl) as [Hq Hlt]. clear Hquote.
  destruct (rfind ResourceRecStart DXIL E) as [p0|]; [|discriminate].
  destruct (starts_with i32 (skipn (p0 + length ResourceRecStart) DXIL));
    cbn [negb].
  2:{ intros H; inversion H; subst. apply Same. lia. }
  destruct (find_first_not_of NumberSymbols DXIL _) as [p1|]; [|discriminate].
  intros H. apply bind_Ret_inv in H as (rid & s1 & H1 & H).
  assert (s1 = DXIL) as ->.
  { unfold atoi_u32 in H1. destruct (atoi _); inversion H1; auto. }
  apply bind_Ret_inv in H as (u2 & s2 & H2 & H).
  apply check_Ret in H2 as [_ ->].
  match type of H with
  | (if negb ?c then _ else _) _ = _ => destruct c; cbn [negb] in H
  end.
  2:{ inversion H; subst. apply Same. lia. }
  destruct (skip_name_parts DXIL _) as [p2 NameParts].
  match type of H with
  | (if ?c then _ else _) _ = _ => destruct c
  end.
  { inversion H; subst. apply Same. lia. }
  apply patch_declaration_Continue in H; [|lia].
  destruct H as [(-> & -> & Hp)|
                 (A & f1 & f2 & R & k & e & v1 & v2 & HD & HA & Hfd & -> & H)].
  { apply Same. lia. }
  cbv zeta in H. destruct H as [-> HD'].
  set (G := lit ", i32 " ++ to_string (Space (snd k))
            ++ lit ", i32 " ++ to_string (BindPoint (snd k))) in *.
  set (F := lit ", i32 " ++ f1 ++ lit ", i32 " ++ f2).
  assert (HDF : DXIL = A ++ F ++ R)
    by (rewrite HD; unfold F; now rewrite <- !app_assoc).
  assert (HG : bangs G = 0) by apply bangs_fields.
  split; [lia|]. intros Hpl. split.
  { now apply plain_names_set_declared_RecordId. }
  apply find_declared_Some in Hfd as (Hin & _).
  pose proof (plain_names_In _ _ _ Hpl Hin) as Hname.
  assert (HR : bangs R < bangs (skipn pos DXIL)).
  { replace R with (skipn (length A + length F) DXIL).
    - apply (bangs_skipn_lt DXIL pos (E + 2)); auto; lia.
    - rewrite HDF, app_assoc, <- length_app. apply skipn_app_exact. }
  assert (HA' : A = firstn (sp + 1) DXIL).
  { rewrite HDF, <- HA. now rewrite firstn_app_exact. }
  assert (Hmid : bangs (skipn (E + 4) A) = 0).
  { rewrite HA'. apply bangs_name_and_quote; auto. }
  enough (Hle : bangs (skipn (sp + 1 + length G) DXIL') <= bangs R) by lia.
  rewrite HD'.
  destruct (firstn (sp - (E + 4)) (skipn (E + 4) DXIL)) as [|c ResName].
  - set (T := firstn (E + 4) A ++ fst k ++ skipn (E + 4) A ++ G).
    replace (firstn (E + 4) A ++ fst k ++ skipn (E + 4) A ++ G ++ R)
      with (T ++ R) by (unfold T; now rewrite <- !app_assoc).
    rewrite skipn_app, bangs_app.
    assert (HT : bangs (skipn (sp + 1 + length G) T) = 0).
    { unfold T. rewrite skipn_app.
      assert (bangs (skipn (sp + 1 + length G) (firstn (E + 4) A)) = 0).
      { rewrite skipn_all2; [reflexivity|]. rewrite length_firstn. lia. }
      pose proof (bangs_skipn_le
                    (sp + 1 + length G - length (firstn (E + 4) A))
                    (fst k ++ skipn (E + 4) A ++ G)) as Hl.
      rewrite !bangs_app in Hl. rewrite bangs_app. lia. }
    pose proof (bangs_skipn_le (sp + 1 + length G - length T) R). lia.
  - rewrite app_assoc, <- HA, <- length_app, skipn_app_exact. lia.
Qed.

(** With a budget above the number of exclamation marks left to scan,
    the loop of the generic declaration patcher ends when no resource
    name has an exclamation mark. *)
Lemma PatchResourceDeclaration_loop_ends fuel ExtResMap pos DXIL :
  plain_names ExtResMap ->
  bangs (skipn pos DXIL) < fuel ->
  PatchResourceDeclaration_loop fuel ExtResMap pos DXIL <> OutOfFuel.
Proof.
  revert ExtResMap pos DXIL.
  induction fuel as [|fuel IH]; intros ExtResMap pos DXIL Hpl Hf; [lia|].
  cbn [PatchResourceDeclaration_loop]. unfold bind at 1. unfold get.
  destruct (pos <? length DXIL) eqn:Hp; cbn [negb]; [|discriminate].
  unfold bind.
  pose proof (fuel_free_PatchResourceDeclaration_step ExtResMap pos DXIL)
    as Hff.
  destruct (PatchResourceDeclaration_step ExtResMap pos DXIL)
    as [[m' [pos'|]] DXIL'| | |] eqn:Hs; try discriminate; try congruence.
  apply PatchResourceDeclaration_step_progress in Hs as [_ Hs].
  destruct (Hs Hpl) as [Hpl' Hlt].
  apply IH; auto. lia.
Qed.

End DeclarationProgress.

(* ================================================================== *)
(** * Positions kept across an edit *)
(* ================================================================== *)

Section StalePositions.

Lemma NextArg_scan_comma_at rest pos pos' :
  NextArg_scan rest pos = (true, pos') ->
  hd zero (skipn (pos' - pos) rest) = ","%char.
Proof.
  revert pos. induction rest as [|c rest IH]; intros pos; simpl.
  - discriminate.
  - destruct (Ascii.eqb c ",") eqn:E.
    + intros H; inversion H; subst. rewrite Nat.sub_diag. simpl.
      now apply Ascii.eqb_eq in E.
    + destruct (Ascii.eqb c ")" || Ascii.eqb c newline); [discriminate|].
      intros H. pose proof (NextArg_scan_spec _ _ _ _ H) as (Hle & _).
      apply IH in H.
      replace (pos' - pos) with (S (pos' - S pos)) by lia. exact H.
Qed.

Lemma NextArg_comma_at DXIL pos pos' :
  NextArg DXIL pos = (true, pos') -> at_ DXIL pos' = ","%char.
Proof.
  unfold NextArg. intros H.
  pose proof (NextArg_scan_spec _ _ _ _ H) as (Hle & _).
  apply NextArg_scan_comma_at in H.
  rewrite skipn_skipn in H. rewrite at_skipn.
  replace (pos' - pos + pos) with pos' in H by lia. exact H.
Qed.

Lemma read_arg_comma_at DXIL pos type m1 m2 m3 s StartPos pos' s' :
  read_arg DXIL pos type m1 m2 m3 s = Ret (StartPos, pos') s' ->
  at_ DXIL pos' = ","%char.
Proof.
  unfold read_arg. intros H.
  apply bind_Ret_inv in H as (u1 & s1 & H1 & H).
  apply bind_Ret_inv in H as (u2 & s2 & H2 & H).
  destruct (NextArg DXIL (pos + 2 + length type)) as [ok p] eqn:E.
  apply bind_Ret_inv in H as (u3 & s3 & H3 & H).
  apply check_Ret in H3 as [-> _].
  inversion H; subst. now apply NextArg_comma_at in E.
Qed.

(** The position at which the createHandle scan resumes is the comma
    that ended the index in the buffer as it was before the edit. *)
Lemma PatchResourceHandle_step_resumes_at_old_comma ExtResMap pos DXIL
    pos' DXIL' :
  PatchResourceHandle_step ExtResMap pos DXIL = Ret (Continue pos') DXIL' ->
  at_ DXIL pos' = ","%char.
Proof.
  unfold PatchResourceHandle_step. unfold bind at 1. unfold get.
  destruct (find CallHandlePattern DXIL pos) as [callHandlePos|];
    [|discriminate].
  intros H.
  apply bind_Ret_inv in H as (u1 & s1 & H1 & H).
  destruct (NextArg DXIL _) as [ok p0].
  apply bind_Ret_inv in H as (u2 & s2 & H2 & H).
  apply bind_Ret_inv in H as ([c1 p1] & s3 & H3 & H).
  apply bind_Ret_inv in H as (ResClass & s4 & H4 & H).
  apply bind_Ret_inv in H as ([c2 p2] & s5 & H5 & H).
  apply bind_Ret_inv in H as (RangeId & s6 & H6 & H).
  apply bind_Ret_inv in H as ([c3 p3] & s7 & H7 & H).
  apply read_arg_comma_at in H7.
  apply bind_Ret_inv in H as (SrcIndexStr & s8 & H8 & H).
  apply bind_Ret_inv in H as (u9 & s9 & H9 & H).
  apply bind_Ret_inv in H as (u10 & s10 & H10 & H).
  inversion H; subst. exact H7.
Qed.

End StalePositions.

(** C8, as the code has it.
    [ReplaceRecord] recomputes its position after the
    replacement: the position it returns is the end of the new value in
    the new buffer, so the binding replacement of both declaration
    patchers starts where the text that followed the space field now
    begins. The scan positions are not recomputed. The generic
    declaration patcher returns the position computed before the name is
    inserted: in the final buffer the end of the rewritten register field
    lies at that position plus the length of the name. The createHandle
    patcher resumes at the comma that ended the index in the buffer as it
    was before the index was replaced. *)
Theorem C8_positions_after_edits :
  (forall pos NewValue Name RecordName Expected DXIL pos' DXIL',
      ReplaceRecord pos NewValue Name RecordName Expected DXIL
      = Ret pos' DXIL' ->
      exists A field R,
        DXIL = A ++ lit ", i32 " ++ field ++ R /\ length A = pos /\
        DXIL' = (A ++ lit ", i32 " ++ NewValue) ++ R /\
        pos' = length (A ++ lit ", i32 " ++ NewValue) /\
        skipn pos' DXIL' = R) /\
  (forall ExtResMap BeginOfResName RecordId ResType A f1 f2 R v1 v2 k e,
      number_symbols f1 -> number_symbols f2 -> ends_number R = true ->
      stoi f1 = StoiValue v1 -> stoi f2 = StoiValue v2 ->
      BeginOfResName <= length A ->
      find_declared ExtResMap (v2 mod 2 ^ 32)%Z (v1 mod 2 ^ 32)%Z ResType
      = Some (k, e) ->
      let G := lit ", i32 " ++ to_string (Space (snd k))
               ++ lit ", i32 " ++ to_string (BindPoint (snd k)) in
      exists ExtResMap' DXIL',
        patch_declaration ExtResMap BeginOfResName (length A) [] RecordId
          ResType (A ++ lit ", i32 " ++ f1 ++ lit ", i32 " ++ f2 ++ R)
        = Ret (ExtResMap', Continue (length (A ++ G))) DXIL' /\
        DXIL' = firstn BeginOfResName A ++ fst k
                ++ skipn BeginOfResName A ++ G ++ R /\
        skipn (length (A ++ G) + length (fst k)) DXIL' = R) /\
  (forall ExtResMap pos DXIL pos' DXIL',
      PatchResourceHandle_step ExtResMap pos DXIL
      = Ret (Continue pos') DXIL' ->
      at_ DXIL pos' = ","%char).
Proof.
  assert (U : forall z, (z mod 2 ^ 32)%Z = u32 z) by reflexivity.
  split; [|split].
  - intros pos NewValue Name RecordName Expected DXIL pos' DXIL' H.
    apply ReplaceRecord_Ret in H
      as (A & field & R & z & -> & <- & _ & _ & _ & _ & -> & ->).
    exists A, field, R. split; [reflexivity|]. split; [reflexivity|].
    split; [now rewrite <- !app_assoc|]. split.
    + rewrite !length_app. simpl. lia.
    + replace (length A + 2 + length i32 + length NewValue)
        with (length (A ++ lit ", i32 " ++ NewValue))
        by (rewrite !length_app; simpl; lia).
      replace (A ++ lit ", i32 " ++ NewValue ++ R)
        with ((A ++ lit ", i32 " ++ NewValue) ++ R)
        by (now rewrite <- !app_assoc).
      apply skipn_app_exact.
  - intros ExtResMap BeginOfResName RecordId ResType A f1 f2 R v1 v2 k e
      Hf1 Hf2 HR Hv1 Hv2 HB Hfd G.
    rewrite !U in Hfd.
    pose proof (patch_declaration_on_fields ExtResMap BeginOfResName []
                  RecordId ResType A f1 f2 R v1 v2 Hf1 Hf2 HR Hv1 Hv2 HB)
      as Hp.
    cbv zeta in Hp. rewrite Hfd in Hp.
    exists (set_declared_RecordId ExtResMap (u32 v2) (u32 v1) ResType
              RecordId),
      (firstn BeginOfResName A ++ fst k ++ skipn BeginOfResName A ++ G ++ R).
    split; [|split; [reflexivity|]].
    + rewrite Hp. f_equal.
      * f_equal. f_equal. unfold G. rewrite !length_app. simpl. lia.
      * replace (A ++ lit ", i32 " ++ to_string (Space (snd k))
                   ++ lit ", i32 " ++ to_string (BindPoint (snd k)) ++ R)
          with (A ++ G ++ R) by (unfold G; now rewrite <- !app_assoc).
        rewrite firstn_app, skipn_app.
        replace (BeginOfResName - length A) with 0 by lia.
        simpl. rewrite app_nil_r. now rewrite <- !app_assoc.
    + set (T := firstn BeginOfResName A ++ fst k
                ++ skipn BeginOfResName A ++ G).
      replace (firstn BeginOfResName A ++ fst k
                 ++ skipn BeginOfResName A ++ G ++ R)
        with (T ++ R) by (unfold T; now rewrite <- !app_assoc).
      replace (length (A ++ G) + length (fst k)) with (length T).
      * apply skipn_app_exact.
      * unfold T. rewrite !length_app, length_firstn, length_skipn. lia.
  - exact PatchResourceHandle_step_resumes_at_old_comma.
Qed.

Lemma C8_positions_after_edits_witness :
  at_ Examples.call_with_index_7 75 = ","%char /\
  PatchResourceHandle_step [(Examples.g_Array, Examples.g_Array_ext)] 0
    Examples.call_with_index_7
  = Ret (Continue 75) Examples.call_with_index_12.
Proof.
  assert (H : PatchResourceHandle_step
                [(Examples.g_Array, Examples.g_Array_ext)] 0
                Examples.call_with_index_7
              = Ret (Continue 75) Examples.call_with_index_12)
    by (vm_compute; reflexivity).
  split; [|exact H].
  exact (proj2 (proj2 C8_positions_after_edits) _ _ _ _ _ H).
Defined.

(** C8 in the wording of the specification fails.
    After the generic declaration patcher has
    inserted the name [g_Tex], the scan position it returns, computed
    before the insertion, lies five characters before the end of the
    register field it has just rewritten. After the createHandle patcher
    has replaced the index 7 by 12, the position it returns, the end of
    the index before the replacement, lies inside the new literal. *)
Lemma C8_counterexample :
  (exists ExtResMap',
      PatchResourceDeclaration_step [(Examples.g_Tex, Examples.g_Tex_ext)] 0
        Examples.unnamed_record
      = Ret (ExtResMap', Continue 65) Examples.unnamed_record_patched) /\
  skipn 65 Examples.unnamed_record_patched = ir "i32 3, i32 1}|" /\
  skipn (65 + 5) Examples.unnamed_record_patched = ir ", i32 1}|" /\
  PatchResourceHandle_step [(Examples.g_Array, Examples.g_Array_ext)] 0
    Examples.call_with_index_7
  = Ret (Continue 75) Examples.call_with_index_12 /\
  skipn 75 Examples.call_with_index_12 = ir "2, i1 false)|".
Proof.
  split; [eexists; vm_compute; reflexivity|].
  repeat split; vm_compute; reflexivity.
Qed.

(* ================================================================== *)
(** * Progress and termination of the scans *)
(* ================================================================== *)

Section ReflectedNames.

Lemma plain_names_app m k e :
  plain_names m -> bangs (fst k) = 0 -> plain_names (m ++ [(k, e)]).
Proof.
  unfold plain_names. intros Hm Hk. apply Forall_app. split; auto.
Qed.

Lemma plain_names_ext_set_source m k bind space ty :
  plain_names m -> plain_names (ext_set_source m k bind space ty).
Proof.
  unfold plain_names. induction 1 as [|[k0 e0] m Hk Hm IH]; simpl; auto.
  destruct (same_key k k0); constructor; auto.
Qed.

(** The names of the extended map are names that reflection knows. *)
Lemma build_ExtResourceMap_plain_names refl ResourceMap acc ExtResourceMap :
  (forall r, In r ResourceMap ->
     GetResourceBindingDescByName refl (fst r) <> None ->
     bangs (fst r) = 0) ->
  plain_names acc ->
  build_ExtResourceMap refl ResourceMap acc = Some ExtResourceMap ->
  plain_names ExtResourceMap.
Proof.
  revert acc. induction ResourceMap as [|r rest IH]; intros acc Hn Hacc;
    simpl.
  - intros H; inversion H; subst. exact Hacc.
  - destruct (GetResourceBindingDescByName refl (fst r)) as [d|] eqn:Hd.
    + destruct (res_type_of_input (Desc_Type d)) as [ty|]; [|discriminate].
      apply IH.
      * intros r' Hr'. apply Hn. now right.
      * apply plain_names_ext_set_source. unfold ext_entry.
        destruct (ext_lookup acc r); cbn [snd]; auto.
        apply plain_names_app; auto. apply Hn; [now left|].
        rewrite Hd. discriminate.
    + apply IH; auto. intros r' Hr'. apply Hn. now right.
Qed.

End ReflectedNames.

Section EnoughBudget.

(** A budget that is not used up can be raised without a change. *)
Lemma PatchResourceDeclaration_loop_more fuel fuel' ExtResMap pos DXIL :
  fuel <= fuel' ->
  PatchResourceDeclaration_loop fuel ExtResMap pos DXIL <> OutOfFuel ->
  PatchResourceDeclaration_loop fuel' ExtResMap pos DXIL
  = PatchResourceDeclaration_loop fuel ExtResMap pos DXIL.
Proof.
  revert fuel' ExtResMap pos DXIL.
  induction fuel as [|fuel IH]; intros fuel' ExtResMap pos DXIL Hle H;
    [now contradiction H|].
  destruct fuel' as [|fuel']; [lia|].
  cbn [PatchResourceDeclaration_loop] in *.
  unfold bind at 1 in H. unfold bind at 1. unfold bind at 2.
  unfold get in *.
  destruct (negb (pos <? length DXIL)); [reflexivity|].
  unfold bind in *.
  destruct (PatchResourceDeclaration_step ExtResMap pos DXIL)
    as [[m' [pos'|]] DXIL'| | |]; try reflexivity.
  apply IH; [lia|exact H].
Qed.

(** The passes of [PatchDXIL] end: from some budget on, none is used
    up. *)
Lemma PatchDXIL_ends ResourceMap ExtResMap ShaderType DXIL :
  plain_names ExtResMap ->
  exists fuel0, forall fuel,
    fuel0 <= fuel ->
    PatchDXIL fuel ResourceMap ExtResMap ShaderType DXIL <> OutOfFuel.
Proof.
  intros Hpl.
  assert (Body : forall fuel,
             PatchDXIL_body fuel ResourceMap ExtResMap ShaderType DXIL
             <> OutOfFuel ->
             PatchDXIL fuel ResourceMap ExtResMap ShaderType DXIL
             <> OutOfFuel).
  { intros fuel H. unfold PatchDXIL.
    destruct (PatchDXIL_body fuel ResourceMap ExtResMap ShaderType DXIL)
      as [[] s| | |]; try discriminate. now contradiction H. }
  destruct (is_ray_tracing ShaderType) eqn:Hrt.
  - exists 0. intros fuel _. apply Body. unfold PatchDXIL_body.
    rewrite Hrt. apply fuel_free_bind.
    + apply fuel_free_PatchResourceDeclarationRT.
    + intros. apply fuel_free_ret.
  - set (fuel1 := S (bangs DXIL)).
    assert (H1 : PatchResourceDeclaration fuel1 ExtResMap DXIL
                 <> OutOfFuel).
    { unfold PatchResourceDeclaration.
      apply PatchResourceDeclaration_loop_ends; auto;
        unfold fuel1; simpl; lia. }
    assert (Same : forall fuel,
               fuel1 <= fuel ->
               PatchResourceDeclaration fuel ExtResMap DXIL
               = PatchResourceDeclaration fuel1 ExtResMap DXIL).
    { intros fuel Hle. unfold PatchResourceDeclaration in *.
      now apply PatchResourceDeclaration_loop_more. }
    destruct (PatchResourceDeclaration fuel1 ExtResMap DXIL)
      as [m' DXIL'|msg t| |] eqn:E; [| | |now contradiction H1].
    + exists (Nat.max fuel1 (S (length DXIL'))). intros fuel Hle.
      apply Body. unfold PatchDXIL_body. rewrite Hrt. unfold bind.
      rewrite (Same fuel) by lia.
      unfold PatchResourceHandle. apply PatchResourceHandle_loop_ends. lia.
    + exists fuel1. intros fuel Hle. apply Body.
      unfold PatchDXIL_body. rewrite Hrt. unfold bind.
      rewrite (Same fuel Hle). discriminate.
    + exists fuel1. intros fuel Hle. apply Body.
      unfold PatchDXIL_body. rewrite Hrt. unfold bind.
      rewrite (Same fuel Hle). discriminate.
Qed.

(** A remap ends when the names that reflection knows are plain. *)
Lemma RemapResourceBindings_ends backend ResourceMap pSrcBytecode :
  (forall refl r,
     GetD3D12ShaderReflection backend pSrcBytecode = Some refl ->
     In r ResourceMap ->
     GetResourceBindingDescByName refl (fst r) <> None ->
     bangs (fst r) = 0) ->
  exists fuel0, forall fuel,
    fuel0 <= fuel ->
    RemapResourceBindings backend fuel ResourceMap pSrcBytecode
    <> RemapOutOfFuel.
Proof.
  intros Hn. unfold RemapResourceBindings.
  destruct (negb (loaded backend)); [exists 0; discriminate|].
  destruct (negb (library_created backend)); [exists 0; discriminate|].
  destruct (negb (assembler_created backend)); [exists 0; discriminate|].
  destruct (negb (compiler_created backend)); [exists 0; discriminate|].
  destruct (Disassemble backend pSrcBytecode) as [disasm|];
    [|exists 0; discriminate].
  destruct (GetD3D12ShaderReflection backend pSrcBytecode) as [refl|]
    eqn:Hr; [|exists 0; discriminate].
  destruct (build_ExtResourceMap refl ResourceMap []) as [ext|] eqn:Hb;
    [|exists 0; discriminate].
  assert (Hpl : plain_names ext).
  { apply (build_ExtResourceMap_plain_names refl ResourceMap [] ext);
      [|constructor|exact Hb].
    intros r. now apply Hn. }
  destruct (PatchDXIL_ends ResourceMap ext (shader_type_of (ShType refl))
              disasm Hpl) as (fuel0 & H0).
  exists fuel0. intros fuel Hle. specialize (H0 fuel Hle).
  destruct (PatchDXIL fuel ResourceMap ext (shader_type_of (ShType refl))
              disasm) as [[|] dxilAsm|msg t| |];
    try discriminate; [|now contradiction H0].
  destruct (negb (CreateBlobWithEncodingFromPinned backend dxilAsm));
    [discriminate|].
  destruct (AssembleToContainer backend dxilAsm); try discriminate.
  destruct (ValidateAndSign backend compiled). discriminate.
Qed.

End EnoughBudget.

(** C9. Every iteration of the generic declaration scan and of the
    createHandle scan that goes on resumes at a strictly greater
    position, on every buffer and every map. The createHandle pass ends
    on every input: a budget above the length of the buffer is never used
    up. The ray-tracing declaration pass, a loop over the resource map,
    uses no budget. The generic declaration pass ends on every buffer: a
    budget above the number of exclamation marks of the buffer is never
    used up. The resource names of the extended map are names that
    reflection knows for the shader, identifiers, which hold no
    exclamation mark; the extended map that the remap builds from such
    names is of this kind. So the passes of [PatchDXIL] end, and with
    them the remap: from some budget on, none is used up. *)
Theorem C9_scans_advance :
  (forall ExtResMap pos DXIL ExtResMap' pos' DXIL',
      PatchResourceDeclaration_step ExtResMap pos DXIL
      = Ret (ExtResMap', Continue pos') DXIL' ->
      pos < pos') /\
  (forall ExtResMap pos DXIL pos' DXIL',
      PatchResourceHandle_step ExtResMap pos DXIL
      = Ret (Continue pos') DXIL' ->
      pos < pos') /\
  (forall fuel ExtResMap DXIL,
      length DXIL < fuel ->
      PatchResourceHandle fuel ExtResMap DXIL <> OutOfFuel) /\
  (forall ResourceMap ExtResMap DXIL,
      PatchResourceDeclarationRT ResourceMap ExtResMap DXIL <> OutOfFuel) /\
  (forall fuel ExtResMap DXIL,
      plain_names ExtResMap -> bangs DXIL < fuel ->
      PatchResourceDeclaration fuel ExtResMap DXIL <> OutOfFuel) /\
  (forall refl ResourceMap ExtResourceMap,
      (forall r, In r ResourceMap ->
         GetResourceBindingDescByName refl (fst r) <> None ->
         bangs (fst r) = 0) ->
      build_ExtResourceMap refl ResourceMap [] = Some ExtResourceMap ->
      plain_names ExtResourceMap) /\
  (forall ResourceMap ExtResMap ShaderType DXIL,
      plain_names ExtResMap ->
      exists fuel0, forall fuel,
        fuel0 <= fuel ->
        PatchDXIL fuel ResourceMap ExtResMap ShaderType DXIL <> OutOfFuel) /\
  (forall backend ResourceMap pSrcBytecode,
      (forall refl r,
         GetD3D12ShaderReflection backend pSrcBytecode = Some refl ->
         In r ResourceMap ->
         GetResourceBindingDescByName refl (fst r) <> None ->
         bangs (fst r) = 0) ->
      exists fuel0, forall fuel,
        fuel0 <= fuel ->
        RemapResourceBindings backend fuel ResourceMap pSrcBytecode
        <> RemapOutOfFuel).
Proof.
  split; [|split; [|split; [|split; [|split; [|split; [|split]]]]]].
  - intros ExtResMap pos DXIL ExtResMap' pos' DXIL' H.
    now apply PatchResourceDeclaration_step_progress in H.
  - intros ExtResMap pos DXIL pos' DXIL' H.
    apply PatchResourceHandle_step_Continue in H
      as (c & Hfind & Hpos & _).
    apply find_spec in Hfind as (Hc & _). lia.
  - intros fuel ExtResMap DXIL Hf. unfold PatchResourceHandle.
    apply PatchResourceHandle_loop_ends. lia.
  - intros. apply fuel_free_PatchResourceDeclarationRT.
  - intros fuel ExtResMap DXIL Hpl Hf. unfold PatchResourceDeclaration.
    apply PatchResourceDeclaration_loop_ends; auto.
  - intros refl ResourceMap ExtResourceMap Hn Hb.
    apply (build_ExtResourceMap_plain_names refl ResourceMap []
             ExtResourceMap Hn); [constructor|exact Hb].
  - exact PatchDXIL_ends.
  - exact RemapResourceBindings_ends.
Qed.

Lemma C9_scans_advance_witness :
  (PatchResourceHandle_step [(Examples.g_Array, Examples.g_Array_ext)] 0
     Examples.call_with_index_7
   = Ret (Continue 75) Examples.call_with_index_12 /\
   0 < 75) /\
  PatchResourceDeclaration 4 [(Examples.g_Tex, Examples.g_Tex_ext)]
    Examples.unnamed_record <> OutOfFuel /\
  PatchResourceHandle 200 [(Examples.g_Tex, Examples.g_Tex_ext)]
    Examples.g_Tex_module <> OutOfFuel /\
  exists fuel0, forall fuel,
    fuel0 <= fuel ->
    RemapResourceBindings
      (Examples.backend_of Examples.g_Tex_module (Examples.reflection_of 0))
      fuel [Examples.g_Missing; Examples.g_Tex] []
    <> RemapOutOfFuel.
Proof.
  assert (H : PatchResourceHandle_step
                [(Examples.g_Array, Examples.g_Array_ext)] 0
                Examples.call_with_index_7
              = Ret (Continue 75) Examples.call_with_index_12)
    by (vm_compute; reflexivity).
  split; [split; [exact H|]|split; [|split]].
  - exact (proj1 (proj2 C9_scans_advance) _ _ _ _ _ H).
  - apply (proj1 (proj2 (proj2 (proj2 (proj2 C9_scans_advance))))).
    + repeat constructor.
    + vm_compute. lia.
  - apply (proj1 (proj2 (proj2 C9_scans_advance))). vm_compute. lia.
  - apply (proj2 (proj2 (proj2 (proj2 (proj2 (proj2 (proj2
             C9_scans_advance))))))).
    intros refl r _ [<-|[<-|[]]] _; reflexivity.
Defined.
(* ================================================================== *)
(** * Decimal numbers written and read back *)
(* ================================================================== *)

Section NumberFacts.

Lemma digit_is_plain c :
  IsNumberSymbol c = true ->
  mem c NumberSymbols = true /\ isspace c = false /\
  Ascii.eqb c "-" = false /\ Ascii.eqb c "+" = false.
Proof.
  destruct c as [[] [] [] [] [] [] [] []]; vm_compute; intros H;
    try discriminate; auto.
Qed.

Lemma digit_char_spec d :
  (0 <= d <= 9)%Z ->
  IsNumberSymbol (digit_char d) = true /\ digit_val (digit_char d) = d.
Proof.
  intros H.
  assert (C : (d = 0 \/ d = 1 \/ d = 2 \/ d = 3 \/ d = 4 \/ d = 5 \/ d = 6
               \/ d = 7 \/ d = 8 \/ d = 9)%Z) by lia.
  repeat destruct C as [->|C]; try subst d; split; reflexivity.
Qed.

Lemma digits_value_app ds r a :
  digits ds -> digits_value (ds ++ r) a = digits_value r (digits_value ds a).
Proof.
  intros H. revert a. induction H as [|c ds Hc _ IH]; intros a; simpl; auto.
  now rewrite Hc, IH.
Qed.

Lemma digits_value_all ds a c :
  digits ds -> IsNumberSymbol c = true ->
  digits_value (ds ++ [c]) a = (digits_value ds a * 10 + digit_val c)%Z.
Proof.
  intros H Hc. rewrite digits_value_app by assumption.
  cbn [digits_value]. now rewrite Hc.
Qed.

(** [dec_digits] puts the decimal digits of [n] in front of [acc]. *)
Lemma dec_digits_spec fuel n acc :
  (0 <= n < 10 ^ Z.of_nat fuel)%Z -> 0 < fuel ->
  exists ds,
    dec_digits fuel n acc = ds ++ acc /\ digits ds /\ ds <> [] /\
    forall a, digits_value ds a = (a * 10 ^ Z.of_nat (length ds) + n)%Z.
Proof.
  revert n acc. induction fuel as [|fuel IH]; intros n acc Hn Hf; [lia|].
  cbn [dec_digits].
  assert (Hd : (0 <= n mod 10 <= 9)%Z)
    by (pose proof (Z.mod_pos_bound n 10); lia).
  destruct (digit_char_spec _ Hd) as [D1 D2].
  destruct (n / 10 =? 0)%Z eqn:E.
  - apply Z.eqb_eq in E.
    assert (n mod 10 = n)%Z.
    { pose proof (Z.div_mod n 10). lia. }
    exists [digit_char (n mod 10)]. repeat split; auto.
    + constructor; [exact D1|constructor].
    + discriminate.
    + intros a. cbn [digits_value length]. rewrite D1, D2.
      change (10 ^ Z.of_nat 1)%Z with 10%Z. lia.
  - apply Z.eqb_neq in E.
    assert (Hq : (0 <= n / 10 < 10 ^ Z.of_nat fuel)%Z).
    { split; [apply Z.div_pos; lia|].
      apply Z.div_lt_upper_bound; [lia|].
      rewrite Nat2Z.inj_succ, Z.pow_succ_r in Hn by lia. lia. }
    assert (Hf' : 0 < fuel).
    { destruct fuel; [|lia]. change (10 ^ Z.of_nat 0)%Z with 1%Z in Hq.
      lia. }
    destruct (IH (n / 10)%Z (digit_char (n mod 10) :: acc) Hq Hf')
      as (ds & -> & Hds & Hne & Hv).
    exists (ds ++ [digit_char (n mod 10)]). repeat split.
    + now rewrite <- app_assoc.
    + apply Forall_app. split; [exact Hds|].
      constructor; [exact D1|constructor].
    + destruct ds; discriminate.
    + intros a. rewrite digits_value_all by assumption.
      rewrite Hv, D2, length_app. cbn [length].
      rewrite Nat2Z.inj_add. change (Z.of_nat 1) with 1%Z.
      rewrite Z.pow_add_r, Z.pow_1_r by lia.
      pose proof (Z.div_mod n 10). lia.
Qed.

(** What [std::to_string] writes for a [Uint32]: its decimal digits. *)
Lemma to_string_spec n :
  exists ds,
    to_string n = ds /\ digits ds /\ ds <> [] /\
    digits_value ds 0 = u32 n.
Proof.
  unfold to_string.
  assert (Hn : (0 <= u32 n < 10 ^ Z.of_nat 10)%Z).
  { unfold u32, two32. pose proof (Z.mod_pos_bound n 4294967296).
    change (10 ^ Z.of_nat 10)%Z with 10000000000%Z. lia. }
  destruct (dec_digits_spec 10 (u32 n) [] Hn) as (ds & E & Hd & Hne & Hv);
    [lia|].
  rewrite app_nil_r in E. exists ds.
  split; [exact E|]. split; [exact Hd|]. split; [exact Hne|].
  rewrite Hv. lia.
Qed.

Lemma digits_number_symbols ds : digits ds -> number_symbols ds.
Proof.
  unfold digits, number_symbols. intros H.
  eapply Forall_impl; [|exact H]. intros c Hc.
  now apply digit_is_plain in Hc.
Qed.

Lemma to_string_number_symbols n : number_symbols (to_string n).
Proof.
  destruct (to_string_spec n) as (ds & -> & Hd & _).
  now apply digits_number_symbols.
Qed.

Lemma read_integer_digits ds :
  digits ds -> ds <> [] -> read_integer ds = Some (digits_value ds 0).
Proof.
  intros Hd Hne. destruct ds as [|c ds]; [congruence|].
  inversion Hd as [|? ? Hc _]; subst.
  destruct (digit_is_plain c Hc) as (_ & Hs & Hm & Hp).
  unfold read_integer. cbn [skip_spaces]. rewrite Hs, Hm, Hp, Hc.
  reflexivity.
Qed.

(** [std::stoi(std::to_string(n))] for a [Uint32] [n]: the value comes
    back when it is an [int], and [std::out_of_range] is thrown
    otherwise. *)
Lemma stoi_to_string n :
  stoi (to_string n)
  = if (u32 n <=? 2147483647)%Z then StoiValue (u32 n) else StoiOutOfRange.
Proof.
  destruct (to_string_spec n) as (ds & -> & Hd & Hne & Hv).
  unfold stoi. rewrite read_integer_digits, Hv by assumption.
  unfold in_int_range.
  assert (0 <= u32 n)%Z
    by (unfold u32, two32; pose proof (Z.mod_pos_bound n 4294967296); lia).
  replace (-2147483648 <=? u32 n)%Z with true
    by (symmetry; apply Z.leb_le; lia).
  reflexivity.
Qed.

End NumberFacts.
(* ================================================================== *)
(** * ReplaceRecord: errors and repeated patching *)
(* ================================================================== *)

(** [ReplaceRecord] writes last. Whatever the buffer and the position,
    the call returns or throws; when it throws, the buffer is as it was
    and the exception is one of five: the two shape errors and the
    mismatch error, which carry the resource name, or one of the two
    exceptions of [std::stoi]. The first shape error is raised exactly
    when there is no [", "] at the position, the second when [", "] is
    not followed by ["i32 "]. *)
Theorem ReplaceRecord_throws_before_writing :
  forall pos NewValue Name RecordName Expected DXIL,
    let not_found :=
      resource_error Name (RecordName ++ lit " record is not found") in
    let wrong_type :=
      resource_error Name
        (lit "unexpected " ++ RecordName ++ lit " record type") in
    let run := ReplaceRecord pos NewValue Name RecordName Expected DXIL in
    ((exists pos' DXIL', run = Ret pos' DXIL') \/
     (exists msg,
        run = Throw msg DXIL /\
        In msg [not_found; wrong_type;
                resource_error Name mismatch_message;
                lit "std::invalid_argument"; lit "std::out_of_range"])) /\
    (comma_space_at DXIL pos = false <-> run = Throw not_found DXIL) /\
    (comma_space_at DXIL pos = true /\
     starts_with i32 (skipn (pos + 2) DXIL) = false
     <-> run = Throw wrong_type DXIL).
Proof.
  intros pos NewValue Name RecordName Expected DXIL not_found wrong_type run.
  assert (N : not_found <> wrong_type).
  { unfold not_found, wrong_type, resource_error. intros E.
    apply (f_equal (@length ascii)) in E.
    rewrite !length_app in E. simpl in E. lia. }
  destruct (comma_space_at DXIL pos) eqn:Hc.
  2:{ assert (R : run = Throw not_found DXIL).
      { unfold run, ReplaceRecord, bind, get, check. now rewrite Hc. }
      rewrite R. split; [|split].
      - right. exists not_found. split; [reflexivity|]. simpl. auto.
      - split; auto.
      - split; [intros [? _]; discriminate|].
        intros E. inversion E. congruence. }
  destruct (starts_with i32 (skipn (pos + 2) DXIL)) eqn:Hs.
  2:{ assert (R : run = Throw wrong_type DXIL).
      { unfold run, ReplaceRecord, bind, get, check, ret, throw.
        now rewrite Hc, Hs. }
      rewrite R. split; [|split].
      - right. exists wrong_type. split; [reflexivity|]. simpl. auto.
      - split; [discriminate|]. intros E. inversion E. congruence.
      - split; auto. }
  destruct (record_decompose _ _ Hc Hs) as (A & field & R & E & <- & Hf & HR).
  assert (Run : run =
    match stoi field with
    | StoiValue z =>
        if (u32 z =? Expected)%Z
        then Ret (length A + 2 + length i32 + length NewValue)
                 (A ++ lit ", i32 " ++ NewValue ++ R)
        else Throw (resource_error Name mismatch_message) DXIL
    | StoiInvalidArgument => Throw (lit "std::invalid_argument") DXIL
    | StoiOutOfRange => Throw (lit "std::out_of_range") DXIL
    end).
  { unfold run. subst DXIL. now apply ReplaceRecord_on_field. }
  assert (M : resource_error Name mismatch_message <> not_found /\
              resource_error Name mismatch_message <> wrong_type).
  { unfold not_found, wrong_type, resource_error, mismatch_message.
    split; intros E'; do 3 apply app_inv_head in E'.
    - apply (f_equal (@rev ascii)) in E'. rewrite rev_app_distr in E'.
      simpl in E'. discriminate.
    - discriminate. }
  assert (S1 : lit "std::invalid_argument" <> not_found /\
               lit "std::invalid_argument" <> wrong_type /\
               lit "std::out_of_range" <> not_found /\
               lit "std::out_of_range" <> wrong_type).
  { unfold not_found, wrong_type, resource_error. repeat split; discriminate. }
  destruct M as [M1 M2]. destruct S1 as (S1 & S2 & S3 & S4).
  split; [|split].
  - rewrite Run. destruct (stoi field) as [z| |].
    + destruct (u32 z =? Expected)%Z; [left; eauto|].
      right. eexists. split; [reflexivity|]. simpl. auto.
    + right. eexists. split; [reflexivity|]. simpl. auto.
    + right. eexists. split; [reflexivity|]. simpl. auto 6.
  - split; [discriminate|]. rewrite Run.
    destruct (stoi field) as [z| |]; [destruct (u32 z =? Expected)%Z|..];
      intros E'; inversion E'; congruence.
  - split; [intros [_ ?]; discriminate|]. rewrite Run.
    destruct (stoi field) as [z| |]; [destruct (u32 z =? Expected)%Z|..];
      intros E'; inversion E'; congruence.
Qed.

(** What [ReplaceRecord] writes it reads back, as long as the value is
    an [int]. A field that holds the decimal text of [v] is rewritten to
    [w]; a second call that expects [w] and writes [v] restores the
    buffer when [w] is below 2^31, and throws [std::out_of_range] from
    [std::stoi] when [w] is 2^31 or more: a field rewritten to such a
    value cannot be patched again. *)
Theorem ReplaceRecord_twice :
  forall A R v w Name RecordName,
    (0 <= v < 2 ^ 31)%Z -> (0 <= w < 2 ^ 32)%Z -> ends_number R = true ->
    let DXIL := A ++ lit ", i32 " ++ to_string v ++ R in
    let DXIL1 := A ++ lit ", i32 " ++ to_string w ++ R in
    ReplaceRecord (length A) (to_string w) Name RecordName v DXIL
    = Ret (length A + 6 + length (to_string w)) DXIL1 /\
    ReplaceRecord (length A) (to_string v) Name RecordName w DXIL1
    = if (w <? 2 ^ 31)%Z
      then Ret (length A + 6 + length (to_string v)) DXIL
      else Throw (lit "std::out_of_range") DXIL1.
Proof.
  intros A R v w Name RecordName Hv Hw HR DXIL DXIL1.
  assert (Uv : u32 v = v) by (apply Z.mod_small; unfold two32; lia).
  assert (Uw : u32 w = w) by (apply Z.mod_small; unfold two32; lia).
  change (2 ^ 31)%Z with 2147483648%Z in *.
  assert (L : forall s : Str, length A + 2 + length i32 + length s
                              = length A + 6 + length s)
    by (intros; simpl; lia).
  split.
  - unfold DXIL. rewrite ReplaceRecord_on_field
      by (auto using to_string_number_symbols).
    rewrite stoi_to_string, Uv.
    replace (v <=? 2147483647)%Z with true by (symmetry; apply Z.leb_le; lia).
    rewrite Uv, Z.eqb_refl, L. reflexivity.
  - unfold DXIL1. rewrite ReplaceRecord_on_field
      by (auto using to_string_number_symbols).
    rewrite stoi_to_string, Uw.
    destruct (w <? 2147483648)%Z eqn:E.
    + apply Z.ltb_lt in E.
      replace (w <=? 2147483647)%Z with true
        by (symmetry; apply Z.leb_le; lia).
      rewrite Uw, Z.eqb_refl, L. reflexivity.
    + apply Z.ltb_ge in E.
      replace (w <=? 2147483647)%Z with false
        by (symmetry; apply Z.leb_gt; lia).
      reflexivity.
Qed.

Lemma ReplaceRecord_twice_witness :
  ReplaceRecord 3 (lit "12") (lit "g_Tex") (lit "space") 7
    (lit "!'x, i32 7, i32 0")
  = Ret 11 (lit "!'x, i32 12, i32 0") /\
  ReplaceRecord 3 (lit "7") (lit "g_Tex") (lit "space") 12
    (lit "!'x, i32 12, i32 0")
  = Ret 10 (lit "!'x, i32 7, i32 0").
Proof.
  exact (ReplaceRecord_twice (lit "!'x") (lit ", i32 0") 7 12 (lit "g_Tex")
           (lit "space") ltac:(lia) ltac:(lia) eq_refl).
Defined.
(* ================================================================== *)
(** * The extended resource map *)
(* ================================================================== *)

Section ExtendedMapFacts.

Lemma Str_eqb_eq a b : Str_eqb a b = true <-> a = b.
Proof.
  unfold Str_eqb. destruct (list_eq_dec ascii_dec a b); split; auto.
  discriminate.
Qed.

Lemma same_key_refl k : same_key k k = true.
Proof. now apply Str_eqb_eq. Qed.

Lemma same_key_fst k k' : same_key k k' = true <-> fst k = fst k'.
Proof. apply Str_eqb_eq. Qed.

Lemma ext_lookup_same_key m k k' :
  same_key k k' = true -> ext_lookup m k = ext_lookup m k'.
Proof.
  intros H. apply same_key_fst in H.
  induction m as [|[k0 e0] m IH]; simpl; auto.
  unfold same_key in *. now rewrite H, IH.
Qed.

Lemma ext_lookup_app m k0 e0 k :
  ext_lookup (m ++ [(k0, e0)]) k =
  match ext_lookup m k with
  | Some e => Some e
  | None => if same_key k k0 then Some e0 else None
  end.
Proof.
  induction m as [|[k1 e1] m IH]; simpl; auto.
  destruct (same_key k k1); auto.
Qed.

(** [ExtResMap[&ResPair]] keeps the entries that are there and adds a
    default entry for a resource that has none. *)
Lemma ext_lookup_ext_entry m k k' :
  ext_lookup (snd (ext_entry m k)) k' =
  match ext_lookup m k' with
  | Some e => Some e
  | None => if same_key k' k then Some ResourceExtendedInfo_default else None
  end.
Proof.
  unfold ext_entry. destruct (ext_lookup m k) as [e|] eqn:E; cbn [snd].
  - destruct (ext_lookup m k') as [e'|] eqn:E'; auto.
    destruct (same_key k' k) eqn:S; auto.
    rewrite (ext_lookup_same_key m k' k S) in E'. congruence.
  - apply ext_lookup_app.
Qed.

Lemma ext_set_source_app_miss m k e0 bind space ty :
  ext_lookup m k = None ->
  ext_set_source (m ++ [(k, e0)]) k bind space ty
  = m ++ [(k, {| SrcBindPoint := bind; SrcSpace := space;
                 RecordId := RecordId e0; Type_ := ty |})].
Proof.
  induction m as [|[k1 e1] m IH]; simpl.
  - now rewrite same_key_refl.
  - destruct (same_key k k1); [discriminate|].
    intros H. now rewrite IH.
Qed.

End ExtendedMapFacts.

Section BuilderEntries.

(** With the map kept in the order of insertion, the loop lists the
    requests that reflection knows. *)
Lemma build_ExtResourceMap_flat :
  forall refl ResourceMap ExtResourceMap,
    NoDup (map fst ResourceMap) ->
    build_ExtResourceMap refl ResourceMap [] = Some ExtResourceMap ->
    ExtResourceMap = flat_map (reflected_entry refl) ResourceMap.
Proof.
  intros refl ResourceMap.
  assert (G : forall acc m,
             NoDup (map fst ResourceMap) ->
             (forall k, In k ResourceMap -> ext_lookup acc k = None) ->
             build_ExtResourceMap refl ResourceMap acc = Some m ->
             m = acc ++ flat_map (reflected_entry refl) ResourceMap).
  { induction ResourceMap as [|k rest IH]; intros acc m Hnd Hacc; simpl.
    - intros H; inversion H. now rewrite app_nil_r.
    - inversion Hnd as [|? ? Hk Hnd']; subst.
      unfold reflected_entry at 1.
      destruct (GetResourceBindingDescByName refl (fst k)) as [d|] eqn:Hd.
      + destruct (res_type_of_input (Desc_Type d)) as [ty|] eqn:Hty;
          [|discriminate].
        unfold ext_entry. rewrite (Hacc k) by (left; reflexivity).
        cbn [snd]. rewrite ext_set_source_app_miss
          by (apply Hacc; left; reflexivity).
        intros H. apply IH in H; auto.
        * rewrite H, <- app_assoc. reflexivity.
        * intros k' Hk'. rewrite ext_lookup_app, (Hacc k') by (now right).
          destruct (same_key k' k) eqn:S; auto.
          apply same_key_fst in S. exfalso. apply Hk. rewrite <- S.
          now apply in_map.
      + intros H. apply IH in H; auto.
        intros k' Hk'. apply Hacc. now right. }
  intros m Hnd H. apply (G [] m Hnd); auto.
Qed.

Lemma reflected_entry_key refl r k e :
  In (k, e) (reflected_entry refl r) ->
  k = r /\ GetResourceBindingDescByName refl (fst r) <> None.
Proof.
  unfold reflected_entry.
  destruct (GetResourceBindingDescByName refl (fst r)) as [d|]; [|intros []].
  destruct (res_type_of_input (Desc_Type d)); [|intros []].
  intros [H|[]]. inversion H; subst. split; [reflexivity|discriminate].
Qed.

Lemma flat_map_reflected_key refl ResourceMap k e :
  In (k, e) (flat_map (reflected_entry refl) ResourceMap) ->
  In k ResourceMap /\ GetResourceBindingDescByName refl (fst k) <> None.
Proof.
  intros H. apply in_flat_map in H as (r & Hr & H).
  apply reflected_entry_key in H as [-> H]. auto.
Qed.

Lemma ext_lookup_In m k e :
  ext_lookup m k = Some e -> exists k', In (k', e) m /\ fst k' = fst k.
Proof.
  induction m as [|[k0 e0] m IH]; simpl; [discriminate|].
  destruct (same_key k k0) eqn:S.
  - intros H; inversion H; subst. exists k0. split; [now left|].
    apply same_key_fst in S. now rewrite S.
  - intros H. destruct (IH H) as (k' & Hin & Hk). exists k'. auto.
Qed.

Lemma ext_lookup_flat_map_miss refl ResourceMap k :
  ~ In (fst k) (map fst ResourceMap) ->
  ext_lookup (flat_map (reflected_entry refl) ResourceMap) k = None.
Proof.
  intros Hk.
  destruct (ext_lookup (flat_map (reflected_entry refl) ResourceMap) k)
    as [e|] eqn:E; [|reflexivity].
  apply ext_lookup_In in E as (k' & Hin & Hf).
  apply flat_map_reflected_key in Hin as [Hin _].
  exfalso. apply Hk. rewrite <- Hf. now apply in_map.
Qed.

Lemma ext_lookup_flat_map refl ResourceMap k :
  NoDup (map fst ResourceMap) -> In k ResourceMap ->
  ext_lookup (flat_map (reflected_entry refl) ResourceMap) k
  = option_map snd (hd_error (reflected_entry refl k)).
Proof.
  induction ResourceMap as [|r rest IH]; intros Hnd Hin; [destruct Hin|].
  inversion Hnd as [|? ? Hr Hnd']; subst. cbn [flat_map].
  destruct Hin as [->|Hin].
  - unfold reflected_entry at 1 3.
    destruct (GetResourceBindingDescByName refl (fst k)) as [d|];
      [destruct (res_type_of_input (Desc_Type d))|]; cbn [app].
    + cbn [ext_lookup hd_error option_map snd]. now rewrite same_key_refl.
    + now apply ext_lookup_flat_map_miss.
    + now apply ext_lookup_flat_map_miss.
  - assert (S : same_key k r = false).
    { destruct (same_key k r) eqn:S; [|reflexivity].
      apply same_key_fst in S. exfalso. apply Hr. rewrite <- S.
      now apply in_map. }
    unfold reflected_entry at 1.
    destruct (GetResourceBindingDescByName refl (fst r)) as [d|];
      [destruct (res_type_of_input (Desc_Type d))|]; cbn [app];
      try (now apply IH).
    cbn [ext_lookup]. rewrite S. now apply IH.
Qed.

Lemma NoDup_flat_map_reflected refl ResourceMap :
  NoDup (map fst ResourceMap) ->
  NoDup (map (fun ResInfo => fst (fst ResInfo))
           (flat_map (reflected_entry refl) ResourceMap)).
Proof.
  induction ResourceMap as [|r rest IH]; intros Hnd; [constructor|].
  inversion Hnd as [|? ? Hr Hnd']; subst. cbn [flat_map].
  unfold reflected_entry at 1.
  destruct (GetResourceBindingDescByName refl (fst r)) as [d|];
    [destruct (res_type_of_input (Desc_Type d))|]; cbn [app map];
    try (now apply IH).
  constructor; [|now apply IH]. cbn [fst].
  intros Hin. apply in_map_iff in Hin as ([k e] & Hk & Hin).
  apply flat_map_reflected_key in Hin as [Hin _].
  apply Hr. cbn [fst] in Hk. rewrite <- Hk. now apply in_map.
Qed.

End BuilderEntries.

(** The extended map that the loop of [RemapResourceBindings] builds,
    read through its entries, not through their order. When the loop
    succeeds on a resource map, a request has an entry exactly when
    reflection knows its name; the entry holds the register and the
    space that reflection reports, the record id 0xFFFFFFFF, and the
    type CBV for a constant buffer, Sampler for a sampler, SRV for a
    texture buffer, a texture, a structured or byte address buffer or an
    acceleration structure, and UAV for the seven kinds of unordered
    access. Every entry belongs to a request that reflection knows, and
    no two entries have the same name. *)
Theorem build_ExtResourceMap_entries :
  forall refl ResourceMap ExtResourceMap,
    NoDup (map fst ResourceMap) ->
    build_ExtResourceMap refl ResourceMap [] = Some ExtResourceMap ->
    (forall NameAndBinding, In NameAndBinding ResourceMap ->
       match GetResourceBindingDescByName refl (fst NameAndBinding) with
       | None => ext_lookup ExtResourceMap NameAndBinding = None
       | Some ResDesc =>
           exists Ext,
             ext_lookup ExtResourceMap NameAndBinding = Some Ext /\
             SrcBindPoint Ext = Desc_BindPoint ResDesc /\
             SrcSpace Ext = Desc_Space ResDesc /\
             RecordId Ext = 4294967295%Z /\
             (Type_ Ext = RES_TYPE_CBV <->
              Desc_Type ResDesc = D3D_SIT_CBUFFER) /\
             (Type_ Ext = RES_TYPE_SAMPLER <->
              Desc_Type ResDesc = D3D_SIT_SAMPLER) /\
             (Type_ Ext = RES_TYPE_SRV <->
              In (Desc_Type ResDesc)
                [D3D_SIT_TBUFFER; D3D_SIT_TEXTURE; D3D_SIT_STRUCTURED;
                 D3D_SIT_BYTEADDRESS; D3D_SIT_RTACCELERATIONSTRUCTURE]) /\
             (Type_ Ext = RES_TYPE_UAV <->
              In (Desc_Type ResDesc)
                [D3D_SIT_UAV_RWTYPED; D3D_SIT_UAV_RWSTRUCTURED;
                 D3D_SIT_UAV_RWBYTEADDRESS; D3D_SIT_UAV_APPEND_STRUCTURED;
                 D3D_SIT_UAV_CONSUME_STRUCTURED;
                 D3D_SIT_UAV_RWSTRUCTURED_WITH_COUNTER;
                 D3D_SIT_UAV_FEEDBACKTEXTURE])
       end) /\
    (forall ResInfo, In ResInfo ExtResourceMap ->
       In (fst ResInfo) ResourceMap /\
       GetResourceBindingDescByName refl (fst (fst ResInfo)) <> None) /\
    NoDup (map (fun ResInfo => fst (fst ResInfo)) ExtResourceMap).
Proof.
  intros refl ResourceMap ExtResourceMap Hnd Hb.
  pose proof (build_ExtResourceMap_flat refl ResourceMap ExtResourceMap
                Hnd Hb) as ->.
  split; [|split].
  - intros k Hin. rewrite (ext_lookup_flat_map refl ResourceMap k Hnd Hin).
    unfold reflected_entry.
    destruct (GetResourceBindingDescByName refl (fst k)) as [d|] eqn:Hd;
      [|reflexivity].
    destruct (res_type_of_input (Desc_Type d)) as [ty|] eqn:Hty.
    + eexists. split; [reflexivity|]. cbn [SrcBindPoint SrcSpace RecordId
                                             Type_].
      split; [reflexivity|]. split; [reflexivity|].
      split; [reflexivity|].
      destruct (Desc_Type d); simpl in Hty; inversion Hty; subst ty;
        simpl; repeat split; intros; intuition discriminate.
    + exfalso.
      assert (N : build_ExtResourceMap refl ResourceMap [] = None).
      { apply build_ExtResourceMap_None. exists k, d. auto. }
      congruence.
  - intros [k e] Hin. cbn [fst]. now apply flat_map_reflected_key in Hin.
  - now apply NoDup_flat_map_reflected.
Qed.

Lemma build_ExtResourceMap_entries_witness :
  exists ExtResourceMap,
    build_ExtResourceMap (Examples.reflection_of 0)
      [Examples.g_Missing; Examples.g_Tex] [] = Some ExtResourceMap /\
    ext_lookup ExtResourceMap Examples.g_Missing = None /\
    exists Ext,
      ext_lookup ExtResourceMap Examples.g_Tex = Some Ext /\
      SrcBindPoint Ext = 0%Z /\ SrcSpace Ext = 2%Z /\
      RecordId Ext = 4294967295%Z /\ Type_ Ext = RES_TYPE_SRV.
Proof.
  eexists. split; [reflexivity|].
  destruct (build_ExtResourceMap_entries (Examples.reflection_of 0)
              [Examples.g_Missing; Examples.g_Tex] _
              ltac:(repeat constructor; simpl; intuition discriminate)
              eq_refl) as (H & _ & _).
  split.
  - exact (H Examples.g_Missing (or_introl eq_refl)).
  - destruct (H Examples.g_Tex (or_intror (or_introl eq_refl)))
      as (Ext & H1 & H2 & H3 & H4 & _ & _ & H5 & _).
    exists Ext. repeat split; auto.
    apply H5. right. left. reflexivity.
Defined.

(* ================================================================== *)
(** * The ray-tracing patcher and resources that the module lacks *)
(* ================================================================== *)

Section RayTracingFacts.

Lemma PatchResourceDeclarationRT_step_absent ExtResMap ResPair DXIL :
  find (DxilName ResPair) DXIL 0 = None ->
  PatchResourceDeclarationRT_step ExtResMap ResPair DXIL
  = Ret (snd (ext_entry ExtResMap ResPair)) DXIL.
Proof.
  unfold DxilName. intros H.
  unfold PatchResourceDeclarationRT_step, bind, get. cbv zeta.
  destruct (ext_entry ExtResMap ResPair) as [Ext m]. now rewrite H.
Qed.

End RayTracingFacts.

(** The ray-tracing patcher skips every resource whose quoted name is
    not in the module. When none of the requested names is there, the
    pass returns with the buffer unchanged, whatever the extended map
    says; the entries of the extended map are kept, and every requested
    resource that had none gets an entry with the default values. *)
Theorem PatchResourceDeclarationRT_skips_absent_resources :
  forall ResourceMap ExtResMap DXIL,
    (forall ResPair, In ResPair ResourceMap ->
       find (DxilName ResPair) DXIL 0 = None) ->
    exists ExtResMap',
      PatchResourceDeclarationRT ResourceMap ExtResMap DXIL
      = Ret ExtResMap' DXIL /\
      (forall k e, ext_lookup ExtResMap k = Some e ->
                   ext_lookup ExtResMap' k = Some e) /\
      (forall k, In k ResourceMap ->
         ext_lookup ExtResMap' k
         = Some (match ext_lookup ExtResMap k with
                 | Some e => e
                 | None => ResourceExtendedInfo_default
                 end)).
Proof.
  unfold PatchResourceDeclarationRT.
  induction ResourceMap as [|k rest IH]; intros m DXIL Habs.
  - exists m. repeat split; auto. intros ? [].
  - cbn [PatchResourceDeclarationRT_loop].
    set (m1 := snd (ext_entry m k)).
    destruct (IH m1 DXIL) as (m' & Hrun & Hkeep & Hall).
    { intros k' Hk'. apply Habs. now right. }
    assert (K1 : forall k0 e, ext_lookup m k0 = Some e ->
                              ext_lookup m1 k0 = Some e).
    { intros k0 e H. unfold m1. now rewrite ext_lookup_ext_entry, H. }
    exists m'. split; [|split].
    + erewrite bind_Ret; [exact Hrun|].
      apply PatchResourceDeclarationRT_step_absent. apply Habs. now left.
    + auto.
    + intros k' [<-|Hk'].
      * apply Hkeep. unfold m1. rewrite ext_lookup_ext_entry.
        destruct (ext_lookup m k); auto. now rewrite same_key_refl.
      * rewrite (Hall k' Hk'). unfold m1. rewrite ext_lookup_ext_entry.
        destruct (ext_lookup m k'); auto.
        destruct (same_key k' k); auto.
Qed.

Lemma PatchResourceDeclarationRT_skips_absent_resources_witness :
  exists ExtResMap',
    PatchResourceDeclarationRT [Examples.g_Missing; Examples.g_Array]
      [(Examples.g_Array, Examples.g_Array_ext)] Examples.g_Tex_module
    = Ret ExtResMap' Examples.g_Tex_module /\
    ext_lookup ExtResMap' Examples.g_Array = Some Examples.g_Array_ext /\
    ext_lookup ExtResMap' Examples.g_Missing
    = Some ResourceExtendedInfo_default.
Proof.
  destruct (PatchResourceDeclarationRT_skips_absent_resources
              [Examples.g_Missing; Examples.g_Array]
              [(Examples.g_Array, Examples.g_Array_ext)]
              Examples.g_Tex_module) as (m' & H1 & H2 & H3).
  - intros k [<-|[<-|[]]]; vm_compute; reflexivity.
  - exists m'. split; [exact H1|]. split.
    + apply H2. reflexivity.
    + apply (H3 Examples.g_Missing). now left.
Defined.

(* ================================================================== *)
(** * Where a rewritten index lands *)
(* ================================================================== *)

(** The index that [ReplaceBindPoint] writes lies in the range the
    resource is bound to, at the offset the source index had in the
    source range: with registers and sizes that are [Uint32] values and a
    target range [[BindPoint, BindPoint + ArraySize)] that does not pass
    2^32, the text written is the decimal text of a number [n] with
    [BindPoint <= n < BindPoint + ArraySize] and
    [n - BindPoint = SrcIndex - SrcBindPoint]. *)
Theorem ReplaceBindPoint_stays_in_target_range :
  forall ExtResMap ResClass ResType RangeId A src R z pBind pExt,
    ResClassToType ResClass = Some ResType ->
    stoi src = StoiValue z ->
    find_bind_range ExtResMap RangeId ResType (u32 z) = Some (pBind, pExt) ->
    (0 <= SrcBindPoint pExt < 2 ^ 32)%Z ->
    (0 <= ArraySize (snd pBind) < 2 ^ 32)%Z ->
    (0 <= BindPoint (snd pBind))%Z ->
    (BindPoint (snd pBind) + ArraySize (snd pBind) <= 2 ^ 32)%Z ->
    exists n,
      ReplaceBindPoint ExtResMap ResClass RangeId (length A)
        (length A + length src) (A ++ src ++ R)
      = Ret tt (A ++ to_string n ++ R) /\
      (BindPoint (snd pBind) <= n
       < BindPoint (snd pBind) + ArraySize (snd pBind))%Z /\
      (n - BindPoint (snd pBind) = u32 z - SrcBindPoint pExt)%Z /\
      digits_value (to_string n) 0 = n.
Proof.
  intros ExtResMap ResClass ResType RangeId A src R z pBind pExt
    Hc Hz Hf Hs Ha Hb Hba.
  pose proof (ReplaceBindPoint_on_index ExtResMap ResClass RangeId A src R)
    as HR.
  cbv zeta in HR. rewrite Hz, Hc, Hf in HR.
  apply find_bind_range_Some in Hf as (m1 & m2 & _ & _ & Hin).
  apply in_bind_range_spec in Hin as (_ & _ & Hlo & Hhi).
  change (2 ^ 32)%Z with 4294967296%Z in *.
  assert (Hsum : (SrcBindPoint pExt + ArraySize (snd pBind) < 4294967296)%Z).
  { destruct (Z_lt_ge_dec (SrcBindPoint pExt + ArraySize (snd pBind))
                4294967296) as [|Hge]; auto.
    exfalso.
    assert (E : ((SrcBindPoint pExt + ArraySize (snd pBind)) mod 4294967296
                 = SrcBindPoint pExt + ArraySize (snd pBind) - 4294967296)%Z).
    { symmetry. apply Z.mod_unique with (q := 1%Z); lia. }
    lia. }
  rewrite Z.mod_small in Hhi by lia.
  set (n := (BindPoint (snd pBind) + (u32 z - SrcBindPoint pExt))%Z) in *.
  exists n. split; [exact HR|]. split; [lia|]. split; [lia|].
  destruct (to_string_spec n) as (ds & -> & _ & _ & Hv).
  rewrite Hv. apply Z.mod_small. unfold two32. lia.
Qed.

Lemma ReplaceBindPoint_stays_in_target_range_witness :
  exists n,
    ReplaceBindPoint [(Examples.g_Array, Examples.g_Array_ext)] 0 0 74 75
      Examples.call_with_index_7
    = Ret tt
        (ir "  %1 = call %dx.types.Handle @dx.op.createHandle(i32 57, i8 0, i32 0, i32 "
         ++ to_string n ++ ir ", i1 false)|") /\
    (10 <= n < 10 + 4)%Z /\ (n - 10 = 7 - 5)%Z /\
    digits_value (to_string n) 0 = n.
Proof.
  exact (ReplaceBindPoint_stays_in_target_range
           [(Examples.g_Array, Examples.g_Array_ext)] 0 RES_TYPE_SRV 0
           (ir "  %1 = call %dx.types.Handle @dx.op.createHandle(i32 57, i8 0, i32 0, i32 ")
           (lit "7") (ir ", i1 false)|") 7
           Examples.g_Array Examples.g_Array_ext
           eq_refl eq_refl eq_refl
           ltac:(vm_compute; intuition discriminate)
           ltac:(vm_compute; intuition discriminate)
           ltac:(vm_compute; discriminate)
           ltac:(vm_compute; discriminate)).
Defined.

(* ================================================================== *)
(** * A module without resources *)
(* ================================================================== *)

(** A shader that is not a ray-tracing shader and whose module has no
    resource name declaration ([ResNameDecl]) and no createHandle call.
    Both generic passes return with the buffer and the extended map as
    they were, and [PatchDXIL] returns [true], whatever the resource map
    and the extended map hold: a request whose resource the module does
    not declare is not an error. The remap then assembles and validates
    the disassembled text as it is, and its result is the result of
    these two stages. *)
Theorem PatchDXIL_without_declarations_and_calls :
  forall fuel ResourceMap ExtResMap ShaderType DXIL,
    0 < fuel -> is_ray_tracing ShaderType = false ->
    find ResNameDecl DXIL 0 = None ->
    find CallHandlePattern DXIL 0 = None ->
    PatchResourceDeclaration fuel ExtResMap DXIL = Ret ExtResMap DXIL /\
    PatchResourceHandle fuel ExtResMap DXIL = Ret tt DXIL /\
    PatchDXIL fuel ResourceMap ExtResMap ShaderType DXIL = Ret true DXIL /\
    forall backend pSrcBytecode refl,
      loaded backend = true -> library_created backend = true ->
      assembler_created backend = true -> compiler_created backend = true ->
      Disassemble backend pSrcBytecode = Some DXIL ->
      GetD3D12ShaderReflection backend pSrcBytecode = Some refl ->
      shader_type_of (ShType refl) = ShaderType ->
      build_ExtResourceMap refl ResourceMap [] = Some ExtResMap ->
      RemapResourceBindings backend fuel ResourceMap pSrcBytecode
      = if CreateBlobWithEncodingFromPinned backend DXIL
        then
          match AssembleToContainer backend DXIL with
          | Assembled compiled =>
              Remapped (fst (ValidateAndSign backend compiled))
                (snd (ValidateAndSign backend compiled))
          | _ => Remapped false None
          end
        else Remapped false None.
Proof.
  intros fuel ResourceMap ExtResMap ShaderType DXIL Hf Hrt Hd Hc.
  destruct fuel as [|fuel]; [lia|].
  assert (D : PatchResourceDeclaration (S fuel) ExtResMap DXIL
              = Ret ExtResMap DXIL).
  { unfold PatchResourceDeclaration. cbn [PatchResourceDeclaration_loop].
    unfold bind at 1. unfold get.
    destruct (0 <? length DXIL); cbn [negb]; [|reflexivity].
    unfold PatchResourceDeclaration_step, bind, get. now rewrite Hd. }
  assert (C : PatchResourceHandle (S fuel) ExtResMap DXIL = Ret tt DXIL).
  { unfold PatchResourceHandle. cbn [PatchResourceHandle_loop].
    unfold bind at 1. unfold get.
    destruct (0 <? length DXIL); cbn [negb]; [|reflexivity].
    unfold PatchResourceHandle_step, bind, get. now rewrite Hc. }
  assert (P : PatchDXIL (S fuel) ResourceMap ExtResMap ShaderType DXIL
              = Ret true DXIL).
  { unfold PatchDXIL, PatchDXIL_body. rewrite Hrt.
    unfold bind. now rewrite D, C. }
  repeat split; auto.
  intros backend pSrcBytecode refl H1 H2 H3 H4 Hdis Hrefl Hty Hb.
  rewrite (Remap_with_reflection backend (S fuel) ResourceMap pSrcBytecode
             DXIL refl Hdis Hrefl).
  rewrite H1, H2, H3, H4, Hb, Hty, P. cbn [andb].
  destruct (CreateBlobWithEncodingFromPinned backend DXIL); cbn [negb];
    [|reflexivity].
  destruct (AssembleToContainer backend DXIL); try reflexivity.
  now destruct (ValidateAndSign backend compiled).
Qed.

Lemma PatchDXIL_without_declarations_and_calls_witness :
  PatchResourceDeclaration 1 [(Examples.g_Tex, Examples.g_Tex_ext)]
    Examples.module_without_resources
  = Ret [(Examples.g_Tex, Examples.g_Tex_ext)]
      Examples.module_without_resources /\
  PatchResourceHandle 1 [(Examples.g_Tex, Examples.g_Tex_ext)]
    Examples.module_without_resources
  = Ret tt Examples.module_without_resources /\
  PatchDXIL 1 [Examples.g_Tex] [(Examples.g_Tex, Examples.g_Tex_ext)]
    SHADER_TYPE_PIXEL Examples.module_without_resources
  = Ret true Examples.module_without_resources /\
  RemapResourceBindings
    (Examples.backend_of Examples.module_without_resources
       (Examples.reflection_of 0))
    1 [Examples.g_Tex] []
  = Remapped true
      (Some (map byte_of_ascii Examples.module_without_resources)).
Proof.
  destruct (PatchDXIL_without_declarations_and_calls 1 [Examples.g_Tex]
              [(Examples.g_Tex, Examples.g_Tex_ext)] SHADER_TYPE_PIXEL
              Examples.module_without_resources
              ltac:(lia) eq_refl eq_refl eq_refl) as (H1 & H2 & H3 & H4).
  split; [exact H1|]. split; [exact H2|]. split; [exact H3|].
  exact (H4 (Examples.backend_of Examples.module_without_resources
               (Examples.reflection_of 0)) []
            (Examples.reflection_of 0)
            eq_refl eq_refl eq_refl eq_refl eq_refl eq_refl eq_refl eq_refl).
Defined.

(* ================================================================== *)
(** * The container probe and bytes after the container *)
(* ================================================================== *)

Module ContainerGrowth.
Import Container.

Lemma read_u8_app data extra off v :
  read_u8 data off = Some v -> read_u8 (data ++ extra) off = Some v.
Proof.
  unfold read_u8. destruct (nth_error data off) as [b|] eqn:E;
    [|discriminate].
  rewrite nth_error_app1 by (apply nth_error_Some; congruence).
  now rewrite E.
Qed.

Lemma read_u16_app data extra off v :
  read_u16 data off = Some v -> read_u16 (data ++ extra) off = Some v.
Proof.
  unfold read_u16.
  destruct (read_u8 data off) as [b0|] eqn:E0; [|discriminate].
  destruct (read_u8 data (off + 1)) as [b1|] eqn:E1; [|discriminate].
  now rewrite (read_u8_app _ extra _ _ E0), (read_u8_app _ extra _ _ E1).
Qed.

Lemma read_u32_app data extra off v :
  read_u32 data off = Some v -> read_u32 (data ++ extra) off = Some v.
Proof.
  unfold read_u32.
  destruct (read_u16 data off) as [lo|] eqn:E0; [|discriminate].
  destruct (read_u16 data (off + 2)) as [hi|] eqn:E1; [|discriminate].
  now rewrite (read_u16_app _ extra _ _ E0), (read_u16_app _ extra _ _ E1).
Qed.

Lemma scan_parts_app data extra todo part log :
  scan_parts data todo part = Probed true log ->
  scan_parts (data ++ extra) todo part = Probed true log.
Proof.
  revert part. induction todo as [|todo IH]; intros part; cbn [scan_parts];
    [discriminate|].
  destruct (read_u32 data (sizeof_DxilContainerHeader + 4 * part))
    as [Offset|] eqn:HO; [|discriminate].
  rewrite (read_u32_app _ extra _ _ HO).
  destruct (Z.of_nat (length data) <?
            Offset + Z.of_nat sizeof_DxilPartHeader)%Z eqn:Hlt;
    [discriminate|].
  apply Z.ltb_ge in Hlt.
  replace (Z.of_nat (length (data ++ extra)) <?
           Offset + Z.of_nat sizeof_DxilPartHeader)%Z with false
    by (symmetry; apply Z.ltb_ge; rewrite length_app; lia).
  destruct (read_u32 data (Z.to_nat Offset)) as [tag|] eqn:HT;
    [|discriminate].
  rewrite (read_u32_app _ extra _ _ HT).
  destruct (tag =? DFCC_DXIL)%Z; auto.
Qed.

End ContainerGrowth.

(** Bytes after a container do not hide it: when the probe answers
    [true] for a buffer, it answers [true], with the same log, for the
    buffer followed by any bytes. *)
Theorem IsDXILBytecode_with_trailing_bytes :
  forall data extra log,
    Container.IsDXILBytecode data = Container.Probed true log ->
    Container.IsDXILBytecode (data ++ extra) = Container.Probed true log.
Proof.
  intros data extra log. unfold Container.IsDXILBytecode.
  destruct (length data <? Container.sizeof_DxilContainerHeader) eqn:Hlen;
    [discriminate|].
  apply Nat.ltb_ge in Hlen.
  replace (length (data ++ extra) <? Container.sizeof_DxilContainerHeader)
    with false
    by (symmetry; apply Nat.ltb_ge; rewrite length_app; lia).
  destruct (Container.read_u32 data Container.offsetof_HeaderFourCC)
    as [HeaderFourCC|] eqn:H1; [|discriminate].
  rewrite (ContainerGrowth.read_u32_app _ extra _ _ H1).
  destruct (negb (HeaderFourCC =? Container.DFCC_Container)%Z);
    [discriminate|].
  destruct (Container.read_u16 data Container.offsetof_Version_Major)
    as [Major|] eqn:H2; [|discriminate].
  rewrite (ContainerGrowth.read_u16_app _ extra _ _ H2).
  destruct (negb (Major =? Container.DxilContainerVersionMajor)%Z);
    [discriminate|].
  destruct (Container.read_u32 data Container.offsetof_PartCount)
    as [PartCount|] eqn:H3; [|discriminate].
  rewrite (ContainerGrowth.read_u32_app _ extra _ _ H3).
  destruct (Z.of_nat (length data) <?
            Z.of_nat Container.sizeof_DxilContainerHeader + 4 * PartCount)%Z
    eqn:Hlt; [discriminate|].
  apply Z.ltb_ge in Hlt.
  replace (Z.of_nat (length (data ++ extra)) <?
           Z.of_nat Container.sizeof_DxilContainerHeader + 4 * PartCount)%Z
    with false
    by (symmetry; apply Z.ltb_ge; rewrite length_app; lia).
  apply ContainerGrowth.scan_parts_app.
Qed.

Lemma IsDXILBytecode_with_trailing_bytes_witness :
  Container.IsDXILBytecode
    (Container.DXIL_then_truncated ++ Container.bytes [1; 2; 3]%N)
  = Container.Probed true [].
Proof.
  apply IsDXILBytecode_with_trailing_bytes. vm_compute. reflexivity.
Defined.

(* ================================================================== *)
(** * Loading the compiler library *)
(* ================================================================== *)

Section LoadFacts.
Import DXCompiler.

Lemma Load_initialized Base_Load this :
  m_IsInitialized (fst (Load Base_Load this)) = true.
Proof.
  unfold Load. destruct (m_IsInitialized this) eqn:E; auto.
Qed.

Lemma Load_returns_member Base_Load this :
  snd (Load Base_Load this) = m_pCreateInstance (fst (Load Base_Load this)).
Proof.
  unfold Load. destruct (m_IsInitialized this); reflexivity.
Qed.

Lemma Load_keeps_target Base_Load this :
  m_Target (fst (Load Base_Load this)) = m_Target this /\
  m_APIVersion (fst (Load Base_Load this)) = m_APIVersion this /\
  m_LibName (fst (Load Base_Load this)) = m_LibName this.
Proof.
  unfold Load. destruct (m_IsInitialized this); auto.
Qed.

Lemma Load_again Base_Load Base_Load' this :
  Load Base_Load' (fst (Load Base_Load this)) = Load Base_Load this.
Proof.
  pose proof (Load_initialized Base_Load this) as I.
  pose proof (Load_returns_member Base_Load this) as M.
  destruct (Load Base_Load this) as [this1 p1]. cbn [fst snd] in *.
  unfold Load at 1. rewrite I. now subst p1.
Qed.

(** The packed version of a version whose two numbers are below 2^16. *)
Lemma packed_version_small MajorVer MinorVer :
  (0 <= MajorVer < 65536)%Z -> (0 <= MinorVer < 65536)%Z ->
  packed_version MajorVer MinorVer = (MajorVer * 65536 + MinorVer)%Z.
Proof.
  intros Ha Hb. unfold packed_version.
  rewrite Z.shiftl_mul_pow2 by lia. change (2 ^ 16)%Z with 65536%Z.
  assert (U : u32 (MajorVer * 65536) = (MajorVer * 65536)%Z)
    by (apply Z.mod_small; unfold two32; lia).
  rewrite U.
  assert (L : Z.land MinorVer 65535 = MinorVer).
  { change 65535%Z with (Z.ones 16). rewrite Z.land_ones by lia.
    apply Z.mod_small. change (2 ^ 16)%Z with 65536%Z. lia. }
  rewrite L.
  assert (Hland : Z.land (MajorVer * 65536) MinorVer = 0%Z).
  { apply Z.bits_inj'. intros n Hn. rewrite Z.land_spec, Z.bits_0.
    destruct (Z_lt_ge_dec n 16).
    - replace (MajorVer * 65536)%Z with (MajorVer * 2 ^ 16)%Z by reflexivity.
      rewrite Z.mul_pow2_bits_low by lia. reflexivity.
    - rewrite (Z.bits_above_log2 MinorVer n), andb_false_r; auto; [lia|].
      destruct (Z.eq_dec MinorVer 0) as [->|]; [simpl; lia|].
      apply Z.lt_le_trans with 16%Z; [|lia].
      apply Z.log2_lt_pow2; [lia|]. change (2 ^ 16)%Z with 65536%Z. lia. }
  rewrite <- (Z.lxor_lor _ _ Hland), <- (Z.add_nocarry_lxor _ _ Hland).
  reflexivity.
Qed.

End LoadFacts.

(** The library is loaded once. After a first call of [Load], every
    later call returns what the first call returned and leaves the
    object as it is, whatever the loader would answer then: a load that
    failed is not tried again, and [IsLoaded] and [GetMaxShaderModel]
    keep their answers. The first call on a fresh object returns what
    the loader gives for the target and the library name of the
    object. *)
Theorem Load_happens_once :
  forall Base_Load Base_Load' this,
    let first := DXCompiler.Load Base_Load this in
    DXCompiler.Load Base_Load' (fst first) = first /\
    DXCompiler.IsLoaded Base_Load' (fst first)
    = (fst first, match snd first with Some _ => true | None => false end) /\
    DXCompiler.GetMaxShaderModel Base_Load' (fst first)
    = (fst first, DXCompiler.m_MaxShaderModel (fst first)) /\
    (DXCompiler.m_IsInitialized this = false ->
     snd first
     = Base_Load (DXCompiler.m_Target this) (DXCompiler.m_LibName this)).
Proof.
  intros Base_Load Base_Load' this first.
  pose proof (Load_again Base_Load Base_Load' this) as A. fold first in A.
  repeat split.
  - exact A.
  - unfold DXCompiler.IsLoaded, DXCompiler.GetCreateInstaceProc.
    rewrite A. now destruct first.
  - unfold DXCompiler.GetMaxShaderModel. rewrite A. now destruct first.
  - intros H. unfold first, DXCompiler.Load. now rewrite H.
Qed.

(** The maximum shader model that [Load] derives from the version of
    the validator. The model is 6.0 to 6.6 and does not decrease when the
    packed version grows: 6.0 below version 1.2, 6.1 for 1.2 and 1.3, 6.4
    for 1.4, 6.5 for 1.5 and 6.6 above. For a validator that reports a
    version of two numbers below 2^16, a first [Load] stores these
    numbers, which [GetVersion] then returns, and the model of the packed
    version [MajorVer * 2^16 + MinorVer]. *)
Theorem Load_sets_the_maximum_shader_model :
  (forall ver,
      DXCompiler.Major (DXCompiler.max_shader_model ver) = 6%Z /\
      In (DXCompiler.Minor (DXCompiler.max_shader_model ver))
         [0; 1; 4; 5; 6]%Z) /\
  (forall ver1 ver2,
      (ver1 <= ver2)%Z ->
      (DXCompiler.Minor (DXCompiler.max_shader_model ver1)
       <= DXCompiler.Minor (DXCompiler.max_shader_model ver2))%Z) /\
  (forall ver,
      DXCompiler.Minor (DXCompiler.max_shader_model ver)
      = (if ver <? 65538 then 0
         else if ver <? 65540 then 1
         else if ver <? 65541 then 4
         else if ver <? 65542 then 5
         else 6)%Z) /\
  (forall Base_Load this proc MajorVer MinorVer,
      DXCompiler.m_IsInitialized this = false ->
      Base_Load (DXCompiler.m_Target this) (DXCompiler.m_LibName this)
      = Some proc ->
      DXCompiler.CreateValidator proc = true ->
      DXCompiler.GetVersionInfo proc = Some (MajorVer, MinorVer) ->
      (0 <= MajorVer < 65536)%Z -> (0 <= MinorVer < 65536)%Z ->
      let this1 := fst (DXCompiler.Load Base_Load this) in
      DXCompiler.GetVersion this1 = (MajorVer, MinorVer) /\
      DXCompiler.m_MaxShaderModel this1
      = DXCompiler.max_shader_model (MajorVer * 65536 + MinorVer)).
Proof.
  assert (T : forall ver,
      DXCompiler.Minor (DXCompiler.max_shader_model ver)
      = (if ver <? 65538 then 0
         else if ver <? 65540 then 1
         else if ver <? 65541 then 4
         else if ver <? 65542 then 5
         else 6)%Z).
  { intros ver. unfold DXCompiler.max_shader_model.
    destruct (ver =? 65541)%Z eqn:E1; [apply Z.eqb_eq in E1; now subst|].
    destruct (ver =? 65540)%Z eqn:E2; [apply Z.eqb_eq in E2; now subst|].
    destruct (ver =? 65539)%Z eqn:E3; [apply Z.eqb_eq in E3; now subst|].
    destruct (ver =? 65538)%Z eqn:E4; [apply Z.eqb_eq in E4; now subst|].
    apply Z.eqb_neq in E1, E2, E3, E4. cbn [orb].
    destruct (65541 <? ver)%Z eqn:E5; cbn [DXCompiler.Minor].
    - apply Z.ltb_lt in E5.
      repeat match goal with
             | |- context [(ver <? ?k)%Z] =>
                 replace (ver <? k)%Z with false
                   by (symmetry; apply Z.ltb_ge; lia)
             end.
      reflexivity.
    - apply Z.ltb_ge in E5.
      replace (ver <? 65538)%Z with true by (symmetry; apply Z.ltb_lt; lia).
      reflexivity. }
  split; [|split; [|split; [exact T|]]].
  - intros ver. split.
    + unfold DXCompiler.max_shader_model.
      destruct (ver =? 65541)%Z, (ver =? 65540)%Z, (ver =? 65539)%Z,
        (ver =? 65538)%Z, (65541 <? ver)%Z; reflexivity.
    + rewrite T.
      destruct (ver <? 65538)%Z, (ver <? 65540)%Z, (ver <? 65541)%Z,
        (ver <? 65542)%Z; simpl; auto 6.
  - intros ver1 ver2 H. rewrite !T.
    destruct (ver1 <? 65538)%Z eqn:A1, (ver1 <? 65540)%Z eqn:A2,
      (ver1 <? 65541)%Z eqn:A3, (ver1 <? 65542)%Z eqn:A4,
      (ver2 <? 65538)%Z eqn:B1, (ver2 <? 65540)%Z eqn:B2,
      (ver2 <? 65541)%Z eqn:B3, (ver2 <? 65542)%Z eqn:B4;
      try lia;
      repeat match goal with
             | H : (_ <? _)%Z = true |- _ => apply Z.ltb_lt in H
             | H : (_ <? _)%Z = false |- _ => apply Z.ltb_ge in H
             end; lia.
  - intros Base_Load this proc MajorVer MinorVer Hi Hl Hv Hg Ha Hb this1.
    assert (Ua : u32 MajorVer = MajorVer)
      by (apply Z.mod_small; unfold two32; lia).
    assert (Ub : u32 MinorVer = MinorVer)
      by (apply Z.mod_small; unfold two32; lia).
    unfold this1, DXCompiler.Load, DXCompiler.GetVersion.
    rewrite Hi, Hl, Hv, Hg. cbn [fst DXCompiler.m_MajorVer
      DXCompiler.m_MinorVer DXCompiler.m_MaxShaderModel].
    rewrite Ua, Ub, packed_version_small by assumption. auto.
Qed.

Lemma Load_sets_the_maximum_shader_model_witness :
  let proc :=
    {| DXCompiler.CreateValidator := true;
       DXCompiler.GetVersionInfo := Some (1, 4)%Z;
       DXCompiler.instances := Examples.backend_of [] (Examples.reflection_of 0);
       DXCompiler.DxcCompile := fun _ => (false, None) |} in
  let this :=
    DXCompiler.CreateDXCompiler {| DXCompiler.Major := 0; DXCompiler.Minor := 0 |}
      DXCompiler.Direct3D12 0 None in
  let this1 := fst (DXCompiler.Load (fun _ _ => Some proc) this) in
  DXCompiler.GetVersion this1 = (1, 4)%Z /\
  DXCompiler.m_MaxShaderModel this1
  = {| DXCompiler.Major := 6; DXCompiler.Minor := 4 |}.
Proof.
  intros proc this this1.
  exact (proj2 (proj2 (proj2 Load_sets_the_maximum_shader_model))
           (fun _ _ => Some proc) this proc 1%Z 4%Z
           eq_refl eq_refl eq_refl eq_refl
           ltac:(lia) ltac:(lia)).
Defined.

(* ================================================================== *)
(** * The include handler *)
(* ================================================================== *)

Section IncludeFacts.
Import DXCompiler DxcIncludeHandlerImpl.

Lemma narrow_not_zero wc :
  (0 < wc < 256)%Z -> Ascii.eqb (narrow wc) zero = false.
Proof.
  intros H. apply Ascii.eqb_neq. unfold narrow. intros E.
  rewrite Z.mod_small in E by lia.
  apply (f_equal N_of_ascii) in E.
  rewrite N_ascii_embedding in E by lia.
  change (N_of_ascii zero) with 0%N in E. lia.
Qed.

Lemma c_str_plain s :
  Forall (fun c => Ascii.eqb c zero = false) s -> c_str s = s.
Proof.
  induction 1 as [|c s Hc _ IH]; simpl; auto. now rewrite Hc, IH.
Qed.

Lemma wide_c_str_plain w :
  Forall (fun wc => (0 < wc < 256)%Z) w -> wide_c_str w = w.
Proof.
  induction 1 as [|wc w Hc _ IH]; simpl; auto.
  replace (wc =? 0)%Z with false by (symmetry; apply Z.eqb_neq; lia).
  now rewrite IH.
Qed.

Lemma validated_name_suffix fileName :
  exists prefix,
    fileName = prefix ++ validated_name fileName /\
    (prefix = [] \/ prefix = lit "./" \/ prefix = ["."%char; DxcIncludeHandlerImpl.backslash]) /\
    (fileName <> [] -> validated_name fileName <> []).
Proof.
  unfold validated_name.
  destruct ((2 <? length fileName) && Ascii.eqb (at_ fileName 0) "."
            && (Ascii.eqb (at_ fileName 1) backslash
                || Ascii.eqb (at_ fileName 1) "/")) eqn:E.
  - apply andb_true_iff in E as [E E3]. apply andb_true_iff in E as [E1 E2].
    apply Nat.ltb_lt in E1. apply Ascii.eqb_eq in E2.
    destruct fileName as [|c0 [|c1 [|c2 rest]]]; simpl in E1; try lia.
    unfold at_ in E2, E3. simpl in E2, E3. subst c0.
    exists ["."%char; c1]. split; [reflexivity|]. split.
    + apply orb_true_iff in E3 as [E3|E3]; apply Ascii.eqb_eq in E3;
        subst c1; auto.
    + intros _. simpl. discriminate.
  - exists []. auto.
Qed.

End IncludeFacts.

(** [LoadSource] answers [S_OK] exactly when it stores a blob, and it
    does both exactly when the file name is there and not empty, the
    stream factory opens the validated name and the library makes the
    blob. It then appends the data of the file to the cache, whose
    earlier entries stay as they are, and the blob shows the first
    [Size mod 2^32] bytes of the data. On every failure the handler is
    as it was and nothing is stored. *)
Theorem LoadSource_result :
  forall factory CreateBlob this pFilename,
    let run := DxcIncludeHandlerImpl.LoadSource factory CreateBlob this
                 pFilename in
    let opened :=
      exists w data,
        pFilename = Some w /\
        DxcIncludeHandlerImpl.converted_name w <> [] /\
        DXCompiler.CreateInputStream factory
          (DxcIncludeHandlerImpl.c_str
             (DxcIncludeHandlerImpl.validated_name
                (DxcIncludeHandlerImpl.converted_name w)))
        = Some data /\
        CreateBlob data (u32 (Z.of_nat (length data))) = true /\
        DxcIncludeHandlerImpl.m_FileDataCache (fst run)
        = DxcIncludeHandlerImpl.m_FileDataCache this ++ [data] /\
        DxcIncludeHandlerImpl.pIncludeSource (snd run)
        = Some (firstn (Z.to_nat (u32 (Z.of_nat (length data)))) data) in
    (DxcIncludeHandlerImpl.hr (snd run) = DxcIncludeHandlerImpl.S_OK
     <-> opened) /\
    (DxcIncludeHandlerImpl.hr (snd run) = DxcIncludeHandlerImpl.S_OK
     <-> DxcIncludeHandlerImpl.pIncludeSource (snd run) <> None) /\
    (DxcIncludeHandlerImpl.hr (snd run) = DxcIncludeHandlerImpl.E_FAIL ->
     fst run = this) /\
    DxcIncludeHandlerImpl.m_RefCount (fst run)
    = DxcIncludeHandlerImpl.m_RefCount this.
Proof.
  intros factory CreateBlob this pFilename run opened.
  unfold opened, run, DxcIncludeHandlerImpl.LoadSource.
  destruct pFilename as [w|]; cbn [fst snd DxcIncludeHandlerImpl.hr
    DxcIncludeHandlerImpl.pIncludeSource].
  2:{ repeat split; try discriminate; auto.
      - intros (w & data & E & _). discriminate.
      - intros H. now elim H. }
  set (name := DxcIncludeHandlerImpl.converted_name w).
  destruct (length name =? 0) eqn:El;
    cbn [fst snd DxcIncludeHandlerImpl.hr
         DxcIncludeHandlerImpl.pIncludeSource].
  { apply Nat.eqb_eq in El.
    repeat split; try discriminate; auto.
    - intros (w' & data & E & Hne & _). inversion E; subst w'.
      fold name in Hne. destruct name; [congruence|discriminate].
    - intros H. now elim H. }
  apply Nat.eqb_neq in El.
  destruct (DXCompiler.CreateInputStream factory _) as [data|] eqn:Eo;
    cbn [fst snd DxcIncludeHandlerImpl.hr
         DxcIncludeHandlerImpl.pIncludeSource].
  2:{ repeat split; try discriminate; auto.
      - intros (w' & data & E & _ & Ho & _). inversion E; subst w'.
        fold name in Ho. congruence.
      - intros H. now elim H. }
  destruct (CreateBlob data (u32 (Z.of_nat (length data)))) eqn:Eb;
    cbn [negb fst snd DxcIncludeHandlerImpl.hr
         DxcIncludeHandlerImpl.pIncludeSource
         DxcIncludeHandlerImpl.m_FileDataCache
         DxcIncludeHandlerImpl.m_RefCount].
  - repeat split; try discriminate; auto.
    intros _. exists w, data. repeat split; auto.
    fold name. intros E. rewrite E in El. now apply El.
  - repeat split; try discriminate; auto.
    + intros (w' & data' & E & _ & Ho & Hb & _). inversion E; subst w'.
      fold name in Ho. rewrite Eo in Ho. inversion Ho; subst data'.
      congruence.
    + intros H. now elim H.
Qed.

(** The file that [LoadSource] opens. For a name of characters 1 to
    255, the handler depends on the stream factory through one name
    only: the converted name without a leading dot and slash or dot and
    backslash, of which at most one is removed, and which is never
    empty. *)
Theorem LoadSource_opens_the_validated_name :
  forall w,
    Forall (fun wc => (0 < wc < 256)%Z) w -> w <> [] ->
    exists prefix fileName,
      map DxcIncludeHandlerImpl.narrow w = prefix ++ fileName /\
      (prefix = [] \/ prefix = lit "./" \/
       prefix = ["."%char; DxcIncludeHandlerImpl.backslash]) /\
      fileName <> [] /\
      forall factory factory' CreateBlob this,
        DXCompiler.CreateInputStream factory fileName
        = DXCompiler.CreateInputStream factory' fileName ->
        DxcIncludeHandlerImpl.LoadSource factory CreateBlob this (Some w)
        = DxcIncludeHandlerImpl.LoadSource factory' CreateBlob this (Some w).
Proof.
  intros w Hw Hne.
  assert (Hc : DxcIncludeHandlerImpl.converted_name w
               = map DxcIncludeHandlerImpl.narrow w).
  { unfold DxcIncludeHandlerImpl.converted_name.
    now rewrite wide_c_str_plain. }
  assert (Hz : Forall (fun c => Ascii.eqb c zero = false)
                 (map DxcIncludeHandlerImpl.narrow w)).
  { apply Forall_map. eapply Forall_impl; [|exact Hw].
    intros wc. apply narrow_not_zero. }
  destruct (validated_name_suffix (map DxcIncludeHandlerImpl.narrow w))
    as (prefix & E & Hp & Hn).
  exists prefix,
    (DxcIncludeHandlerImpl.validated_name (map DxcIncludeHandlerImpl.narrow w)).
  split; [exact E|]. split; [exact Hp|]. split.
  { apply Hn. destruct w; [congruence|discriminate]. }
  intros factory factory' CreateBlob this Ho.
  assert (Hs : DxcIncludeHandlerImpl.c_str
                 (DxcIncludeHandlerImpl.validated_name
                    (map DxcIncludeHandlerImpl.narrow w))
               = DxcIncludeHandlerImpl.validated_name
                   (map DxcIncludeHandlerImpl.narrow w)).
  { apply c_str_plain. rewrite E in Hz.
    now apply Forall_app in Hz as [_ Hz]. }
  unfold DxcIncludeHandlerImpl.LoadSource. rewrite Hc, Hs, Ho. reflexivity.
Qed.

Lemma LoadSource_opens_the_validated_name_witness :
  exists prefix fileName,
    map DxcIncludeHandlerImpl.narrow [46; 47; 97; 46; 104]%Z
    = prefix ++ fileName /\
    (prefix = [] \/ prefix = lit "./" \/ prefix = ["."%char; DxcIncludeHandlerImpl.backslash]) /\
    fileName <> [] /\
    forall factory factory' CreateBlob this,
      DXCompiler.CreateInputStream factory fileName
      = DXCompiler.CreateInputStream factory' fileName ->
      DxcIncludeHandlerImpl.LoadSource factory CreateBlob this
        (Some [46; 47; 97; 46; 104]%Z)
      = DxcIncludeHandlerImpl.LoadSource factory' CreateBlob this
          (Some [46; 47; 97; 46; 104]%Z).
Proof.
  apply LoadSource_opens_the_validated_name.
  - repeat constructor.
  - discriminate.
Defined.

(* ================================================================== *)
(** * Compile *)
(* ================================================================== *)

(** What a call of [Compile(const CompileAttribs&)] that returns has
    done. It returns [true] exactly when it stores a blob. A blob is
    stored only after the library is loaded, the compilation call
    succeeded with a result object whose status is not a failure, and the
    result was obtained; for the Direct3D12 target the blob is what
    [ValidateAndSign] stores for the compiled blob, for any other target
    it is the compiled blob itself. The compiler output is the error
    text of the result object whenever the compilation call gave a result
    object, also when [false] is returned. *)
Theorem Compile_result :
  forall Base_Load this Attribs r BlobOut CompilerOutput,
    snd (DXCompiler.Compile Base_Load this Attribs)
    = DXCompiler.Compiled r BlobOut CompilerOutput ->
    fst (DXCompiler.Compile Base_Load this Attribs)
    = fst (DXCompiler.Load Base_Load this) /\
    (r = true <-> BlobOut <> None) /\
    (r = true ->
     exists proc res compiled,
       snd (DXCompiler.Load Base_Load this) = Some proc /\
       DXCompiler.DxcCompile proc Attribs = (true, Some res) /\
       DXCompiler.GetStatus res <> Some false /\
       DXCompiler.GetResult res = Some compiled /\
       match DXCompiler.m_Target this with
       | DXCompiler.Direct3D12 =>
           ValidateAndSign (DXCompiler.instances proc) compiled
           = (true, BlobOut)
       | _ => BlobOut = Some compiled
       end) /\
    (forall proc hr res,
        snd (DXCompiler.Load Base_Load this) = Some proc ->
        library_created (DXCompiler.instances proc) = true ->
        compiler_created (DXCompiler.instances proc) = true ->
        CreateBlobWithEncodingFromPinned (DXCompiler.instances proc)
          (DXCompiler.Source Attribs) = true ->
        DXCompiler.DxcCompile proc Attribs = (hr, Some res) ->
        CompilerOutput = DXCompiler.GetErrorBuffer res).
Proof.
  intros Base_Load this Attribs r BlobOut CompilerOutput.
  unfold DXCompiler.Compile, DXCompiler.GetCreateInstaceProc.
  pose proof (Load_keeps_target Base_Load this) as (Ht & _).
  destruct (DXCompiler.Load Base_Load this) as [this1 p] eqn:EL.
  cbn [fst snd] in *.
  match goal with |- _ -> ?G => set (Concl := G) end.
  assert (Failed : forall O : option Blob,
             (forall proc hr res,
                 p = Some proc ->
                 library_created (DXCompiler.instances proc) = true ->
                 compiler_created (DXCompiler.instances proc) = true ->
                 CreateBlobWithEncodingFromPinned (DXCompiler.instances proc)
                   (DXCompiler.Source Attribs) = true ->
                 DXCompiler.DxcCompile proc Attribs = (hr, Some res) ->
                 O = DXCompiler.GetErrorBuffer res) ->
             DXCompiler.Compiled false None O
             = DXCompiler.Compiled r BlobOut CompilerOutput -> Concl).
  { intros O HO H. inversion H; subst. unfold Concl.
    split; [reflexivity|]. split; [|split; [discriminate|exact HO]].
    split; [discriminate|]. intros E. now elim E. }
  destruct p as [proc|].
  2:{ apply Failed. discriminate. }
  destruct (library_created (DXCompiler.instances proc)) eqn:E1;
    cbn [negb].
  2:{ apply Failed. intros ? ? ? E. inversion E; subst. congruence. }
  destruct (compiler_created (DXCompiler.instances proc)) eqn:E2;
    cbn [negb].
  2:{ apply Failed. intros ? ? ? E. inversion E; subst. congruence. }
  destruct (CreateBlobWithEncodingFromPinned (DXCompiler.instances proc)
              (DXCompiler.Source Attribs)) eqn:E3; cbn [negb].
  2:{ apply Failed. intros ? ? ? E. inversion E; subst. congruence. }
  destruct (DXCompiler.DxcCompile proc Attribs) as [hr result] eqn:EC.
  destruct result as [res|].
  2:{ destruct hr; [discriminate|].
      apply Failed. intros ? ? ? E. inversion E; subst.
      rewrite EC. discriminate. }
  assert (Out : forall proc' hr' res',
             Some proc = Some proc' ->
             library_created (DXCompiler.instances proc') = true ->
             compiler_created (DXCompiler.instances proc') = true ->
             CreateBlobWithEncodingFromPinned (DXCompiler.instances proc')
               (DXCompiler.Source Attribs) = true ->
             DXCompiler.DxcCompile proc' Attribs = (hr', Some res') ->
             DXCompiler.GetErrorBuffer res = DXCompiler.GetErrorBuffer res').
  { intros proc' hr' res' E _ _ _ EC'. inversion E; subst proc'.
    rewrite EC in EC'. now inversion EC'. }
  assert (Good : forall compiled B,
             hr = true ->
             DXCompiler.GetStatus res <> Some false ->
             DXCompiler.GetResult res = Some compiled ->
             match DXCompiler.m_Target this with
             | DXCompiler.Direct3D12 =>
                 ValidateAndSign (DXCompiler.instances proc) compiled
                 = (true, Some B)
             | _ => Some B = Some compiled
             end ->
             DXCompiler.Compiled true (Some B) (DXCompiler.GetErrorBuffer res)
             = DXCompiler.Compiled r BlobOut CompilerOutput -> Concl).
  { intros compiled B Hhr Hst Hres Hblob H. inversion H; subst.
    unfold Concl. split; [reflexivity|].
    split; [split; [discriminate|reflexivity]|]. split; [|exact Out].
    intros _. exists proc, res, compiled. repeat split; auto. }
  assert (Tail : forall ok : bool,
             (ok = true ->
              hr = true /\ DXCompiler.GetStatus res <> Some false) ->
             (if negb ok
              then DXCompiler.Compiled false None
                     (DXCompiler.GetErrorBuffer res)
              else
                match DXCompiler.GetResult res with
                | None => DXCompiler.Compiled false None
                            (DXCompiler.GetErrorBuffer res)
                | Some compiled =>
                    match DXCompiler.m_Target this1 with
                    | DXCompiler.Direct3D12 =>
                        let '(r, BlobOut) :=
                          ValidateAndSign (DXCompiler.instances proc)
                            compiled in
                        DXCompiler.Compiled r BlobOut
                          (DXCompiler.GetErrorBuffer res)
                    | _ => DXCompiler.Compiled true (Some compiled)
                             (DXCompiler.GetErrorBuffer res)
                    end
                end)
             = DXCompiler.Compiled r BlobOut CompilerOutput -> Concl).
  { intros ok Hok. destruct ok; cbn [negb]; [|apply Failed; exact Out].
    destruct (Hok eq_refl) as [Hhr Hst].
    destruct (DXCompiler.GetResult res) as [compiled|] eqn:ER;
      [|apply Failed; exact Out].
    rewrite Ht.
    destruct (DXCompiler.m_Target this) eqn:ET.
    - destruct (ValidateAndSign (DXCompiler.instances proc) compiled)
        as [r' B'] eqn:EV.
      pose proof EV as EV'.
      apply ValidateAndSign_spec in EV'
        as [[-> ->]|(-> & validated & inplace & _ & ->)];
        [apply Failed; exact Out|].
      apply (Good compiled); auto.
    - apply (Good compiled); auto.
    - apply (Good compiled); auto. }
  apply Tail. intros Hok.
  destruct hr; [|discriminate]. split; [reflexivity|].
  intros Hs. rewrite Hs in Hok. discriminate.
Qed.

Lemma Compile_result_witness :
  snd (DXCompiler.Compile CompilerExamples.load_library_1_5
         CompilerExamples.vulkan_compiler CompilerExamples.some_attribs)
  = DXCompiler.Compiled true (Some (Container.bytes [1; 2; 3; 4; 5; 6]%N))
      (Some (Container.bytes [119; 33]%N)) /\
  (true = true <-> Some (Container.bytes [1; 2; 3; 4; 5; 6]%N) <> None).
Proof.
  split; [reflexivity|].
  exact (proj1 (proj2 (Compile_result CompilerExamples.load_library_1_5
                         CompilerExamples.vulkan_compiler
                         CompilerExamples.some_attribs true
                         (Some (Container.bytes [1; 2; 3; 4; 5; 6]%N))
                         (Some (Container.bytes [119; 33]%N))
                         eq_refl))).
Defined.

(* ================================================================== *)
(** * The shader model and the arguments of a compilation *)
(* ================================================================== *)

Section ShaderModelFacts.
Import DXCompiler.

Lemma version_eq_spec a b :
  CompilerExamples.version_eq a b = true <-> a = b.
Proof.
  unfold CompilerExamples.version_eq. destruct a as [a1 a2], b as [b1 b2].
  cbn [Major Minor]. rewrite andb_true_iff, !Z.eqb_eq. split.
  - intros [-> ->]. reflexivity.
  - intros E. inversion E. auto.
Qed.

Lemma version_gt_spec a b :
  CompilerExamples.version_gt a b = true <->
  (Major b < Major a \/ (Major a = Major b /\ Minor b < Minor a))%Z.
Proof.
  unfold CompilerExamples.version_gt.
  rewrite orb_true_iff, andb_true_iff, !Z.ltb_lt, Z.eqb_eq. reflexivity.
Qed.

Lemma to_words_length data : length (to_words data) = length data / 4.
Proof.
  assert (G : forall n data, length data <= n ->
                             length (to_words data) = length data / 4).
  { clear data. induction n as [|n IH]; intros data Hn.
    - destruct data; [reflexivity|simpl in Hn; lia].
    - destruct data as [|b0 [|b1 [|b2 [|b3 rest]]]]; try reflexivity.
      cbn [to_words length]. rewrite IH by (simpl in Hn; lia).
      change (S (S (S (S (length rest))))) with (1 * 4 + length rest).
      rewrite Nat.div_add_l by lia. reflexivity. }
  now apply (G (length data)).
Qed.

End ShaderModelFacts.

(** The validation of the shader model, when the operators of
    [ShaderVersion] compare by major and then by minor number and the
    default version is below 6.0. With a maximum of at least 6.0, the
    model that is compiled for is at least 6.0 and not greater than the
    maximum; it is the requested model, the maximum or 6.0; a request of
    at least 6.0 that is not greater than the maximum is kept; and
    validating the result again changes nothing. *)
Theorem validate_shader_model_bounds :
  forall ShaderVersion_default ShaderVersion_eq ShaderVersion_gt,
    (forall a b, ShaderVersion_eq a b = true <-> a = b) ->
    (forall a b,
        ShaderVersion_gt a b = true <->
        (DXCompiler.Major b < DXCompiler.Major a \/
         (DXCompiler.Major a = DXCompiler.Major b /\
          DXCompiler.Minor b < DXCompiler.Minor a))%Z) ->
    (DXCompiler.Major ShaderVersion_default < 6)%Z ->
    forall ShaderModel MaxSM,
      (6 <= DXCompiler.Major MaxSM)%Z ->
      (DXCompiler.Major MaxSM = 6%Z -> 0 <= DXCompiler.Minor MaxSM)%Z ->
      let validate :=
        DXCompiler.validate_shader_model ShaderVersion_default
          ShaderVersion_eq ShaderVersion_gt in
      let SM := fst (validate ShaderModel MaxSM) in
      (6 <= DXCompiler.Major SM)%Z /\
      ShaderVersion_gt SM MaxSM = false /\
      (SM = ShaderModel \/ SM = MaxSM \/
       SM = {| DXCompiler.Major := 6; DXCompiler.Minor := 0 |}) /\
      ((6 <= DXCompiler.Major ShaderModel)%Z ->
       ShaderVersion_gt ShaderModel MaxSM = false -> SM = ShaderModel) /\
      fst (validate SM MaxSM) = SM.
Proof.
  intros sv_default sv_eq sv_gt Heq Hgt Hdef ShaderModel MaxSM Hmax Hmin
    validate SM.
  assert (Irr : forall v, sv_gt v v = false).
  { intros v. destruct (sv_gt v v) eqn:E; auto.
    apply Hgt in E. lia. }
  assert (G60 : sv_gt {| DXCompiler.Major := 6; DXCompiler.Minor := 0 |} MaxSM
                = false).
  { destruct (sv_gt _ MaxSM) eqn:E; auto.
    apply Hgt in E. cbn [DXCompiler.Major DXCompiler.Minor] in E. lia. }
  assert (NotDef : forall v, (6 <= DXCompiler.Major v)%Z ->
                             sv_eq v sv_default = false).
  { intros v Hv. destruct (sv_eq v sv_default) eqn:E; auto.
    apply Heq in E. subst v. lia. }
  assert (Keep : forall v, (6 <= DXCompiler.Major v)%Z ->
                           sv_gt v MaxSM = false ->
                           fst (validate v MaxSM) = v).
  { intros v Hv Hg. unfold validate, DXCompiler.validate_shader_model.
    rewrite (NotDef v Hv), Hg.
    replace (DXCompiler.Major v <? 6)%Z with false
      by (symmetry; apply Z.ltb_ge; lia).
    reflexivity. }
  assert (Cases : (SM = MaxSM \/
                   SM = {| DXCompiler.Major := 6; DXCompiler.Minor := 0 |})
                  \/ (SM = ShaderModel /\
                      (6 <= DXCompiler.Major ShaderModel)%Z /\
                      sv_gt ShaderModel MaxSM = false)).
  { unfold SM, validate, DXCompiler.validate_shader_model.
    destruct (sv_eq ShaderModel sv_default); cbn [fst]; auto.
    destruct (DXCompiler.Major ShaderModel <? 6)%Z eqn:E6; cbn [fst]; auto.
    apply Z.ltb_ge in E6.
    destruct (sv_gt ShaderModel MaxSM) eqn:Eg; cbn [fst]; auto. }
  assert (Ok : (6 <= DXCompiler.Major SM)%Z /\ sv_gt SM MaxSM = false).
  { destruct Cases as [[->| ->]|(-> & ? & ?)]; auto.
    split; auto. cbn [DXCompiler.Major]. lia. }
  destruct Ok as [Ok1 Ok2].
  split; [exact Ok1|]. split; [exact Ok2|]. split; [|split].
  - destruct Cases as [[?|?]|(? & _)]; auto.
  - intros H6 Hg. apply Keep; auto.
  - apply Keep; auto.
Qed.

Lemma validate_shader_model_bounds_witness :
  let validate :=
    DXCompiler.validate_shader_model CompilerExamples.version_0_0
      CompilerExamples.version_eq CompilerExamples.version_gt in
  let MaxSM := {| DXCompiler.Major := 6; DXCompiler.Minor := 4 |} in
  fst (validate {| DXCompiler.Major := 6; DXCompiler.Minor := 6 |} MaxSM)
  = MaxSM /\
  fst (validate {| DXCompiler.Major := 5; DXCompiler.Minor := 1 |} MaxSM)
  = {| DXCompiler.Major := 6; DXCompiler.Minor := 0 |} /\
  CompilerExamples.version_gt
    (fst (validate {| DXCompiler.Major := 6; DXCompiler.Minor := 6 |} MaxSM))
    MaxSM = false.
Proof.
  intros validate MaxSM.
  split; [reflexivity|]. split; [reflexivity|].
  exact (proj1 (proj2 (validate_shader_model_bounds
                         CompilerExamples.version_0_0
                         CompilerExamples.version_eq
                         CompilerExamples.version_gt
                         version_eq_spec version_gt_spec
                         ltac:(simpl; lia)
                         {| DXCompiler.Major := 6; DXCompiler.Minor := 6 |}
                         MaxSM ltac:(simpl; lia) ltac:(simpl; lia)))).
Defined.

(** The compiler arguments, for every version of the library, API
    version, shader model and build. A known target always gets [-Zpc]
    and exactly one of [-O3] and [-Od]; an unknown target gets no
    argument. [-Zi] is passed exactly for Direct3D12 in a debug build,
    where the optimisation flag is [-Od]; a release build for Direct3D12
    optimises exactly when the library is of version 1.5 or later.
    [-spirv] is passed exactly for Vulkan, with at most one target
    environment: Vulkan 1.2 needs API version 1.2 and the comparison of
    the shader model with 6.3 to hold. *)
Theorem DxilArgs_of_every_configuration :
  forall ShaderVersion_ge DILIGENT_DEBUG this ShaderModel,
    let args :=
      DXCompiler.DxilArgs ShaderVersion_ge DILIGENT_DEBUG this ShaderModel in
    let n flag := count_occ (list_eq_dec ascii_dec) args (lit flag) in
    let target := DXCompiler.m_Target this in
    (target = DXCompiler.TargetOther -> args = []) /\
    (target <> DXCompiler.TargetOther ->
     n "-Zpc"%string = 1 /\ n "-O3"%string + n "-Od"%string = 1) /\
    (0 < n "-Zi"%string <->
     target = DXCompiler.Direct3D12 /\ DILIGENT_DEBUG = true) /\
    (0 < n "-Zi"%string -> n "-Od"%string = 1) /\
    (target = DXCompiler.Direct3D12 -> DILIGENT_DEBUG = false ->
     (n "-O3"%string = 1 <-> DXCompiler.since_1_5 this = true)) /\
    (0 < n "-spirv"%string <-> target = DXCompiler.Vulkan) /\
    n "-fspv-target-env=vulkan1.1"%string
    + n "-fspv-target-env=vulkan1.2"%string <= 1 /\
    (0 < n "-fspv-target-env=vulkan1.2"%string ->
     target = DXCompiler.Vulkan /\
     (DXCompiler.VK_API_VERSION_1_2 <= DXCompiler.m_APIVersion this)%Z /\
     ShaderVersion_ge ShaderModel
       {| DXCompiler.Major := 6; DXCompiler.Minor := 3 |} = true).
Proof.
  intros sv_ge debug this ShaderModel args n target.
  unfold n, args, target, DXCompiler.DxilArgs.
  destruct (DXCompiler.m_Target this).
  - destruct debug, (DXCompiler.since_1_5 this); cbn;
      repeat split; intros; try discriminate; try lia; auto;
      try (destruct H; discriminate); intuition discriminate.
  - destruct (DXCompiler.VK_API_VERSION_1_2 <=? DXCompiler.m_APIVersion this)%Z
      eqn:E2;
      destruct (sv_ge ShaderModel {| DXCompiler.Major := 6;
                                     DXCompiler.Minor := 3 |}) eqn:E3;
      destruct (DXCompiler.VK_API_VERSION_1_1 <=? DXCompiler.m_APIVersion this)%Z
        eqn:E1; cbn;
      repeat split; intros; try discriminate; try lia; auto;
      try (destruct H; discriminate);
      try (apply Z.leb_le; assumption); intuition discriminate.
  - cbn. repeat split; intros; try discriminate; try lia; auto;
      try congruence; intuition discriminate.
Qed.

Section CompileShaderFacts.
Import DXCompiler.

Variable Base_Load : DXCompilerTarget -> Str -> option DxcCreateInstanceProc.
Variable ShaderVersion_default : ShaderVersion.
Variables ShaderVersion_eq ShaderVersion_gt ShaderVersion_ge :
  ShaderVersion -> ShaderVersion -> bool.
Variable ShaderCreateInfo : Type.
Variable Desc_ShaderType : ShaderCreateInfo -> SHADER_TYPE.
Variables Desc_Name CI_EntryPoint : ShaderCreateInfo -> Str.
Variable CI_pShaderSourceStreamFactory :
  ShaderCreateInfo -> option IShaderSourceInputStreamFactory.
Variable DILIGENT_DEBUG : bool.
Variable GetHLSLProfileString : SHADER_TYPE -> ShaderVersion -> Str.
Variable BuildHLSLSourceString : ShaderCreateInfo -> option Str -> Str.
Variable HandleHLSLCompilerResult :
  bool -> option Blob -> Str -> Str -> handler_result.

(** What a call of [Compile(const ShaderCreateInfo&, ...)] that returns
    after a compilation has done. The library was loaded; the source that
    was compiled is the text of [BuildHLSLSourceString], with the one
    macro [DXCOMPILER] defined; the compiler output is what
    [HandleHLSLCompilerResult] stored. The vector [*pByteCode] and the
    blob [*ppByteCodeBlob] are assigned exactly when they are asked for
    and the compilation succeeded with a blob that is not empty; the
    vector then holds the [size / 4] words of the blob, so that up to
    three bytes at its end are left out. *)
Theorem CompileShader_outputs :
  forall this ShaderCI ShaderModel ExtraDefinitions
         ppByteCodeBlob_given pByteCode_given
         pByteCode ppByteCodeBlob ppCompilerOutput,
    snd (CompileShader Base_Load ShaderVersion_default ShaderVersion_eq
           ShaderVersion_gt ShaderVersion_ge ShaderCreateInfo
           Desc_ShaderType Desc_Name CI_EntryPoint
           CI_pShaderSourceStreamFactory DILIGENT_DEBUG
           GetHLSLProfileString BuildHLSLSourceString
           HandleHLSLCompilerResult this ShaderCI ShaderModel
           ExtraDefinitions ppByteCodeBlob_given pByteCode_given)
    = ShaderCompiled pByteCode ppByteCodeBlob ppCompilerOutput ->
    exists proc CA r pDXIL pDxcLog,
      snd (Load Base_Load this) = Some proc /\
      Source CA = BuildHLSLSourceString ShaderCI ExtraDefinitions /\
      pDefines CA = [(lit "DXCOMPILER", [])] /\
      snd (Compile Base_Load (fst (Load Base_Load this)) CA)
      = Compiled r pDXIL pDxcLog /\
      HandleHLSLCompilerResult r pDxcLog (Source CA) (Desc_Name ShaderCI)
      = Handled ppCompilerOutput /\
      match pDXIL with
      | Some DXIL =>
          if r && (0 <? length DXIL)
          then
            pByteCode
            = (if pByteCode_given then Some (to_words DXIL) else None) /\
            length (to_words DXIL) = length DXIL / 4 /\
            ppByteCodeBlob
            = (if ppByteCodeBlob_given then Some DXIL else None)
          else pByteCode = None /\ ppByteCodeBlob = None
      | None => pByteCode = None /\ ppByteCodeBlob = None
      end.
Proof.
  intros this ShaderCI ShaderModel ExtraDefinitions bg pg
    pByteCode ppByteCodeBlob ppCompilerOutput.
  unfold CompileShader, IsLoaded, GetMaxShaderModel, GetCreateInstaceProc.
  pose proof (Load_again Base_Load Base_Load this) as A.
  destruct (Load Base_Load this) as [this1 p] eqn:EL. cbn [fst snd] in *.
  destruct p as [proc|]; cbn [negb snd]; [|discriminate].
  rewrite A.
  destruct (validate_shader_model _ _ _ ShaderModel (m_MaxShaderModel this1))
    as [SM log].
  set (CA := shader_compile_attribs _ _ _ _ _ _ _ _ this1 ShaderCI SM
               ExtraDefinitions).
  destruct (Compile Base_Load this1 CA) as [this2 res] eqn:EC.
  cbn [snd].
  destruct res as [r pDXIL pDxcLog|]; [|discriminate].
  destruct (HandleHLSLCompilerResult r pDxcLog (Source CA)
              (Desc_Name ShaderCI)) as [out|] eqn:EH; [|discriminate].
  intros H.
  exists proc, CA, r, pDXIL, pDxcLog.
  split; [reflexivity|]. split; [reflexivity|]. split; [reflexivity|].
  split; [now rewrite EC|].
  destruct pDXIL as [DXIL|].
  - destruct (r && (0 <? length DXIL)); inversion H; subst.
    + split; [exact EH|]. split; [reflexivity|].
      split; [apply to_words_length|reflexivity].
    + split; [exact EH|]. split; reflexivity.
  - inversion H; subst. split; [exact EH|]. split; reflexivity.
Qed.

End CompileShaderFacts.

Lemma CompileShader_outputs_witness :
  snd CompilerExamples.compile_main
  = DXCompiler.ShaderCompiled (Some [67305985%Z])
      (Some (Container.bytes [1; 2; 3; 4; 5; 6]%N))
      (Some (Container.bytes [119; 33]%N)) /\
  exists proc CA r pDXIL pDxcLog,
    snd (DXCompiler.Load CompilerExamples.load_library_1_5
           CompilerExamples.vulkan_compiler) = Some proc /\
    DXCompiler.Source CA = DXCompiler.Source CompilerExamples.some_attribs /\
    DXCompiler.pDefines CA = [(lit "DXCOMPILER", [])] /\
    snd (DXCompiler.Compile CompilerExamples.load_library_1_5
           (fst (DXCompiler.Load CompilerExamples.load_library_1_5
                   CompilerExamples.vulkan_compiler)) CA)
    = DXCompiler.Compiled r pDXIL pDxcLog /\
    CompilerExamples.hand_on_log r pDxcLog (DXCompiler.Source CA)
      (lit "shader")
    = DXCompiler.Handled (Some (Container.bytes [119; 33]%N)) /\
    match pDXIL with
    | Some DXIL =>
        if r && (0 <? length DXIL)
        then
          Some [67305985%Z] = Some (DXCompiler.to_words DXIL) /\
          length (DXCompiler.to_words DXIL) = length DXIL / 4 /\
          Some (Container.bytes [1; 2; 3; 4; 5; 6]%N) = Some DXIL
        else Some [67305985%Z] = None /\
             Some (Container.bytes [1; 2; 3; 4; 5; 6]%N) = None
    | None => Some [67305985%Z] = None /\
              Some (Container.bytes [1; 2; 3; 4; 5; 6]%N) = None
    end.
Proof.
  split; [reflexivity|].
  exact (CompileShader_outputs CompilerExamples.load_library_1_5
           CompilerExamples.version_0_0 CompilerExamples.version_eq
           CompilerExamples.version_gt CompilerExamples.version_ge
           CompilerExamples.entry_point_only (fun _ => SHADER_TYPE_PIXEL)
           (fun _ => lit "shader") (fun ShaderCI => ShaderCI)
           (fun _ => None) false CompilerExamples.profile_ps_6_0
           CompilerExamples.fixed_source CompilerExamples.hand_on_log
           CompilerExamples.vulkan_compiler (lit "main")
           CompilerExamples.version_0_0 None true true
           (Some [67305985%Z])
           (Some (Container.bytes [1; 2; 3; 4; 5; 6]%N))
           (Some (Container.bytes [119; 33]%N)) eq_refl).
Defined.

(* ================================================================== *)
(** * The ray-tracing patcher at a record *)
(* ================================================================== *)

Section RayTracingRecordFacts.

Lemma ext_lookup_set_RecordId m k id :
  ext_lookup (ext_set_RecordId m k id) k
  = option_map (fun e => set_RecordId e id) (ext_lookup m k).
Proof.
  induction m as [|[k1 e1] m IH]; simpl; auto.
  destruct (same_key k k1) eqn:E; simpl; now rewrite E.
Qed.

Lemma ext_lookup_entry_self m k :
  ext_lookup (snd (ext_entry m k)) k = Some (fst (ext_entry m k)).
Proof.
  rewrite ext_lookup_ext_entry, same_key_refl.
  unfold ext_entry. destruct (ext_lookup m k); reflexivity.
Qed.

End RayTracingRecordFacts.

(** The ray-tracing patcher on the record of a resource. When the
    quoted name is found, the record before it opens with an integer id,
    and the fields after the name read the source space and the source
    register of the resource, one iteration rewrites the two fields to
    the requested space and register, in this order, leaves the rest of
    the buffer as it is, and stores the id of the record in the entry of
    the resource. *)
Theorem PatchResourceDeclarationRT_rewrites_the_record :
  forall ExtResMap ResPair H f1 f2 R v1 v2 p q rid,
    let Ext := fst (ext_entry ExtResMap ResPair) in
    let DXIL :=
      H ++ DxilName ResPair ++ lit ", i32 " ++ f1 ++ lit ", i32 " ++ f2
        ++ R in
    let DXIL' :=
      H ++ DxilName ResPair
        ++ lit ", i32 " ++ to_string (Space (snd ResPair))
        ++ lit ", i32 " ++ to_string (BindPoint (snd ResPair)) ++ R in
    find (DxilName ResPair) DXIL 0 = Some (length H) ->
    rfind ResourceRecStart DXIL (length H) = Some p ->
    starts_with i32 (skipn (p + 4) DXIL) = true ->
    find_first_not_of NumberSymbols DXIL (p + 8) = Some q ->
    atoi (skipn (p + 8) DXIL) = Some rid ->
    number_symbols f1 -> number_symbols f2 -> ends_number R = true ->
    stoi f1 = StoiValue v1 -> stoi f2 = StoiValue v2 ->
    (v1 mod 2 ^ 32)%Z = SrcSpace Ext ->
    (v2 mod 2 ^ 32)%Z = SrcBindPoint Ext ->
    exists ExtResMap',
      PatchResourceDeclarationRT_step ExtResMap ResPair DXIL
      = Ret ExtResMap' DXIL' /\
      PatchResourceDeclarationRT [ResPair] ExtResMap DXIL
      = Ret ExtResMap' DXIL' /\
      ext_lookup ExtResMap' ResPair
      = Some (set_RecordId Ext (rid mod 2 ^ 32)%Z).
Proof.
  intros ExtResMap ResPair H f1 f2 R v1 v2 p q rid Ext DXIL DXIL'
    Hfind Hrfind Hi32 Hend Hid Hf1 Hf2 HR Hv1 Hv2 Hs Hb.
  change (2 ^ 32)%Z with two32 in *. fold (u32 v1) in Hs.
  fold (u32 v2) in Hb. fold (u32 rid).
  exists (ext_set_RecordId (snd (ext_entry ExtResMap ResPair)) ResPair
            (u32 rid)).
  assert (Step : PatchResourceDeclarationRT_step ExtResMap ResPair DXIL
                 = Ret (ext_set_RecordId (snd (ext_entry ExtResMap ResPair))
                          ResPair (u32 rid)) DXIL').
  { unfold DxilName in *.
    rewrite (PatchResourceDeclarationRT_step_replacements ExtResMap ResPair
               DXIL (length H) p q rid) by assumption.
    fold Ext.
    set (N := lit "!" ++ [dquote] ++ fst ResPair ++ [dquote]) in *.
    assert (D1 : DXIL = (H ++ N) ++ lit ", i32 " ++ f1
                          ++ lit ", i32 " ++ f2 ++ R)
      by (unfold DXIL; now rewrite <- !app_assoc).
    erewrite bind_Ret.
    2:{ rewrite D1, <- length_app.
        rewrite (ReplaceRecord_on_field (H ++ N) f1
                   (lit ", i32 " ++ f2 ++ R)), Hv1; auto.
        rewrite Hs, Z.eqb_refl. reflexivity. }
    erewrite bind_Ret.
    2:{ rewrite <- length_record_prefix.
        replace ((H ++ N) ++ lit ", i32 " ++ to_string (Space (snd ResPair))
                   ++ lit ", i32 " ++ f2 ++ R)
          with (((H ++ N) ++ lit ", i32 " ++ to_string (Space (snd ResPair)))
                  ++ lit ", i32 " ++ f2 ++ R)
          by (now rewrite <- !app_assoc).
        rewrite (ReplaceRecord_on_field _ f2 R), Hv2; auto.
        rewrite Hb, Z.eqb_refl. reflexivity. }
    unfold ret. f_equal. unfold DXIL'. now rewrite <- !app_assoc. }
  split; [exact Step|]. split.
  - unfold PatchResourceDeclarationRT. cbn [PatchResourceDeclarationRT_loop].
    erewrite bind_Ret; [|exact Step]. reflexivity.
  - rewrite ext_lookup_set_RecordId, ext_lookup_entry_self. reflexivity.
Qed.

Lemma PatchResourceDeclarationRT_rewrites_the_record_witness :
  exists ExtResMap',
    PatchResourceDeclarationRT_step
      [(Examples.g_Tex, Examples.g_Tex_ext)] Examples.g_Tex
      Examples.g_Tex_module
    = Ret ExtResMap' Examples.g_Tex_declaration_patched /\
    PatchResourceDeclarationRT [Examples.g_Tex]
      [(Examples.g_Tex, Examples.g_Tex_ext)] Examples.g_Tex_module
    = Ret ExtResMap' Examples.g_Tex_declaration_patched /\
    ext_lookup ExtResMap' Examples.g_Tex
    = Some (set_RecordId Examples.g_Tex_ext 0).
Proof.
  exact (PatchResourceDeclarationRT_rewrites_the_record
           [(Examples.g_Tex, Examples.g_Tex_ext)] Examples.g_Tex
           (ir "!5 = !{i32 0, %'class.Texture2D<float>'* undef, ")
           (lit "2") (lit "0")
           (ir ", i32 1}|  %1 = call %dx.types.Handle @dx.op.createHandle(i32 57, i8 0, i32 0, i32 0, i1 false)|")
           2 0 3 12 0
           eq_refl eq_refl eq_refl eq_refl eq_refl
           ltac:(repeat constructor) ltac:(repeat constructor)
           eq_refl eq_refl eq_refl eq_refl eq_refl).
Defined.

(* ================================================================== *)
(** * The generic declaration patcher at a record *)
(* ================================================================== *)

Section GenericRecordFacts.

Lemma ReadResName_scan_name name rest pos :
  Forall (fun c => IsWordSymbol c = true) name ->
  ReadResName_scan (name ++ dquote :: rest) pos = (true, pos + length name).
Proof.
  intros H. revert pos. induction H as [|c name Hc _ IH]; intros pos.
  - simpl. now rewrite Nat.add_0_r.
  - simpl. rewrite Hc, IH. f_equal. lia.
Qed.

Lemma ReadResName_on_name B name rest :
  Forall (fun c => IsWordSymbol c = true) name ->
  ReadResName (B ++ name ++ dquote :: rest) (length B)
  = (true, length B + length name, name).
Proof.
  intros H. unfold ReadResName. rewrite skipn_app_exact.
  rewrite ReadResName_scan_name by assumption.
  replace (length B + length name - length B) with (length name) by lia.
  now rewrite firstn_app_exact.
Qed.


(** One iteration of the generic patcher on a buffer that has a record
    at [P]: the searches and the classification done, what is left is
    the reading and the rewriting of the two fields. *)
Lemma PatchResourceDeclaration_step_on_record ExtResMap pos P id T name
    fields rid ResType :
  let P2 := P ++ ResourceRecStart ++ i32 ++ id in
  let P3 := P2 ++ lit ", %" ++ T in
  let P4 := P3 ++ ResNameDecl in
  let DXIL := P4 ++ name ++ [dquote] ++ fields in
  find ResNameDecl DXIL pos = Some (length P3) ->
  rfind ResourceRecStart DXIL (length P3) = Some (length P) ->
  number_symbols id ->
  atoi (skipn (length P + 8) DXIL) = Some rid ->
  classify DXIL (fst (skip_name_parts DXIL (length P2 + 3)))
    (snd (skip_name_parts DXIL (length P2 + 3))) ExtResMap = ResType ->
  ResType <> RES_TYPE_INVALID ->
  Forall (fun c => IsWordSymbol c = true) name ->
  PatchResourceDeclaration_step ExtResMap pos DXIL
  = patch_declaration ExtResMap (length P4)
      (length (P4 ++ name ++ [dquote])) name (u32 rid) ResType DXIL.
Proof.
  intros P2 P3 P4 DXIL Hfind Hrfind Hid Hrid Hcls Hty Hname.
  set (A := P4 ++ name ++ [dquote]).
  assert (D4 : DXIL = P4 ++ name ++ dquote :: fields) by reflexivity.
  assert (D2 : DXIL = P2 ++ lit ", " ++ "%"%char :: T ++ ResNameDecl ++ name
                        ++ dquote :: fields).
  { unfold DXIL, P4, P3. now rewrite <- !app_assoc. }
  assert (D1 : DXIL = (P ++ ResourceRecStart ++ i32) ++ id ++ ","%char
                        :: " "%char :: "%"%char :: T ++ ResNameDecl ++ name
                        ++ dquote :: fields).
  { rewrite D2. unfold P2. now rewrite <- !app_assoc. }
  assert (D0 : DXIL = (P ++ ResourceRecStart) ++ i32 ++ id ++ lit ", %"
                        ++ T ++ ResNameDecl ++ name ++ dquote :: fields).
  { rewrite D1. now rewrite <- !app_assoc. }
  assert (L4 : length P3 + length ResNameDecl = length P4)
    by (unfold P4; now rewrite length_app).
  assert (L1 : length P + length ResourceRecStart + length i32
               = length (P ++ ResourceRecStart ++ i32))
    by (rewrite !length_app; lia).
  assert (L2 : length (P ++ ResourceRecStart ++ i32) + length id = length P2).
  { unfold P2. rewrite !length_app. lia. }
  assert (LA : length P4 + length name + 1 = length A).
  { unfold A. rewrite !length_app. simpl. lia. }
  unfold PatchResourceDeclaration_step. unfold bind at 1. unfold get.
  rewrite Hfind, L4.
  assert (S0 : ReadResName DXIL (length P4)
               = (true, length P4 + length name, name)).
  { rewrite D4. now apply ReadResName_on_name. }
  rewrite S0. cbn [negb]. rewrite Hrfind.
  assert (S1 : starts_with i32 (skipn (length P + length ResourceRecStart)
                                  DXIL) = true).
  { rewrite D0. rewrite <- length_app, skipn_app_exact.
    apply starts_with_app. }
  rewrite S1. cbn [negb]. rewrite L1.
  assert (S2 : find_first_not_of NumberSymbols DXIL
                 (length (P ++ ResourceRecStart ++ i32))
               = Some (length P2)).
  { unfold find_first_not_of. rewrite D1. rewrite skipn_app_exact.
    rewrite first_not_of_app_stop by (auto; reflexivity).
    cbn [option_map]. now rewrite L2. }
  rewrite S2.
  assert (S3 : atoi_u32 DXIL (length (P ++ ResourceRecStart ++ i32)) DXIL
               = Ret (u32 rid) DXIL).
  { unfold atoi_u32. rewrite <- L1.
    change (length ResourceRecStart) with 4. change (length i32) with 4.
    rewrite <- Nat.add_assoc. change (4 + 4) with 8. now rewrite Hrid. }
  erewrite bind_Ret; [|exact S3].
  assert (S4 : comma_space_at DXIL (length P2) = true).
  { rewrite D2. apply comma_space_at_app. }
  rewrite S4. unfold check at 1. unfold bind at 1. unfold ret at 1.
  assert (S5 : at_ DXIL (length P2 + 2) = "%"%char).
  { rewrite D2. rewrite at_app_plus. reflexivity. }
  rewrite S5. change (Ascii.eqb "%" "[") with false. cbv iota zeta.
  rewrite ?S5. change (Ascii.eqb "%" "%") with true. cbn [negb].
  replace (length P2 + 2 + 1) with (length P2 + 3) by lia.
  destruct (skip_name_parts DXIL (length P2 + 3)) as [np parts].
  cbn [fst snd] in Hcls. rewrite Hcls.
  replace (RES_TYPE_eqb ResType RES_TYPE_INVALID) with false
    by (destruct ResType; try reflexivity; congruence).
  now rewrite LA.
Qed.

End GenericRecordFacts.

(** One iteration of the generic declaration patcher on a record. The
    record opens with an integer id, has a type that is not an array and
    that the patcher takes for a resource of some type, a name of word
    characters, which may be empty, and a space and a register field
    that select an entry of the extended map. The iteration rewrites the
    two fields to the space and the register requested for that entry,
    writes the name of the resource when the record has none, stores the
    id of the record in the entry, and leaves every other character of
    the buffer as it is. *)
Theorem PatchResourceDeclaration_rewrites_the_record :
  forall ExtResMap pos P id T name f1 f2 R rid v1 v2 ResType k e,
    let P2 := P ++ ResourceRecStart ++ i32 ++ id in
    let P3 := P2 ++ lit ", %" ++ T in
    let P4 := P3 ++ ResNameDecl in
    let fields :=
      lit ", i32 " ++ f1 ++ lit ", i32 " ++ f2 ++ R in
    let fields' :=
      lit ", i32 " ++ to_string (Space (snd k))
        ++ lit ", i32 " ++ to_string (BindPoint (snd k)) in
    let DXIL := P4 ++ name ++ [dquote] ++ fields in
    find ResNameDecl DXIL pos = Some (length P3) ->
    rfind ResourceRecStart DXIL (length P3) = Some (length P) ->
    number_symbols id ->
    atoi (skipn (length P + 8) DXIL) = Some rid ->
    classify DXIL (fst (skip_name_parts DXIL (length P2 + 3)))
      (snd (skip_name_parts DXIL (length P2 + 3))) ExtResMap = ResType ->
    ResType <> RES_TYPE_INVALID ->
    Forall (fun c => IsWordSymbol c = true) name ->
    number_symbols f1 -> number_symbols f2 -> ends_number R = true ->
    stoi f1 = StoiValue v1 -> stoi f2 = StoiValue v2 ->
    find_declared ExtResMap (v2 mod 2 ^ 32)%Z (v1 mod 2 ^ 32)%Z ResType
    = Some (k, e) ->
    PatchResourceDeclaration_step ExtResMap pos DXIL
    = Ret (set_declared_RecordId ExtResMap (v2 mod 2 ^ 32)%Z
             (v1 mod 2 ^ 32)%Z ResType (rid mod 2 ^ 32)%Z,
           Continue (length (P4 ++ name ++ [dquote] ++ fields')))
          (P4 ++ (match name with [] => fst k | _ :: _ => name end)
              ++ [dquote] ++ fields' ++ R).
Proof.
  intros ExtResMap pos P id T name f1 f2 R rid v1 v2 ResType k e
    P2 P3 P4 fields fields' DXIL
    Hfind Hrfind Hid Hrid Hcls Hty Hname Hf1 Hf2 HR Hv1 Hv2 Hdecl.
  change (2 ^ 32)%Z with two32 in *.
  fold (u32 v1) in *. fold (u32 v2) in *. fold (u32 rid).
  unfold DXIL, P4, P3, P2.
  rewrite (PatchResourceDeclaration_step_on_record ExtResMap pos P id T name
             fields rid ResType) by assumption.
  fold P2 P3 P4. set (A := P4 ++ name ++ [dquote]).
  replace (P4 ++ name ++ [dquote] ++ fields)
    with (A ++ lit ", i32 " ++ f1 ++ lit ", i32 " ++ f2 ++ R)
    by (unfold A, fields; now rewrite <- !app_assoc).
  rewrite (patch_declaration_on_fields ExtResMap (length P4) name (u32 rid)
             ResType A f1 f2 R v1 v2); auto;
    [|unfold A; rewrite length_app; lia].
  rewrite Hdecl. cbv zeta. f_equal.
  - f_equal. f_equal. unfold A, fields'. rewrite !length_app. simpl. lia.
  - destruct name as [|c name].
    + unfold A. cbn [app].
      replace ((P4 ++ [dquote]) ++ lit ", i32 " ++ to_string (Space (snd k))
                 ++ lit ", i32 " ++ to_string (BindPoint (snd k)) ++ R)
        with (P4 ++ [dquote] ++ fields' ++ R)
        by (unfold fields'; now rewrite <- !app_assoc).
      now rewrite firstn_app_exact, skipn_app_exact.
    + unfold A, fields'. now rewrite <- !app_assoc.
Qed.

Lemma PatchResourceDeclaration_rewrites_the_record_witness :
  PatchResourceDeclaration_step [(Examples.g_Tex, Examples.g_Tex_ext)] 0
    Examples.unnamed_record
  = Ret ([(Examples.g_Tex, set_RecordId Examples.g_Tex_ext 0)], Continue 65)
        Examples.unnamed_record_patched.
Proof.
  exact (PatchResourceDeclaration_rewrites_the_record
           [(Examples.g_Tex, Examples.g_Tex_ext)] 0
           (ir "!5 ") (lit "0") (ir "'class.Texture2D<float>'* undef") []
           (lit "2") (lit "0") (ir ", i32 1}|") 0 2 0 RES_TYPE_SRV
           Examples.g_Tex Examples.g_Tex_ext
           eq_refl eq_refl ltac:(repeat constructor) eq_refl eq_refl
           ltac:(discriminate) ltac:(constructor)
           ltac:(repeat constructor) ltac:(repeat constructor)
           eq_refl eq_refl eq_refl eq_refl).
Defined.

(** The generic patcher is strict. A record that it takes for a
    resource declaration of some type, and whose space and register it
    reads, must have an entry of that register, space and type in the
    extended map: without one the pass throws at this record with the
    buffer as it was, and [PatchDXIL] returns [false]. With an empty
    extended map every such record stops the pass. *)
Theorem PatchResourceDeclaration_needs_an_entry :
  forall fuel ResourceMap ExtResMap ShaderType P id T name f1 f2 R rid
         v1 v2 ResType,
    let P2 := P ++ ResourceRecStart ++ i32 ++ id in
    let P3 := P2 ++ lit ", %" ++ T in
    let P4 := P3 ++ ResNameDecl in
    let fields :=
      lit ", i32 " ++ f1 ++ lit ", i32 " ++ f2 ++ R in
    let DXIL := P4 ++ name ++ [dquote] ++ fields in
    let failure :=
      lit "Unable to patch DXIL: failed to find resource in ResourceMap" in
    find ResNameDecl DXIL 0 = Some (length P3) ->
    rfind ResourceRecStart DXIL (length P3) = Some (length P) ->
    number_symbols id ->
    atoi (skipn (length P + 8) DXIL) = Some rid ->
    classify DXIL (fst (skip_name_parts DXIL (length P2 + 3)))
      (snd (skip_name_parts DXIL (length P2 + 3))) ExtResMap = ResType ->
    ResType <> RES_TYPE_INVALID ->
    Forall (fun c => IsWordSymbol c = true) name ->
    number_symbols f1 -> number_symbols f2 -> ends_number R = true ->
    stoi f1 = StoiValue v1 -> stoi f2 = StoiValue v2 ->
    (forall k e, In (k, e) ExtResMap ->
       SrcBindPoint e = (v2 mod 2 ^ 32)%Z ->
       SrcSpace e = (v1 mod 2 ^ 32)%Z ->
       Type_ e <> ResType) ->
    0 < fuel -> is_ray_tracing ShaderType = false ->
    PatchResourceDeclaration_step ExtResMap 0 DXIL = Throw failure DXIL /\
    PatchResourceDeclaration fuel ExtResMap DXIL = Throw failure DXIL /\
    PatchDXIL fuel ResourceMap ExtResMap ShaderType DXIL = Ret false DXIL.
Proof.
  intros fuel ResourceMap ExtResMap ShaderType P id T name f1 f2 R rid
    v1 v2 ResType P2 P3 P4 fields DXIL failure
    Hfind Hrfind Hid Hrid Hcls Hty Hname Hf1 Hf2 HR Hv1 Hv2 Hnone Hfuel Hrt.
  change (2 ^ 32)%Z with two32 in *.
  fold (u32 v1) in *. fold (u32 v2) in *.
  assert (Step : PatchResourceDeclaration_step ExtResMap 0 DXIL
                 = Throw failure DXIL).
  { unfold DXIL, P4, P3, P2.
    rewrite (PatchResourceDeclaration_step_on_record ExtResMap 0 P id T name
               fields rid ResType) by assumption.
    fold P2 P3 P4. set (A := P4 ++ name ++ [dquote]).
    assert (DA : P4 ++ name ++ [dquote] ++ fields
                 = A ++ lit ", i32 " ++ f1 ++ lit ", i32 " ++ f2 ++ R)
      by (unfold A, fields; now rewrite <- !app_assoc).
    fold DXIL. fold DXIL in DA. rewrite DA.
    rewrite (patch_declaration_on_fields ExtResMap (length P4) name (u32 rid)
               ResType A f1 f2 R v1 v2); auto;
      [|unfold A; rewrite length_app; lia].
    destruct (find_declared ExtResMap (u32 v2) (u32 v1) ResType)
      as [[k e]|] eqn:F; [|reflexivity].
    exfalso. apply find_declared_Some in F as (Hin & Hbp & Hsp & Hte).
    apply (Hnone k e Hin Hbp Hsp).
    destruct (Type_ e), ResType; simpl in Hte; congruence. }
  assert (Pass : PatchResourceDeclaration fuel ExtResMap DXIL
                 = Throw failure DXIL).
  { destruct fuel as [|fuel]; [lia|].
    unfold PatchResourceDeclaration. cbn [PatchResourceDeclaration_loop].
    unfold bind at 1. unfold get.
    assert (Hlen : (0 <? length DXIL) = true).
    { apply Nat.ltb_lt. unfold DXIL. rewrite !length_app. simpl. lia. }
    rewrite Hlen. cbn [negb]. now apply bind_Throw. }
  split; [exact Step|]. split; [exact Pass|].
  unfold PatchDXIL, PatchDXIL_body. rewrite Hrt.
  unfold bind. now rewrite Pass.
Qed.

Lemma PatchResourceDeclaration_needs_an_entry_witness :
  PatchResourceDeclaration_step [] 0 Examples.unnamed_record
  = Throw (lit "Unable to patch DXIL: failed to find resource in ResourceMap")
      Examples.unnamed_record /\
  PatchResourceDeclaration 1 [] Examples.unnamed_record
  = Throw (lit "Unable to patch DXIL: failed to find resource in ResourceMap")
      Examples.unnamed_record /\
  PatchDXIL 1 [] [] SHADER_TYPE_PIXEL Examples.unnamed_record
  = Ret false Examples.unnamed_record.
Proof.
  apply (PatchResourceDeclaration_needs_an_entry 1 [] [] SHADER_TYPE_PIXEL
           (ir "!5 ") (lit "0") (ir "'class.Texture2D<float>'* undef") []
           (lit "2") (lit "0") (ir ", i32 1}|") 0 2 0 RES_TYPE_SRV);
    try reflexivity; try (repeat constructor); try discriminate.
  intros k e [].
Defined.
